(** * Weekly timesheet summary: a shallow embedding of [summary_mail/app.py]

    The development follows the order of the Python module: column
    detection ([find_col]), schema normalisation ([normalize_schema]),
    date parsing ([parse_any_date]), week ranges ([get_week_ranges]), the
    three section builders, the HTML helper and the request handler
    ([upload_timesheet]).

    Conventions.
    - Python strings are [string]s; [str.lower] is the ASCII case mapping
      (labels outside ASCII are out of the model's reach).
    - A [DataFrame] is a row count together with an ordered list of
      labelled columns; labels may repeat, as in pandas.
    - Python exceptions are the [Raise] results of the [exc] monad.
    - [float] is IEEE binary64 ([PrimFloat]); [int64] columns are [Z] with
      the wrap-around written out. *)

From Stdlib Require Import ZArith List Bool Ascii String Lia PrimFloat SpecFloat FloatOps.
Import ListNotations.

Local Open Scope string_scope.
Local Open Scope list_scope.

(** ** Exceptions *)

Inductive exn : Type :=
| ValueError (msg : string)
| TypeError (msg : string)
| KeyError (msg : string)
| AttributeError (msg : string)
| OverflowError (msg : string).

Inductive exc (A : Type) : Type :=
| Ok (a : A)
| Raise (e : exn).
Arguments Ok {A} a.
Arguments Raise {A} e.

Definition bind {A B : Type} (m : exc A) (k : A -> exc B) : exc B :=
  match m with
  | Ok a => k a
  | Raise e => Raise e
  end.

Notation "x <- m ;; k" := (bind m (fun x => k))
  (at level 61, m at next level, right associativity).

Fixpoint mapM {A B : Type} (f : A -> exc B) (l : list A) : exc (list B) :=
  match l with
  | [] => Ok []
  | a :: l' => b <- f a ;; bs <- mapM f l' ;; Ok (b :: bs)
  end.

(** ** Strings *)

Module Str.

(** [c.lower()] on one ASCII character. *)
Definition lower_ascii (c : ascii) : ascii :=
  let n := nat_of_ascii c in
  if (65 <=? n)%nat && (n <=? 90)%nat then ascii_of_nat (n + 32) else c.

(** [s.lower()]. *)
Fixpoint lower (s : string) : string :=
  match s with
  | EmptyString => EmptyString
  | String c s' => String (lower_ascii c) (lower s')
  end.

(** [s.startswith(p)]. *)
Fixpoint startswith (p s : string) : bool :=
  match p, s with
  | EmptyString, _ => true
  | String _ _, EmptyString => false
  | String a p', String b s' => Ascii.eqb a b && startswith p' s'
  end.

(** [n in s]: the substring test. *)
Fixpoint contains (n s : string) : bool :=
  startswith n s ||
  match s with
  | EmptyString => false
  | String _ s' => contains n s'
  end.

(** [s.endswith(p)]. *)
Fixpoint endswith (p s : string) : bool :=
  String.eqb p s ||
  match s with
  | EmptyString => false
  | String _ s' => endswith p s'
  end.


(** Characters [str.strip()] removes (the ASCII ones). *)
Definition is_space (c : ascii) : bool :=
  let n := nat_of_ascii c in
  ((9 <=? n)%nat && (n <=? 13)%nat) || ((28 <=? n)%nat && (n <=? 32)%nat).

Fixpoint lstrip (s : string) : string :=
  match s with
  | EmptyString => EmptyString
  | String c s' => if is_space c then lstrip s' else s
  end.

Fixpoint rstrip (s : string) : string :=
  match s with
  | EmptyString => EmptyString
  | String c s' =>
      match rstrip s' with
      | EmptyString => if is_space c then EmptyString else String c EmptyString
      | r => String c r
      end
  end.

(** [s.strip()]. *)
Definition strip (s : string) : string := rstrip (lstrip s).

End Str.

(** ** Column detection *)

(** The inner loop of [find_col]: [any(n in lc for n in needles)], with the
    needles visited in list order. *)
Fixpoint match_needles (lc : string) (needles : list string) : bool :=
  match needles with
  | [] => false
  | n :: ns => if Str.contains n lc then true else match_needles lc ns
  end.

(** [find_col(cols, needles)]: the outer loop runs over the columns, the
    inner one over the needles; the first column for which some needle
    matches is returned. *)
Fixpoint find_col (cols : list string) (needles : list string) : option string :=
  match cols with
  | [] => None
  | c :: cs =>
      let lc := Str.lower c in
      if match_needles lc needles then Some c else find_col cs needles
  end.

(** The resolver as the specification words it: the needles are tried in
    priority order, and the first needle that matches some column decides. *)
Definition first_col_with (cols : list string) (n : string) : option string :=
  find (fun c => Str.contains n (Str.lower c)) cols.

Fixpoint find_col_by_needle_priority (cols : list string) (needles : list string)
  : option string :=
  match needles with
  | [] => None
  | n :: ns =>
      match first_col_with cols n with
      | Some c => Some c
      | None => find_col_by_needle_priority cols ns
      end
  end.

(** ** Floating point and machine integers *)

Module Flt.

Local Open Scope Z_scope.

(** The binary64 value nearest to an integer. *)
Definition of_Z (z : Z) : float := SF2Prim (binary_normalize prec emax z 0 false).

(** Truncation toward zero of a finite float; [0] on the others. *)
Definition trunc (f : float) : Z :=
  match Prim2SF f with
  | S754_finite s m e =>
      let v := if 0 <=? e then Z.shiftl (Zpos m) e else Z.shiftr (Zpos m) (- e) in
      if s then - v else v
  | _ => 0
  end.

(** Python's [bool(x)] on a float: true unless [x == 0.0] (so NaN is true). *)
Definition truthy (f : float) : bool := negb (f =? 0)%float.

Definition signbit (x : float) : bool :=
  match classify x with
  | FloatClass.NInf | FloatClass.NNormal | FloatClass.NSubn | FloatClass.NZero => true
  | _ => false
  end.

Definition two52 : float := Eval vm_compute in of_Z (2 ^ 52).

(** [numpy.rint]: nearest integer, ties to even, sign kept. *)
Definition rint (x : float) : float :=
  if (abs x <? two52)%float then
    let r := ((abs x + two52) - two52)%float in
    if signbit x then (- r)%float else r
  else x.

(** [numpy.round(x, d)] for [d >= 0], which numpy computes as
    [rint(x * 10**d) / 10**d]. *)
Definition round_dec (d : Z) (x : float) : float :=
  let p := of_Z (10 ^ d) in (rint (x * p) / p)%float.

End Flt.

Module Int64.

Local Open Scope Z_scope.

Definition min_signed : Z := - 2 ^ 63.
Definition max_signed : Z := 2 ^ 63 - 1.

(** Two's-complement wrap-around of an [int64] result. *)
Definition wrap (z : Z) : Z := (z + 2 ^ 63) mod 2 ^ 64 - 2 ^ 63.

Definition in_range (z : Z) : bool := (min_signed <=? z) && (z <=? max_signed).

End Int64.

(** ** Cells and data frames *)

(** A scalar as [pandas.read_excel] delivers it in a cell.  [CNaN] is the
    missing cell (float NaN); [CDatetime] is a [datetime]/[Timestamp] given
    by its proleptic Gregorian ordinal and the nanoseconds into that day;
    [CDate] is a [datetime.date] given by its ordinal. *)
Inductive cell : Type :=
| CNaN
| CStr (s : string)
| CInt (z : Z)
| CFloat (f : float)
| CBool (b : bool)
| CDatetime (day : Z) (ns : Z)
| CDate (day : Z).

(** [pd.isna(val)] on a scalar. *)
Definition isna (c : cell) : bool :=
  match c with
  | CNaN => true
  | CFloat f => is_nan f
  | _ => false
  end.

Definition Series : Type := list cell.

Record DataFrame : Type := mkDF {
  nrows : nat;
  df_cols : list (string * Series)
}.

(** [df.columns]. *)
Definition columns (df : DataFrame) : list string := map fst (df_cols df).

(** [name in df.columns]. *)
Definition has_column (name : string) (df : DataFrame) : bool :=
  existsb (String.eqb name) (columns df).

(** [df.rename(columns={old: new})]: every column labelled [old] is
    relabelled; a key that labels no column is ignored. *)
Definition rename (old new : string) (df : DataFrame) : DataFrame :=
  mkDF (nrows df)
       (map (fun lc => (if String.eqb (fst lc) old then new else fst lc, snd lc)) (df_cols df)).

(** [if col: df = df.rename(columns={col: new})], where [col] is the
    result of [find_col]; [None] and the empty label are falsy. *)
Definition rename_found (col : option string) (new : string) (df : DataFrame) : DataFrame :=
  match col with
  | Some old => if String.eqb old "" then df else rename old new df
  | None => df
  end.

(** [df[name] = s] for a series [s]: the columns under an existing label
    are overwritten in place, a new label is appended. *)
Definition assign (name : string) (s : Series) (df : DataFrame) : DataFrame :=
  if has_column name df then
    mkDF (nrows df)
         (map (fun lc => if String.eqb (fst lc) name then (fst lc, s) else lc) (df_cols df))
  else mkDF (nrows df) (df_cols df ++ [(name, s)]).

(** [df[name] = v] for a scalar [v], broadcast over the rows. *)
Definition assign_scalar (name : string) (v : cell) (df : DataFrame) : DataFrame :=
  assign name (repeat v (nrows df)) df.

(** [if name not in df.columns: df[name] = v]. *)
Definition ensure_column (name : string) (v : cell) (df : DataFrame) : DataFrame :=
  if has_column name df then df else assign_scalar name v df.

(** The columns labelled [name], in frame order. *)
Definition lookup_all (name : string) (df : DataFrame) : list Series :=
  map snd (filter (fun lc => String.eqb (fst lc) name) (df_cols df)).

(** What [df[name]] evaluates to. *)
Inductive selection : Type :=
| SelSeries (s : Series)
| SelFrame (ss : list Series).

Definition getitem (name : string) (df : DataFrame) : exc selection :=
  match lookup_all name df with
  | [] => Raise (KeyError name)
  | [s] => Ok (SelSeries s)
  | ss => Ok (SelFrame ss)
  end.

(** [df[name] = f(df[name])] when [df[name]] may be a series or, for a
    repeated label, a frame: every column under the label is rewritten. *)
Definition update_all (name : string) (f : Series -> Series) (df : DataFrame) : DataFrame :=
  mkDF (nrows df)
       (map (fun lc => if String.eqb (fst lc) name then (fst lc, f (snd lc)) else lc) (df_cols df)).

(** [s.fillna(v)]. *)
Definition fillna (v : cell) (s : Series) : Series :=
  map (fun c => if isna c then v else c) s.

(** ** The library interface

    What pandas and Python do with free text and with the printing of
    scalars is taken as given, not re-implemented. *)

Inductive num : Type :=
| NInt (z : Z)
| NFloat (f : float).

Class Library : Type := {
  (** [pd.to_numeric] on one string with [errors="coerce"]; NaN when the
      text is not a number. *)
  numeric_of_text : string -> num;
  (** [pd.to_datetime(s, errors="coerce", dayfirst=...)] on a non-blank
      string: nanoseconds since 1970-01-01, or [None] for NaT. *)
  datetime_of_text : bool -> string -> option Z;
  (** [str(v)] for a scalar that is neither a string nor missing. *)
  py_str : cell -> string;
  (** The float sum pandas computes for one group of a [groupby]. *)
  group_fsum : list float -> float
}.

Section Normalize.

Context {L : Library}.

(** [pd.to_numeric(..., errors="coerce")] on one cell of an object
    column; dates and times are not numbers. *)
Definition to_numeric_cell (c : cell) : num :=
  match c with
  | CNaN => NFloat nan
  | CStr s => numeric_of_text s
  | CInt z => NInt z
  | CFloat f => NFloat f
  | CBool b => NInt (if b then 1 else 0)%Z
  | CDatetime _ _ | CDate _ => NFloat nan
  end.

Definition num_is_int (n : num) : bool :=
  match n with NInt _ => true | NFloat _ => false end.

Definition num_to_float (n : num) : float :=
  match n with NInt z => Flt.of_Z z | NFloat f => f end.

Definition cell_of_num (n : num) : cell :=
  match n with NInt z => CInt z | NFloat f => CFloat f end.

(** [pd.to_numeric(s, errors="coerce")]: an [int64] column when every
    cell is an integer, a [float64] column otherwise. *)
Definition to_numeric (s : Series) : Series :=
  let ns := map to_numeric_cell s in
  if forallb num_is_int ns then map cell_of_num ns
  else map (fun n => CFloat (num_to_float n)) ns.

(** [.fillna(0)] and [.fillna(0.0)] on a numeric column: the dtype is
    kept, so a float column receives [0.0]. *)
Definition fillna_zero (s : Series) : Series := fillna (CFloat 0) s.

(** [.astype(int)] on one cell of a numeric column; a non-finite float
    raises, an out-of-range one gets the platform's [INT64_MIN]. *)
Definition astype_int_cell (c : cell) : exc cell :=
  match c with
  | CFloat f =>
      if is_finite f then
        let z := Flt.trunc f in
        Ok (CInt (if Int64.in_range z then z else Int64.min_signed))
      else Raise (ValueError "Cannot convert non-finite values (NA or inf) to integer")
  | c => Ok c
  end.

Definition astype_int (s : Series) : exc Series := mapM astype_int_cell s.

(** [.astype(str)] on one cell: a missing cell becomes the text "nan". *)
Definition astype_str_cell (c : cell) : cell :=
  if isna c then CStr "nan"
  else match c with
       | CStr s => CStr s
       | c => CStr (py_str c)
       end.

Definition astype_str (s : Series) : Series := map astype_str_cell s.

(** [df[name] = pd.to_numeric(df[name], errors="coerce").fillna(0).astype(int)].
    [pd.to_numeric] rejects a frame, which is what a repeated label selects. *)
Definition coerce_int_column (name : string) (df : DataFrame) : exc DataFrame :=
  sel <- getitem name df ;;
  match sel with
  | SelSeries s =>
      s' <- astype_int (fillna_zero (to_numeric s)) ;;
      Ok (assign name s' df)
  | SelFrame _ => Raise (TypeError "arg must be a list, tuple, 1-d array, or Series")
  end.

(** [df[name] = pd.to_numeric(df[name], errors="coerce").fillna(0.0)]. *)
Definition coerce_float_column (name : string) (df : DataFrame) : exc DataFrame :=
  sel <- getitem name df ;;
  match sel with
  | SelSeries s => Ok (assign name (fillna_zero (to_numeric s)) df)
  | SelFrame _ => Raise (TypeError "arg must be a list, tuple, 1-d array, or Series")
  end.

(** [df[c] = df[c].astype(str).fillna("")]. *)
Definition coerce_str_column (name : string) (df : DataFrame) : exc DataFrame :=
  _ <- getitem name df ;;
  Ok (update_all name (fun s => fillna (CStr "") (astype_str s)) df).

Definition no_date_column : exn :=
  ValueError "No column containing 'date' found. Please include a Date column.".

(** Python's truth test on the result of [find_col]. *)
Definition found (col : option string) : bool :=
  match col with
  | Some c => negb (String.eqb c "")
  | None => false
  end.

(** The needle lists of [normalize_schema], one per canonical field. *)
Definition date_needles : list string := ["date"].
Definition category_needles : list string := ["category"; "cat"].
Definition subcategory_needles : list string :=
  ["sub-category"; "subcategory"; "sub category"; "subcat"].
Definition line_item_needles : list string :=
  ["line item"; "line_item"; "lineitem"; "task"; "activity"; "li"].
Definition planned_li_needles : list string :=
  ["planned li"; "planned line"; "planned items"; "planned count"; "planned"].
Definition actual_li_needles : list string :=
  ["actual li"; "actual line"; "actual items"; "actual count"; "actual"].
Definition planned_eff_needles : list string :=
  ["planned effort"; "planned efforts"; "planned mins"; "planned minutes"].
Definition actual_eff_needles : list string :=
  ["actual effort"; "actual efforts"; "actual mins"; "actual minutes"].
Definition planned_det_needles : list string :=
  ["planned details"; "planned detail"; "plan detail"; "plan desc"].
Definition actual_det_needles : list string :=
  ["actual details"; "actual detail"; "actual desc"].

(** The optional canonical fields: label, needles, and the value the
    "Ensure columns exist" step broadcasts when the label is missing. *)
Definition optional_fields : list (string * list string * cell) :=
  [("Category", category_needles, CStr "");
   ("Subcategory", subcategory_needles, CStr "");
   ("Line Item", line_item_needles, CStr "");
   ("Planned LI", planned_li_needles, CInt 0);
   ("Actual LI", actual_li_needles, CInt 0);
   ("Planned Efforts (mins)", planned_eff_needles, CFloat 0);
   ("Actual Efforts (mins)", actual_eff_needles, CFloat 0);
   ("Planned Details", planned_det_needles, CStr "");
   ("Actual Details", actual_det_needles, CStr "")].

(** Every optional field has exactly one column, and that column holds
    the field's default in each of [n] rows. *)
Definition all_defaulted (n : nat) (df : DataFrame) : Prop :=
  forall name needles d,
    In (name, needles, d) optional_fields -> lookup_all name df = [repeat d n].

(** The renaming part of [normalize_schema].  Every [find_col] runs on
    [cols], the labels of the frame as it came in. *)
Definition rename_columns (df : DataFrame) : DataFrame :=
  let cols := columns df in
  let date_col := find_col cols date_needles in
  let df := rename_found date_col "Date" df in
  (* Category/Subcategory/Line Item *)
  let cat := find_col cols category_needles in
  let sub := find_col cols subcategory_needles in
  let line := find_col cols line_item_needles in
  let df := rename_found cat "Category" df in
  let df := rename_found sub "Subcategory" df in
  let df := rename_found line "Line Item" df in
  (* Planned/Actual LI *)
  let planned_li := find_col cols planned_li_needles in
  let actual_li := find_col cols actual_li_needles in
  let df := rename_found planned_li "Planned LI" df in
  let df := rename_found actual_li "Actual LI" df in
  (* Planned/Actual Efforts *)
  let planned_eff := find_col cols planned_eff_needles in
  let actual_eff := find_col cols actual_eff_needles in
  let df := rename_found planned_eff "Planned Efforts (mins)" df in
  let df := rename_found actual_eff "Actual Efforts (mins)" df in
  (* Details *)
  let planned_det := find_col cols planned_det_needles in
  let actual_det := find_col cols actual_det_needles in
  let df := rename_found planned_det "Planned Details" df in
  rename_found actual_det "Actual Details" df.

(** "Ensure columns exist". *)
Definition ensure_columns (df : DataFrame) : DataFrame :=
  let df := ensure_column "Category" (CStr "") df in
  let df := ensure_column "Subcategory" (CStr "") df in
  let df := ensure_column "Line Item" (CStr "") df in
  let df := ensure_column "Planned LI" (CInt 0) df in
  let df := ensure_column "Actual LI" (CInt 0) df in
  let df := ensure_column "Planned Efforts (mins)" (CFloat 0) df in
  let df := ensure_column "Actual Efforts (mins)" (CFloat 0) df in
  let df := ensure_column "Planned Details" (CStr "") df in
  ensure_column "Actual Details" (CStr "") df.

(** "Coerce numeric types" and "Ensure strings". *)
Definition coerce_columns (df : DataFrame) : exc DataFrame :=
  df <- coerce_int_column "Planned LI" df ;;
  df <- coerce_int_column "Actual LI" df ;;
  df <- coerce_float_column "Planned Efforts (mins)" df ;;
  df <- coerce_float_column "Actual Efforts (mins)" df ;;
  df <- coerce_str_column "Category" df ;;
  df <- coerce_str_column "Subcategory" df ;;
  df <- coerce_str_column "Line Item" df ;;
  df <- coerce_str_column "Planned Details" df ;;
  coerce_str_column "Actual Details" df.

(** [normalize_schema(df)]. *)
Definition normalize_schema (df : DataFrame) : exc DataFrame :=
  if negb (found (find_col (columns df) date_needles)) then Raise no_date_column
  else coerce_columns (ensure_columns (rename_columns df)).

End Normalize.

(** ** Calendar dates and timestamps *)

Module Cal.

Local Open Scope Z_scope.

Definition is_leap (y : Z) : bool :=
  (y mod 4 =? 0) && (negb (y mod 100 =? 0) || (y mod 400 =? 0)).

(** Days before January 1st of year [y] (proleptic Gregorian). *)
Definition days_before_year (y : Z) : Z :=
  let y' := y - 1 in y' * 365 + y' / 4 - y' / 100 + y' / 400.

Definition days_before_month (y m : Z) : Z :=
  nth (Z.to_nat (m - 1)) [0; 31; 59; 90; 120; 151; 181; 212; 243; 273; 304; 334] 0
  + (if (2 <? m) && is_leap y then 1 else 0).

(** [date(y, m, d).toordinal()]: 0001-01-01 is day 1. *)
Definition ymd2ord (y m d : Z) : Z :=
  days_before_year y + days_before_month y m + d.

(** [date.min.toordinal()] and [date.max.toordinal()]. *)
Definition min_ordinal : Z := 1.
Definition max_ordinal : Z := Eval vm_compute in ymd2ord 9999 12 31.

(** [date.fromordinal(n)] as year, month, day. *)
Definition days_in_month (y m : Z) : Z :=
  nth (Z.to_nat (m - 1)) [31; 28; 31; 30; 31; 30; 31; 31; 30; 31; 30; 31] 0
  + (if (m =? 2) && is_leap y then 1 else 0).

Definition ord2ymd (ordinal : Z) : Z * Z * Z :=
  let n := ordinal - 1 in
  let n400 := n / 146097 in
  let n := n mod 146097 in
  let n100 := n / 36524 in
  let n := n mod 36524 in
  let n4 := n / 1461 in
  let n := n mod 1461 in
  let n1 := n / 365 in
  let n := n mod 365 in
  let year := n400 * 400 + 1 + n100 * 100 + n4 * 4 + n1 in
  if (n1 =? 4) || (n100 =? 4) then (year - 1, 12, 31)
  else
    let month := Z.shiftr (n + 50) 5 in
    let preceding := days_before_month year month in
    if n <? preceding
    then (year, month - 1, n - (preceding - days_in_month year (month - 1)) + 1)
    else (year, month, n - preceding + 1).

(** [d.weekday()]: Monday is 0, Sunday is 6. *)
Definition weekday (d : Z) : Z := (d + 6) mod 7.

(** [d + timedelta(days=n)]; Python raises when the result leaves
    [date.min .. date.max]. *)
Definition add_days (d n : Z) : exc Z :=
  let r := d + n in
  if (min_ordinal <=? r) && (r <=? max_ordinal) then Ok r
  else Raise (OverflowError "date value out of range").

(** The ordinal of 1970-01-01, where pandas timestamps count from. *)
Definition unix_epoch : Z := Eval vm_compute in ymd2ord 1970 1 1.

(** The spreadsheet origin of [parse_any_date], [origin="1899-12-30"]. *)
Definition excel_origin : Z := Eval vm_compute in ymd2ord 1899 12 30.

Definition ns_per_day : Z := 86400 * 1000000000.

(** The [int64] nanosecond count of a date and a time of day, when a
    [Timestamp] can hold it ([INT64_MIN] is reserved for NaT). *)
Definition timestamp_of (day ns : Z) : option Z :=
  let v := (day - unix_epoch) * ns_per_day + ns in
  if (Int64.min_signed <? v) && (v <=? Int64.max_signed) then Some v else None.

(** [ts.normalize()]: midnight of the same day. *)
Definition normalize (v : Z) : Z := v - v mod ns_per_day.

(** [ts.date()] as an ordinal. *)
Definition date_of (v : Z) : Z := v / ns_per_day + unix_epoch.

End Cal.

(** ** Robust date parsing *)

Section Dates.

Context {L : Library}.

Local Open Scope Z_scope.

(** [str(val)]. *)
Definition str_of_cell (c : cell) : string :=
  match c with
  | CStr s => s
  | CNaN => "nan"
  | c => py_str c
  end.

(** The days from 1970-01-01 to the origin (a negative number). *)
Definition serial_offset : Z := Cal.excel_origin - Cal.unix_epoch.

(** [pd.to_datetime(val, unit="d", origin="1899-12-30", errors="coerce")]
    on a number: the origin's offset is added to the serial, and the sum
    is split into whole days and a fraction of a day, each converted to
    nanoseconds.  [None] stands for NaT and for the out-of-range failures
    alike; both end in the [except] clause of the caller. *)
Definition timestamp_of_serial (n : num) : option Z :=
  match n with
  | NInt z =>
      let v := (z + serial_offset) * Cal.ns_per_day in
      if (Int64.min_signed <? v) && (v <=? Int64.max_signed) then Some v else None
  | NFloat f =>
      let ts := (f + Flt.of_Z serial_offset)%float in
      if is_finite ts then
        let base := Flt.trunc ts in
        let frac := (ts - Flt.of_Z base)%float in
        let v := base * Cal.ns_per_day + Flt.trunc (frac * Flt.of_Z Cal.ns_per_day)%float in
        if (Int64.min_signed <? v) && (v <=? Int64.max_signed) then Some v else None
      else None
  end.

(** [x.normalize()] on the result of [pd.to_datetime(..., errors="coerce")]:
    NaT has no [normalize] attribute. *)
Definition normalize_or_raise (x : option Z) : exc Z :=
  match x with
  | Some v => Ok (Cal.normalize v)
  | None => Raise (AttributeError "'NaTType' object has no attribute 'normalize'")
  end.

(** The last part of [parse_any_date], from [s = str(val).strip()] on:
    month first, then day first. *)
Definition parse_text (val : cell) : exc (option Z) :=
  let s := Str.strip (str_of_cell val) in
  if String.eqb s "" then Ok None else
  let dt := datetime_of_text false s in
  let dt := match dt with None => datetime_of_text true s | Some _ => dt end in
  match dt with
  | None => Ok None
  | Some v => Ok (Some (Cal.normalize v))
  end.

(** [parse_any_date(val)]: [Ok (Some v)] is the timestamp of a midnight,
    [Ok None] is [pd.NaT], [Raise] an exception that leaves the function. *)
Definition parse_any_date (val : cell) : exc (option Z) :=
  if isna val then Ok None else
  match val with
  | CDatetime day ns =>
      (* Already timestamp/datetime *)
      v <- normalize_or_raise (Cal.timestamp_of day ns) ;; Ok (Some v)
  | CInt z =>
      (* numeric-like (Excel serial), inside try/except *)
      match normalize_or_raise (timestamp_of_serial (NInt z)) with
      | Ok v => Ok (Some v)
      | Raise _ => parse_text val
      end
  | CFloat f =>
      match normalize_or_raise (timestamp_of_serial (NFloat f)) with
      | Ok v => Ok (Some v)
      | Raise _ => parse_text val
      end
  | _ => parse_text val
  end.

(** *** Week helpers *)

(** [get_week_ranges(today)], on ordinals. *)
Definition get_week_ranges (today : Z) : exc ((Z * Z) * (Z * Z)) :=
  start_current <- Cal.add_days today (- Cal.weekday today) ;;
  end_current <- Cal.add_days start_current 6 ;;
  start_next <- Cal.add_days end_current 1 ;;
  end_next <- Cal.add_days start_next 6 ;;
  Ok ((start_current, end_current), (start_next, end_next)).

(** The membership test of [upload_timesheet]:
    [(df["Date_only"] >= start) & (df["Date_only"] <= end)]. *)
Definition in_window (w : Z * Z) (d : Z) : bool :=
  (fst w <=? d) && (d <=? snd w).

End Dates.

(** ** Section builders *)

Section Builders.

Context {L : Library}.

(** [df.empty]: some axis has length zero. *)
Definition empty (df : DataFrame) : bool :=
  Nat.eqb (nrows df) 0 || match df_cols df with [] => true | _ => false end.

(** [df[name]] where the code goes on to use it as a series. *)
Definition get_series (name : string) (df : DataFrame) : exc Series :=
  sel <- getitem name df ;;
  match sel with
  | SelSeries s => Ok s
  | SelFrame _ => Raise (ValueError "a repeated label selects a frame, not a series")
  end.

(** [out[cols]]: the listed labels in the listed order. *)
Definition select (names : list string) (df : DataFrame) : exc DataFrame :=
  picked <- mapM (fun c =>
                    match filter (fun lc => String.eqb (fst lc) c) (df_cols df) with
                    | [] => Raise (KeyError c)
                    | l => Ok l
                    end) names ;;
  Ok (mkDF (nrows df) (List.concat picked)).

Definition num_of_cell (c : cell) : option num :=
  match c with
  | CInt z => Some (NInt z)
  | CFloat f => Some (NFloat f)
  | CNaN => Some (NFloat nan)
  | CBool b => Some (NInt (if b then 1 else 0)%Z)
  | _ => None
  end.

(** [a == b] on two cells of numeric or text columns. *)
Definition cell_eqb (a b : cell) : bool :=
  match a, b with
  | CStr x, CStr y => String.eqb x y
  | _, _ =>
      match num_of_cell a, num_of_cell b with
      | Some (NInt x), Some (NInt y) => Z.eqb x y
      | Some x, Some y => (num_to_float x =? num_to_float y)%float
      | _, _ => false
      end
  end.

(** [a - b] on two cells: [int64] when both are integers, [float64]
    otherwise; text cannot be subtracted. *)
Definition cell_sub (a b : cell) : exc cell :=
  match num_of_cell a, num_of_cell b with
  | Some (NInt x), Some (NInt y) => Ok (CInt (Int64.wrap (x - y)))
  | Some x, Some y => Ok (CFloat (num_to_float x - num_to_float y)%float)
  | _, _ => Raise (TypeError "unsupported operand type(s) for -")
  end.

Fixpoint zip_with {A B C : Type} (f : A -> B -> C) (l : list A) (l' : list B) : list C :=
  match l, l' with
  | a :: t, b :: t' => f a b :: zip_with f t t'
  | _, _ => []
  end.

(** The default of the fill-in loops: the empty string for a label that
    contains "Details" or "Category", 0 for the others. *)
Definition view_default (c : string) : cell :=
  if Str.contains "Details" c || Str.contains "Category" c then CStr "" else CInt 0.

Definition fill_missing (names : list string) (df : DataFrame) : DataFrame :=
  fold_left (fun out c => ensure_column c (view_default c) out) names df.

Definition current_week_cols : list string :=
  ["Date_only"; "Category"; "Subcategory"; "Line Item";
   "Planned LI"; "Actual LI"; "LI Match";
   "Planned Efforts (mins)"; "Actual Efforts (mins)"; "Effort Δ (mins)";
   "Planned Details"; "Actual Details"].

Definition current_week_rows (df : DataFrame) : exc DataFrame :=
  let out := df in
  planned_li <- get_series "Planned LI" out ;;
  actual_li <- get_series "Actual LI" out ;;
  let out :=
    assign "LI Match"
           (zip_with (fun p a => if cell_eqb p a then CStr "Match" else CStr "Mismatch")
                     planned_li actual_li) out in
  actual_eff <- get_series "Actual Efforts (mins)" out ;;
  planned_eff <- get_series "Planned Efforts (mins)" out ;;
  delta <- mapM (fun pa => cell_sub (fst pa) (snd pa)) (combine actual_eff planned_eff) ;;
  let out := assign "Effort Δ (mins)" delta out in
  let out := fill_missing current_week_cols out in
  select current_week_cols out.

Definition next_week_cols : list string :=
  ["Date_only"; "Category"; "Subcategory"; "Line Item";
   "Planned LI"; "Planned Efforts (mins)"; "Planned Details"].

Definition next_week_rows (df : DataFrame) : exc DataFrame :=
  let out := fill_missing next_week_cols df in
  select next_week_cols out.

Definition deviation_cols : list string :=
  ["Category"; "Subcategory"; "Line Item";
   "Planned LI"; "Actual LI"; "LI Δ";
   "Planned Efforts (mins)"; "Actual Efforts (mins)"; "Effort Δ (mins)"; "Effort Δ %"].

(** One row of the current-week frame, as the grouping reads it. *)
Record dev_input : Type := mkDevInput {
  in_key : string * string * string;
  in_planned_li : cell;
  in_actual_li : cell;
  in_planned_eff : cell;
  in_actual_eff : cell
}.

(** One row of the deviation table. *)
Record dev_row : Type := mkDevRow {
  category : string;
  subcategory : string;
  line_item : string;
  planned_li : cell;
  actual_li : cell;
  li_delta : cell;
  planned_efforts : cell;
  actual_efforts : cell;
  effort_delta : cell;
  effort_delta_pct : float
}.

Definition key_eqb (k k' : string * string * string) : bool :=
  let '(a, b, c) := k in
  let '(a', b', c') := k' in
  String.eqb a a' && String.eqb b b' && String.eqb c c'.

(** Tuple order of the group keys, which [groupby] sorts by. *)
Definition key_ltb (k k' : string * string * string) : bool :=
  let '(a, b, c) := k in
  let '(a', b', c') := k' in
  match String.compare a a' with
  | Lt => true
  | Gt => false
  | Eq => match String.compare b b' with
          | Lt => true
          | Gt => false
          | Eq => match String.compare c c' with Lt => true | _ => false end
          end
  end.

(** The sorted list of distinct keys. *)
Fixpoint insert_key (k : string * string * string) (ks : list (string * string * string))
  : list (string * string * string) :=
  match ks with
  | [] => [k]
  | k' :: rest =>
      if key_eqb k k' then ks
      else if key_ltb k k' then k :: ks
      else k' :: insert_key k rest
  end.

Definition group_keys (rows : list dev_input) : list (string * string * string) :=
  fold_left (fun ks r => insert_key (in_key r) ks) rows [].

Definition is_int_cell (c : cell) : bool :=
  match c with CInt _ => true | _ => false end.

Definition int_of_cell (c : cell) : Z :=
  match c with CInt z => z | _ => 0%Z end.

Definition float_of_cell (c : cell) : float :=
  match num_of_cell c with Some n => num_to_float n | None => nan end.

(** The ["sum"] aggregation of one column over one group. *)
Definition agg_sum (cs : list cell) : cell :=
  if forallb is_int_cell cs
  then CInt (Int64.wrap (fold_left Z.add (map int_of_cell cs) 0%Z))
  else CFloat (group_fsum (map float_of_cell cs)).

(** Python's truth test on a numeric cell. *)
Definition cell_truthy (c : cell) : bool :=
  match c with
  | CInt z => negb (Z.eqb z 0)
  | c => Flt.truthy (float_of_cell c)
  end.

(** [DataFrame.round] on one cell: integers are left alone. *)
Definition round_cell (d : Z) (c : cell) : cell :=
  match c with
  | CFloat f => CFloat (Flt.round_dec d f)
  | c => c
  end.

(** The ["Effort Δ %"] lambda. *)
Definition pct_delta (delta planned : cell) : float :=
  if cell_truthy planned
  then (float_of_cell delta / float_of_cell planned * 100)%float
  else 0%float.

(** One group: the sums, then the three derived columns, then the rounding. *)
Definition summarize (k : string * string * string) (rows : list dev_input) : exc dev_row :=
  let mine := filter (fun r => key_eqb (in_key r) k) rows in
  let p_li := agg_sum (map in_planned_li mine) in
  let a_li := agg_sum (map in_actual_li mine) in
  let p_eff := agg_sum (map in_planned_eff mine) in
  let a_eff := agg_sum (map in_actual_eff mine) in
  d_li <- cell_sub a_li p_li ;;
  d_eff <- cell_sub a_eff p_eff ;;
  let pct := pct_delta d_eff p_eff in
  Ok (mkDevRow (fst (fst k)) (snd (fst k)) (snd k)
               p_li a_li d_li p_eff a_eff (round_cell 2 d_eff) (Flt.round_dec 1 pct)).

Definition dev_rows (rows : list dev_input) : exc (list dev_row) :=
  mapM (fun k => summarize k rows) (group_keys rows).

(** How the row [r] of the deviation table relates to its key [k] and
    to the rows of the current week: the planned and actual minutes are
    the group's sums, the minute delta is their difference rounded to two
    decimals, and the percentage is the unrounded difference over the
    planned minutes times 100, or 0 when the planned minutes are zero,
    rounded to one decimal. *)
Definition summarized (rows : list dev_input) (k : string * string * string) (r : dev_row)
  : Prop :=
  let mine := filter (fun i => key_eqb (in_key i) k) rows in
  (category r, subcategory r, line_item r) = k
  /\ planned_efforts r = agg_sum (map in_planned_eff mine)
  /\ actual_efforts r = agg_sum (map in_actual_eff mine)
  /\ exists delta,
      cell_sub (actual_efforts r) (planned_efforts r) = Ok delta
      /\ effort_delta r = round_cell 2 delta
      /\ effort_delta_pct r
         = Flt.round_dec 1
             (if cell_truthy (planned_efforts r)
              then (float_of_cell delta / float_of_cell (planned_efforts r) * 100)%float
              else 0%float)
      /\ (cell_truthy (planned_efforts r) = false -> effort_delta_pct r = 0%float).

(** The rows of the frame that [deviation_summary] groups. *)
Definition dev_inputs (df : DataFrame) : exc (list dev_input) :=
  cat <- get_series "Category" df ;;
  sub <- get_series "Subcategory" df ;;
  line <- get_series "Line Item" df ;;
  p_li <- get_series "Planned LI" df ;;
  a_li <- get_series "Actual LI" df ;;
  p_eff <- get_series "Planned Efforts (mins)" df ;;
  a_eff <- get_series "Actual Efforts (mins)" df ;;
  Ok (map (fun t =>
             let '(c, s, l, pl, al, pe, ae) := t in
             mkDevInput (str_of_cell c, str_of_cell s, str_of_cell l) pl al pe ae)
          (combine (combine (combine (combine (combine (combine cat sub) line) p_li) a_li)
                            p_eff) a_eff)).

(** The deviation table as a frame, columns in the order of [deviation_cols]. *)
Definition frame_of_dev_rows (rs : list dev_row) : DataFrame :=
  mkDF (List.length rs)
       [("Category", map (fun r => CStr (category r)) rs);
        ("Subcategory", map (fun r => CStr (subcategory r)) rs);
        ("Line Item", map (fun r => CStr (line_item r)) rs);
        ("Planned LI", map planned_li rs);
        ("Actual LI", map actual_li rs);
        ("LI Δ", map li_delta rs);
        ("Planned Efforts (mins)", map planned_efforts rs);
        ("Actual Efforts (mins)", map actual_efforts rs);
        ("Effort Δ (mins)", map effort_delta rs);
        ("Effort Δ %", map (fun r => CFloat (effort_delta_pct r)) rs)].

Definition deviation_summary (df : DataFrame) : exc DataFrame :=
  if empty df then Ok (mkDF 0 (map (fun c => (c, [])) deviation_cols))
  else
    rows <- dev_inputs df ;;
    rs <- dev_rows rows ;;
    Ok (frame_of_dev_rows rs).

End Builders.

(** ** HTML helpers *)

Section Html.

Context {L : Library}.

Local Open Scope string_scope.

Definition no_data_style : string :=
  "padding:10px;background:#fff8f0;border-radius:6px;color:#92400e".

Definition row_cells (df : DataFrame) (i : nat) : list cell :=
  map (fun lc => nth i (snd lc) CNaN) (df_cols df).

Definition html_row (df : DataFrame) (i : nat) : string :=
  let bg := if Nat.even i then "#ffffff" else "#f8fafc" in
  let tds :=
    String.concat ""
      (map (fun c => "<td style='padding:8px;border-bottom:1px solid #f1f5f9'>"
                     ++ str_of_cell c ++ "</td>") (row_cells df i)) in
  "<tr style='background:" ++ bg ++ "'>" ++ tds ++ "</tr>".

(** The placeholder an empty table is rendered as. *)
Definition no_data_placeholder (empty_msg : string) : string :=
  "<div style='" ++ no_data_style ++ "'>" ++ empty_msg ++ "</div>".

(** [html_table(df, empty_msg)]. *)
Definition html_table (df : DataFrame) (empty_msg : string) : string :=
  if empty df then no_data_placeholder empty_msg
  else
    let thead :=
      String.concat ""
        (map (fun c => "<th style='padding:8px;text-align:left;border-bottom:1px solid #e6eefb'>"
                       ++ c ++ "</th>") (columns df)) in
    let rows_html := String.concat "" (map (html_row df) (seq 0 (nrows df))) in
    "<table style='width:100%;border-collapse:collapse;font:13px Arial,Helvetica'>"
    ++ "<thead><tr>" ++ thead ++ "</tr></thead>"
    ++ "<tbody>" ++ rows_html ++ "</tbody></table>".

Definition str_of_date (d : Z) : string := py_str (CDate d).

(** The three titled sections of [build_email_html], in their order. *)
Definition section_current (cur_df : DataFrame) (start_c end_c : Z) : string :=
  "<h3>1) Current Week Statistics (" ++ str_of_date start_c ++ " to "
  ++ str_of_date end_c ++ ")</h3>" ++ html_table cur_df "No current-week records".

Definition section_next (nxt_df : DataFrame) (start_n end_n : Z) : string :=
  "<h3>2) Next Week Plan (" ++ str_of_date start_n ++ " to "
  ++ str_of_date end_n ++ ")</h3>" ++ html_table nxt_df "No next-week plan".

Definition section_deviation (dev_df : DataFrame) : string :=
  "<h3>3) Plan vs Actual Deviation / Interference</h3>"
  ++ html_table dev_df "No deviation data".

(** [build_email_html]; [now] is the text of the generation time.  Only
    the inline styling of the wrapper and of the titles is left out. *)
Definition build_email_html (cur_df nxt_df dev_df : DataFrame)
           (start_c end_c start_n end_n : Z) (now : string) : string :=
  "<div><h2>Weekly Summary Report</h2><div>Generated: " ++ now ++ "</div>"
  ++ section_current cur_df start_c end_c
  ++ section_next nxt_df start_n end_n
  ++ section_deviation dev_df
  ++ "</div>".

End Html.

(** ** The request handler *)

Record mail : Type := mkMail {
  mail_subject : string;
  mail_from : string;
  mail_to : string;
  mail_html : string
}.

(** What the handler reads from its surroundings: the clock, the SMTP
    configuration and whether the SMTP session succeeds. *)
Record World : Type := mkWorld {
  today : Z;
  now_text : string;
  email_from : string;
  smtp_session : mail -> exc unit
}.

(** The uploaded file: its name and what [pd.read_excel] makes of its bytes. *)
Record upload : Type := mkUpload {
  filename : string;
  sheet : exc DataFrame
}.

Record request : Type := mkRequest {
  form_receiver_email : option string;
  form_email : option string;
  files_file : option upload
}.

Inductive response : Type :=
| Failure (status : Z) (error : string)
| Sent (current_week_range next_week_range : string) (current_rows next_rows : nat).

Section Endpoint.

Context {L : Library}.

Local Open Scope string_scope.

Definition str_of_exn (e : exn) : string :=
  match e with
  | ValueError m | TypeError m | KeyError m | AttributeError m | OverflowError m => m
  end.

(** [load_xlsx(file_storage)]. *)
Definition load_xlsx (f : upload) : exc DataFrame :=
  let name := Str.lower (filename f) in
  if negb (Str.endswith ".xlsx" name) then Raise (ValueError "Only .xlsx files accepted.")
  else sheet f.

(** [a or b] on two optional form fields. *)
Definition form_or (a b : option string) : option string :=
  match a with
  | Some x => if String.eqb x "" then b else a
  | None => b
  end.

Fixpoint filter_by {A : Type} (mask : list bool) (l : list A) : list A :=
  match mask, l with
  | b :: mask', a :: l' => if b then a :: filter_by mask' l' else filter_by mask' l'
  | _, _ => []
  end.

(** [df[mask]]. *)
Definition filter_rows (mask : list bool) (df : DataFrame) : DataFrame :=
  mkDF (List.length (filter_by mask (seq 0 (nrows df))))
       (map (fun lc => (fst lc, filter_by mask (snd lc))) (df_cols df)).

Definition is_nat (x : option Z) : bool :=
  match x with Some _ => false | None => true end.

Definition timestamp_cell (x : option Z) : cell :=
  match x with
  | Some v => CDatetime (Cal.date_of v) (v mod Cal.ns_per_day)
  | None => CNaN
  end.

(** [.dt.date] on one parsed value. *)
Definition date_cell (x : option Z) : cell :=
  match x with
  | Some v => CDate (Cal.date_of v)
  | None => CNaN
  end.

(** [(df["Date_only"] >= start) & (df["Date_only"] <= end)] on one cell. *)
Definition cell_in_window (w : Z * Z) (c : cell) : bool :=
  match c with
  | CDate d => in_window w d
  | _ => false
  end.

Definition no_parsable_dates : string := "No parsable dates found in 'Date' column".

(** The frame after [df.dropna(subset=["Date_only"])], given the parsed dates. *)
Definition dated_frame (df : DataFrame) (parsed : list (option Z)) : DataFrame :=
  let df := assign "Date_parsed" (map timestamp_cell parsed) df in
  let df := assign "Date_only" (map date_cell parsed) df in
  filter_rows (map (fun x => negb (is_nat x)) parsed) df.

(** [df[(df["Date_only"] >= start) & (df["Date_only"] <= end)]]. *)
Definition window_rows (w : Z * Z) (df : DataFrame) : exc DataFrame :=
  dates <- get_series "Date_only" df ;;
  Ok (filter_rows (map (cell_in_window w) dates) df).

(** The handler from [today = datetime.now().date()] on: the two
    windows, the three views, the mail, the acknowledgment. *)
Definition finish (w : World) (receiver : string) (df : DataFrame) (outbox : list mail)
  : exc (response * list mail) :=
  ranges <- get_week_ranges (today w) ;;
  let '((start_c, end_c), (start_n, end_n)) := ranges in
  cur <- window_rows (start_c, end_c) df ;;
  nxt <- window_rows (start_n, end_n) df ;;
  cur_stats <- current_week_rows cur ;;
  nxt_plan <- next_week_rows nxt ;;
  dev_sum <- deviation_summary cur ;;
  let html_body :=
    build_email_html cur_stats nxt_plan dev_sum start_c end_c start_n end_n (now_text w) in
  (* send email *)
  let current_range := str_of_date start_c ++ " to " ++ str_of_date end_c in
  let msg := mkMail ("Weekly Summary: " ++ current_range) (email_from w) receiver html_body in
  _ <- smtp_session w msg ;;
  Ok (Sent current_range (str_of_date start_n ++ " to " ++ str_of_date end_n)
           (nrows cur_stats) (nrows nxt_plan),
      (outbox ++ [msg])%list).

(** The body of the [try] block, from [load_xlsx] on. *)
Definition process (w : World) (receiver : string) (file : upload) (outbox : list mail)
  : exc (response * list mail) :=
  df_raw <- load_xlsx file ;;
  df <- normalize_schema df_raw ;;
  (* parse dates robustly *)
  dates <- get_series "Date" df ;;
  parsed <- mapM parse_any_date dates ;;
  if forallb is_nat parsed then Ok (Failure 400 no_parsable_dates, outbox)
  else finish w receiver (dated_frame df parsed) outbox.

(** [upload_timesheet()]: the response and the mail sent so far. *)
Definition upload_timesheet (w : World) (req : request) (outbox : list mail)
  : response * list mail :=
  let receiver := form_or (form_receiver_email req) (form_email req) in
  match receiver, files_file req with
  | Some r, Some f =>
      if String.eqb r "" || String.eqb (filename f) ""
      then (Failure 400 "receiver_email and .xlsx file required", outbox)
      else match process w r f outbox with
           | Ok res => res
           | Raise e => (Failure 500 (str_of_exn e), outbox)
           end
  | _, _ => (Failure 400 "receiver_email and .xlsx file required", outbox)
  end.

End Endpoint.

(** ** A reference instance of the library interface

    Enough of pandas to run the model on examples: decimal integers as
    numbers, [YYYY-MM-DD] as dates, left-to-right float sums. *)

Module Ref.

Local Open Scope Z_scope.

Definition digit_of (c : ascii) : option Z :=
  let n := Z.of_nat (nat_of_ascii c) in
  if (48 <=? n) && (n <=? 57) then Some (n - 48) else None.

Fixpoint digits_value (acc : Z) (s : string) : option Z :=
  match s with
  | EmptyString => Some acc
  | String c s' =>
      match digit_of c with
      | Some d => digits_value (acc * 10 + d) s'
      | None => None
      end
  end.

Definition nat_of_text (s : string) : option Z :=
  match s with
  | EmptyString => None
  | _ => digits_value 0 s
  end.

Definition numeric_of_text (s : string) : num :=
  match nat_of_text (Str.strip s) with
  | Some z => NInt z
  | None => NFloat nan
  end.

(** [YYYY-MM-DD], whatever [dayfirst] says. *)
Definition datetime_of_text (dayfirst : bool) (s : string) : option Z :=
  match nat_of_text (substring 0 4 s), nat_of_text (substring 5 2 s),
        nat_of_text (substring 8 2 s) with
  | Some y, Some m, Some d =>
      if (String.length s =? 10)%nat
         && String.eqb (substring 4 1 s) "-" && String.eqb (substring 7 1 s) "-"
         && (1 <=? m) && (m <=? 12) && (1 <=? d) && (d <=? 31)
      then Cal.timestamp_of (Cal.ymd2ord y m d) 0
      else None
  | _, _, _ => None
  end.

Definition digit_char (d : Z) : ascii := ascii_of_nat (Z.to_nat (48 + d)).

Fixpoint digits_text (fuel : nat) (z : Z) (acc : string) : string :=
  match fuel with
  | O => acc
  | S fuel' =>
      let acc' := String (digit_char (z mod 10)) acc in
      if z <? 10 then acc' else digits_text fuel' (z / 10) acc'
  end.

Definition text_of_Z (z : Z) : string :=
  let digits := digits_text (S (Z.to_nat (Z.log2 (Z.abs z)))) (Z.abs z) "" in
  if z <? 0 then String "-" digits else digits.

(** [width] digits, zero-filled on the left. *)
Definition padded (width : nat) (z : Z) : string :=
  let s := text_of_Z z in
  String.append (String.concat "" (repeat "0" (width - String.length s))) s.

(** [d.isoformat()]. *)
Definition iso_date (d : Z) : string :=
  let '(y, m, dd) := Cal.ord2ymd d in
  String.append (padded 4 y)
    (String.append "-" (String.append (padded 2 m) (String.append "-" (padded 2 dd)))).

(** Floats are printed by their integer part, datetimes by their date. *)
Definition py_str (c : cell) : string :=
  match c with
  | CStr s => s
  | CNaN => "nan"
  | CInt z => text_of_Z z
  | CBool b => if b then "True" else "False"
  | CFloat f => text_of_Z (Flt.trunc f)
  | CDatetime d _ | CDate d => iso_date d
  end.

Definition group_fsum (l : list float) : float := fold_left PrimFloat.add l 0%float.

Definition library : Library :=
  Build_Library numeric_of_text datetime_of_text py_str group_fsum.

End Ref.

(** ** Example sheets *)

Module Examples.

Local Open Scope Z_scope.

(** The sheet of the end-to-end scenario: three rows under the labels
    "Activity Date", "Cat", "Task", "Plan Count", "Done Count",
    "Plan Mins", "Done Mins". *)
Definition activity_sheet : DataFrame :=
  mkDF 3
    [("Activity Date", [CStr "2024-03-04"; CStr "2024-03-06"; CStr "2024-03-12"]);
     ("Cat", [CStr "Dev"; CStr "Dev"; CStr "Ops"]);
     ("Task", [CStr "Build"; CStr "Test"; CStr "Plan"]);
     ("Plan Count", [CInt 3; CInt 2; CInt 1]);
     ("Done Count", [CInt 3; CInt 1; CInt 0]);
     ("Plan Mins", [CFloat 60; CFloat 30; CFloat 45]);
     ("Done Mins", [CFloat 50; CFloat 35; CFloat 0])].

(** A sheet whose "Category" column has a missing cell. *)
Definition gap_sheet : DataFrame :=
  mkDF 2
    [("Date", [CStr "2024-03-04"; CStr "2024-03-05"]);
     ("Category", [CStr "Dev"; CNaN])].

Definition gap_sheet_normalized : DataFrame :=
  Eval vm_compute in
    match normalize_schema (L := Ref.library) gap_sheet with
    | Ok df => df
    | Raise _ => mkDF 0 []
    end.

(** A current-week frame with one group, planned for 0 minutes and
    done in 5. *)
Definition zero_plan_frame : DataFrame :=
  mkDF 2
    [("Category", [CStr "Dev"; CStr "Dev"]);
     ("Subcategory", [CStr ""; CStr ""]);
     ("Line Item", [CStr "Build"; CStr "Build"]);
     ("Planned LI", [CInt 1; CInt 1]);
     ("Actual LI", [CInt 1; CInt 0]);
     ("Planned Efforts (mins)", [CFloat 0; CFloat 0]);
     ("Actual Efforts (mins)", [CFloat 2; CFloat 3])].



(** Five rows with a date and one with a malformed one. *)
Definition mixed_sheet : DataFrame :=
  mkDF 6
    [("Date", [CStr "2024-03-04"; CStr "2024-03-05"; CStr "not-a-date";
               CStr "2024-03-06"; CStr "2024-03-12"; CStr "2024-03-13"]);
     ("Category", [CStr "Dev"; CStr "Dev"; CStr "Dev"; CStr "Ops"; CStr "Dev"; CStr "Ops"]);
     ("Line Item", [CStr "Build"; CStr "Build"; CStr "Build";
                    CStr "Deploy"; CStr "Build"; CStr "Deploy"]);
     ("Planned LI", [CInt 3; CInt 2; CInt 9; CInt 1; CInt 2; CInt 1]);
     ("Actual LI", [CInt 3; CInt 1; CInt 9; CInt 1; CInt 0; CInt 0]);
     ("Planned Efforts (mins)", [CFloat 60; CFloat 30; CFloat 90; CFloat 45; CFloat 60; CFloat 45]);
     ("Actual Efforts (mins)", [CFloat 50; CFloat 35; CFloat 90; CFloat 45; CFloat 0; CFloat 0])].

Definition mixed_sheet_normalized : DataFrame :=
  Eval vm_compute in
    match normalize_schema (L := Ref.library) mixed_sheet with
    | Ok df => df
    | Raise _ => mkDF 0 []
    end.

Definition mixed_dates : Series :=
  [CStr "2024-03-04"; CStr "2024-03-05"; CStr "not-a-date";
   CStr "2024-03-06"; CStr "2024-03-12"; CStr "2024-03-13"].

Definition mixed_parsed : list (option Z) :=
  Eval vm_compute in
    match mapM (parse_any_date (L := Ref.library)) mixed_dates with
    | Ok l => l
    | Raise _ => []
    end.

(** A Wednesday on which the mail goes out. *)
Definition wednesday : World :=
  mkWorld (Cal.ymd2ord 2024 3 6) "2024-03-06 09:00" "reports@example.org" (fun _ => Ok tt).

Definition mixed_upload : upload := mkUpload "week.xlsx" (Ok mixed_sheet).

End Examples.

(** ** Frame invariants *)

(** Every column has one cell per row. *)
Definition well_formed (df : DataFrame) : Prop :=
  Forall (fun lc => List.length (snd lc) = nrows df) (df_cols df).

Definition is_str_cell (c : cell) : bool :=
  match c with CStr _ => true | _ => false end.

(** An integer, or a float that is not NaN. *)
Definition is_number_cell (c : cell) : bool :=
  match c with
  | CInt _ => true
  | CFloat f => negb (is_nan f)
  | _ => false
  end.

(** The labels of the canonical record. *)
Definition canonical_labels : list string :=
  "Date" :: map (fun f => fst (fst f)) optional_fields.

(** A step that works on the columns labelled [G] and leaves every other
    label alone. *)
Definition untouched (G : string) (df df' : DataFrame) : Prop :=
  nrows df' = nrows df
  /\ (forall F, has_column F df' = has_column F df)
  /\ (forall F, String.eqb F G = false -> lookup_all F df' = lookup_all F df)
  /\ (well_formed df -> well_formed df').

(** The text [x] occurs in the text [y] as it is. *)
Definition occurs_in (x y : string) : Prop :=
  exists pre post, y = (pre ++ x ++ post)%string.

(** ** More example sheets *)

Module Sheets.

Local Open Scope Z_scope.

(** Two columns that both read as the planned count: "Planned" comes
    first and is renamed to "Planned LI", which the last one already is. *)
Definition twice_planned : DataFrame :=
  mkDF 1
    [("Date", [CStr "2024-03-04"]);
     ("Task", [CStr "Build"]);
     ("Planned", [CInt 1]);
     ("Planned LI", [CInt 2])].

(** Three dated rows: two in the week of Monday 2024-03-04, one in the
    week after. *)
Definition dated_week : DataFrame :=
  mkDF 3
    [("Category", [CStr "Dev"; CStr "Dev"; CStr "Ops"]);
     ("Planned LI", [CInt 3; CInt 2; CInt 1]);
     ("Actual LI", [CInt 3; CInt 1; CInt 0]);
     ("Planned Efforts (mins)", [CFloat 60; CFloat 30; CFloat 45]);
     ("Actual Efforts (mins)", [CFloat 50; CFloat 35; CFloat 0]);
     ("Date_only", [CDate 738949; CDate 738951; CDate 738957])].

(** One row whose task is written with markup. *)
Definition markup_row : DataFrame :=
  mkDF 1
    [("Date_only", [CDate 738949]);
     ("Line Item", [CStr "<b>Build</b> & ship"])].

End Sheets.

(** * Properties *)

(** ** Column detection *)

Section FindCol.

Lemma match_needles_true_iff (lc : string) (needles : list string) :
  match_needles lc needles = true <->
  exists n, In n needles /\ Str.contains n lc = true.
Proof.
  induction needles as [|n ns IH]; simpl.
  - split; [discriminate | intros (n & [] & _)].
  - destruct (Str.contains n lc) eqn:E.
    + split; [intros _; exists n; auto | reflexivity].
    + rewrite IH. split.
      * intros (m & Hm & Hc). exists m. auto.
      * intros (m & [<- | Hm] & Hc); [congruence | exists m; auto].
Qed.

Lemma match_needles_false_iff (lc : string) (needles : list string) :
  match_needles lc needles = false <->
  forall n, In n needles -> Str.contains n lc = false.
Proof.
  split.
  - intros H n Hn. destruct (Str.contains n lc) eqn:E; [|reflexivity].
    assert (match_needles lc needles = true) by (apply match_needles_true_iff; eauto).
    congruence.
  - intros H. destruct (match_needles lc needles) eqn:E; [|reflexivity].
    apply match_needles_true_iff in E as (n & Hn & Hc).
    rewrite (H n Hn) in Hc. discriminate.
Qed.

Lemma find_col_none_iff (cols needles : list string) :
  find_col cols needles = None <->
  forall c, In c cols -> match_needles (Str.lower c) needles = false.
Proof.
  induction cols as [|c cs IH]; simpl.
  - split; [intros _ c [] | reflexivity].
  - destruct (match_needles (Str.lower c) needles) eqn:E.
    + split; [discriminate | intros H; rewrite (H c) in E; auto; discriminate].
    + rewrite IH. split.
      * intros H c' [<- | Hc']; auto.
      * intros H c' Hc'. apply H. auto.
Qed.

Lemma find_col_some_iff (cols needles : list string) (c : string) :
  find_col cols needles = Some c <->
  exists pre post,
    cols = pre ++ c :: post
    /\ match_needles (Str.lower c) needles = true
    /\ forall c', In c' pre -> match_needles (Str.lower c') needles = false.
Proof.
  revert c. induction cols as [|c0 cs IH]; intros c; simpl.
  - split; [discriminate | intros (pre & post & H & _)].
    destruct pre; discriminate.
  - destruct (match_needles (Str.lower c0) needles) eqn:E.
    + split.
      * intros [= <-]. exists [], cs. simpl. repeat split; auto. intros ? [].
      * intros (pre & post & Hs & Hm & Hpre).
        destruct pre as [|p pre]; simpl in Hs; injection Hs as H1 H2; subst;
          [reflexivity|].
        rewrite (Hpre p) in E by (left; reflexivity). discriminate.
    + rewrite IH. split.
      * intros (pre & post & -> & Hm & Hpre).
        exists (c0 :: pre), post. simpl. repeat split; auto.
        intros c' [<- | Hc']; auto.
      * intros (pre & post & Hs & Hm & Hpre).
        destruct pre as [|p pre]; simpl in Hs; injection Hs as H1 H2; subst.
        -- congruence.
        -- exists pre, post. repeat split; auto. intros c' Hc'. apply Hpre. right; auto.
Qed.

Lemma match_needles_ext (lc : string) (needles needles' : list string) :
  (forall n, In n needles <-> In n needles') ->
  match_needles lc needles' = match_needles lc needles.
Proof.
  intros H.
  destruct (match_needles lc needles) eqn:E.
  - apply match_needles_true_iff in E as (n & Hn & Hc).
    apply match_needles_true_iff. exists n. split; [apply H|]; auto.
  - apply match_needles_false_iff. intros n Hn.
    rewrite match_needles_false_iff in E. apply E, H, Hn.
Qed.

End FindCol.

(** C1 (amended).  [find_col] returns the first column, in column order,
    whose lowercased label contains at least one needle: [Some c] exactly
    when [c] is preceded only by columns that contain no needle at all,
    [None] exactly when no column contains a needle.  The order of the
    needles has no influence on the result. *)
Theorem find_col_first_matching_column :
  forall cols needles : list string,
    (forall c,
        find_col cols needles = Some c <->
        exists pre post,
          cols = pre ++ c :: post
          /\ (exists n, In n needles /\ Str.contains n (Str.lower c) = true)
          /\ (forall c' n, In c' pre -> In n needles ->
                           Str.contains n (Str.lower c') = false))
    /\ (find_col cols needles = None <->
        forall c n, In c cols -> In n needles -> Str.contains n (Str.lower c) = false)
    /\ (forall needles',
           (forall n, In n needles <-> In n needles') ->
           find_col cols needles' = find_col cols needles).
Proof.
  intros cols needles. split; [|split].
  - intros c. rewrite find_col_some_iff. split.
    + intros (pre & post & Hs & Hm & Hpre). exists pre, post. split; [exact Hs|]. split.
      * apply match_needles_true_iff, Hm.
      * intros c' n Hc' Hn.
        exact (proj1 (match_needles_false_iff _ _) (Hpre c' Hc') n Hn).
    + intros (pre & post & Hs & Hm & Hpre). exists pre, post. split; [exact Hs|]. split.
      * apply match_needles_true_iff, Hm.
      * intros c' Hc'. apply match_needles_false_iff. intros n Hn. apply Hpre; auto.
  - rewrite find_col_none_iff. split.
    + intros H c n Hc Hn. exact (proj1 (match_needles_false_iff _ _) (H c Hc) n Hn).
    + intros H c Hc. apply match_needles_false_iff. intros n Hn. apply H; auto.
  - intros needles' Hext. induction cols as [|c cs IH]; simpl; [reflexivity|].
    rewrite (match_needles_ext _ _ _ Hext), IH. reflexivity.
Qed.

(** C1 (as stated).  With the needles of the Actual LI field, the column
    "Actual Efforts" comes first and contains the last needle, so it is
    selected; the first needle that matches any column, "actual li",
    designates "Actual Line Items Completed". *)
Lemma find_col_not_by_needle_priority :
  find_col ["Actual Efforts"; "Actual Line Items Completed"] actual_li_needles
  <> find_col_by_needle_priority
       ["Actual Efforts"; "Actual Line Items Completed"] actual_li_needles.
Proof. vm_compute. discriminate. Qed.

(** ** Data frames *)

Section Frames.

Lemma has_column_lookup_all (name : string) (df : DataFrame) :
  has_column name df = false <-> lookup_all name df = [].
Proof.
  unfold has_column, columns, lookup_all. destruct df as [n cs]. simpl.
  induction cs as [|[l s] cs IH]; simpl; [tauto|].
  rewrite (String.eqb_sym l name).
  destruct (String.eqb name l); simpl; [split; discriminate | exact IH].
Qed.

Lemma has_column_In (name : string) (df : DataFrame) :
  has_column name df = true <-> In name (columns df).
Proof.
  unfold has_column. rewrite existsb_exists. split.
  - intros (x & Hx & E). apply String.eqb_eq in E. subst. exact Hx.
  - intros H. exists name. split; [exact H | apply String.eqb_refl].
Qed.

Lemma lookup_all_replace (F G : string) (f : Series -> Series) (cs : list (string * Series)) :
  map snd (filter (fun lc => String.eqb (fst lc) F)
             (map (fun lc => if String.eqb (fst lc) G then (fst lc, f (snd lc)) else lc) cs))
  = if String.eqb F G
    then map f (map snd (filter (fun lc => String.eqb (fst lc) F) cs))
    else map snd (filter (fun lc => String.eqb (fst lc) F) cs).
Proof.
  induction cs as [|[l s] cs IH]; simpl.
  - destruct (String.eqb F G); reflexivity.
  - destruct (String.eqb l G) eqn:EG; simpl.
    + apply String.eqb_eq in EG. subst l.
      rewrite (String.eqb_sym G F).
      destruct (String.eqb F G) eqn:EF; simpl; rewrite IH; reflexivity.
    + destruct (String.eqb l F) eqn:EF; simpl; rewrite IH.
      * apply String.eqb_eq in EF. subst l.
        rewrite EG. reflexivity.
      * destruct (String.eqb F G); reflexivity.
Qed.

Lemma lookup_all_update_all (F G : string) (f : Series -> Series) (df : DataFrame) :
  lookup_all F (update_all G f df)
  = if String.eqb F G then map f (lookup_all F df) else lookup_all F df.
Proof. unfold lookup_all, update_all. simpl. apply lookup_all_replace. Qed.

Lemma lookup_all_assign_other (F G : string) (s : Series) (df : DataFrame) :
  String.eqb F G = false ->
  lookup_all F (assign G s df) = lookup_all F df.
Proof.
  intros E. unfold assign. destruct (has_column G df).
  - unfold lookup_all. simpl.
    rewrite (lookup_all_replace F G (fun _ => s)), E. reflexivity.
  - unfold lookup_all. simpl. rewrite filter_app, map_app. simpl.
    rewrite (String.eqb_sym G F), E. simpl. apply app_nil_r.
Qed.

Lemma lookup_all_assign_same (F : string) (s : Series) (df : DataFrame) :
  lookup_all F (assign F s df)
  = match lookup_all F df with
    | [] => [s]
    | l => map (fun _ => s) l
    end.
Proof.
  unfold assign. destruct (has_column F df) eqn:H.
  - unfold lookup_all at 1. simpl.
    rewrite (lookup_all_replace F F (fun _ => s)), String.eqb_refl.
    fold (lookup_all F df).
    destruct (lookup_all F df) eqn:E; [|reflexivity].
    apply has_column_lookup_all in E. congruence.
  - pose proof (proj1 (has_column_lookup_all F df) H) as E. rewrite E.
    unfold lookup_all in *. simpl. rewrite filter_app, map_app, E. simpl.
    rewrite String.eqb_refl. reflexivity.
Qed.

Lemma nrows_assign (G : string) (s : Series) (df : DataFrame) :
  nrows (assign G s df) = nrows df.
Proof. unfold assign. destruct (has_column G df); reflexivity. Qed.

Lemma nrows_ensure_column (G : string) (v : cell) (df : DataFrame) :
  nrows (ensure_column G v df) = nrows df.
Proof.
  unfold ensure_column, assign_scalar.
  destruct (has_column G df); [reflexivity | apply nrows_assign].
Qed.

Lemma lookup_all_ensure_column (F G : string) (v : cell) (df : DataFrame) :
  lookup_all F (ensure_column G v df)
  = if String.eqb F G
    then match lookup_all F df with
         | [] => [repeat v (nrows df)]
         | l => l
         end
    else lookup_all F df.
Proof.
  unfold ensure_column, assign_scalar.
  destruct (String.eqb F G) eqn:E.
  - apply String.eqb_eq in E. subst G.
    destruct (has_column F df) eqn:H.
    + destruct (lookup_all F df) eqn:E; [|reflexivity].
      apply has_column_lookup_all in E. congruence.
    + rewrite lookup_all_assign_same.
      rewrite (proj1 (has_column_lookup_all F df) H). reflexivity.
  - destruct (has_column G df); [reflexivity|].
    apply lookup_all_assign_other, E.
Qed.

Lemma columns_rename_found (F N : string) (col : option string) (df : DataFrame) :
  In F (columns (rename_found col N df)) ->
  In F (columns df) \/ (F = N /\ col <> None).
Proof.
  unfold rename_found. destruct col as [old|]; [|auto].
  destruct (String.eqb old ""); [auto|].
  unfold columns, rename. simpl. rewrite map_map. simpl.
  intros H. apply in_map_iff in H as ([l s] & E & Hin). simpl in E.
  destruct (String.eqb l old).
  - right. split; [auto | discriminate].
  - left. subst. apply in_map_iff. exists (F, s). auto.
Qed.

Lemma nrows_rename_found (N : string) (col : option string) (df : DataFrame) :
  nrows (rename_found col N df) = nrows df.
Proof.
  unfold rename_found. destruct col; [|reflexivity].
  destruct (String.eqb _ _); reflexivity.
Qed.

End Frames.

(** ** Schema normalisation *)

Section NormalizeFacts.

Context {L : Library}.

(** *** The three coercions on a column of defaults *)

Lemma to_numeric_repeat_int (n : nat) :
  to_numeric (repeat (CInt 0) n) = repeat (CInt 0) n.
Proof.
  unfold to_numeric.
  assert (H : map to_numeric_cell (repeat (CInt 0) n) = repeat (NInt 0) n)
    by (induction n as [|n IH]; simpl; [|rewrite IH]; reflexivity).
  rewrite H.
  assert (H' : forallb num_is_int (repeat (NInt 0) n) = true)
    by (clear; induction n as [|n IH]; simpl; [reflexivity | exact IH]).
  rewrite H'. clear. induction n as [|n IH]; simpl; [|rewrite IH]; reflexivity.
Qed.

Lemma to_numeric_repeat_float (n : nat) :
  to_numeric (repeat (CFloat 0) n) = repeat (CFloat 0) n.
Proof.
  unfold to_numeric.
  assert (H : map to_numeric_cell (repeat (CFloat 0) n) = repeat (NFloat 0) n)
    by (induction n as [|n IH]; simpl; [|rewrite IH]; reflexivity).
  rewrite H. destruct n as [|n]; [reflexivity|].
  simpl. f_equal. clear. induction n as [|n IH]; simpl; [|rewrite IH]; reflexivity.
Qed.

Lemma fillna_repeat (v d : cell) (n : nat) :
  isna d = false -> fillna v (repeat d n) = repeat d n.
Proof.
  intros H. unfold fillna.
  induction n as [|n IH]; simpl; [|rewrite H, IH]; reflexivity.
Qed.

Lemma astype_int_repeat_int (n : nat) :
  astype_int (repeat (CInt 0) n) = Ok (repeat (CInt 0) n).
Proof. unfold astype_int. induction n; simpl; [|rewrite IHn]; reflexivity. Qed.

Lemma astype_str_repeat_empty (n : nat) :
  astype_str (repeat (CStr "") n) = repeat (CStr "") n.
Proof.
  unfold astype_str. induction n as [|n IH]; simpl; [|rewrite IH]; reflexivity.
Qed.

(** *** What one coercion step does to the columns under a label *)

Lemma coerce_int_column_inv (G : string) (df df' : DataFrame) :
  coerce_int_column G df = Ok df' ->
  exists s s',
    lookup_all G df = [s]
    /\ astype_int (fillna_zero (to_numeric s)) = Ok s'
    /\ df' = assign G s' df.
Proof.
  unfold coerce_int_column, getitem.
  destruct (lookup_all G df) as [|s [|s2 rest]]; simpl; try discriminate.
  destruct (astype_int (fillna_zero (to_numeric s))) as [s'|] eqn:E; simpl; [|discriminate].
  intros [= <-]. eauto.
Qed.

Lemma coerce_float_column_inv (G : string) (df df' : DataFrame) :
  coerce_float_column G df = Ok df' ->
  exists s, lookup_all G df = [s] /\ df' = assign G (fillna_zero (to_numeric s)) df.
Proof.
  unfold coerce_float_column, getitem.
  destruct (lookup_all G df) as [|s [|s2 rest]]; simpl; try discriminate.
  intros [= <-]. eauto.
Qed.

Lemma coerce_str_column_inv (G : string) (df df' : DataFrame) :
  coerce_str_column G df = Ok df' ->
  lookup_all G df <> []
  /\ df' = update_all G (fun s => fillna (CStr "") (astype_str s)) df.
Proof.
  unfold coerce_str_column, getitem.
  destruct (lookup_all G df) as [|s [|s2 rest]]; simpl; try discriminate;
    intros [= <-]; split; auto; discriminate.
Qed.

Lemma coerce_int_column_nrows (G : string) (df df' : DataFrame) :
  coerce_int_column G df = Ok df' -> nrows df' = nrows df.
Proof.
  intros H. apply coerce_int_column_inv in H as (s & s' & _ & _ & ->).
  apply nrows_assign.
Qed.

Lemma coerce_float_column_nrows (G : string) (df df' : DataFrame) :
  coerce_float_column G df = Ok df' -> nrows df' = nrows df.
Proof.
  intros H. apply coerce_float_column_inv in H as (s & _ & ->). apply nrows_assign.
Qed.

Lemma coerce_str_column_nrows (G : string) (df df' : DataFrame) :
  coerce_str_column G df = Ok df' -> nrows df' = nrows df.
Proof. intros H. apply coerce_str_column_inv in H as (_ & ->). reflexivity. Qed.

(** A column of defaults stays a column of defaults: under another
    label nothing changes, under its own label the coercion is the
    identity on the default. *)
Lemma coerce_int_column_keeps (G F : string) (v : cell) (n : nat) (df df' : DataFrame) :
  coerce_int_column G df = Ok df' ->
  String.eqb F G = false \/ v = CInt 0 ->
  lookup_all F df = [repeat v n] ->
  lookup_all F df' = [repeat v n].
Proof.
  intros H Hv HF. apply coerce_int_column_inv in H as (s & s' & HG & Hs & ->).
  destruct (String.eqb F G) eqn:E.
  - apply String.eqb_eq in E. subst G. destruct Hv as [Hv | ->]; [discriminate|].
    rewrite lookup_all_assign_same, HF. simpl. f_equal.
    rewrite HF in HG. injection HG as <-.
    rewrite to_numeric_repeat_int in Hs. unfold fillna_zero in Hs.
    rewrite fillna_repeat, astype_int_repeat_int in Hs by reflexivity.
    congruence.
  - rewrite lookup_all_assign_other by exact E. exact HF.
Qed.

Lemma coerce_float_column_keeps (G F : string) (v : cell) (n : nat) (df df' : DataFrame) :
  coerce_float_column G df = Ok df' ->
  String.eqb F G = false \/ v = CFloat 0 ->
  lookup_all F df = [repeat v n] ->
  lookup_all F df' = [repeat v n].
Proof.
  intros H Hv HF. apply coerce_float_column_inv in H as (s & HG & ->).
  destruct (String.eqb F G) eqn:E.
  - apply String.eqb_eq in E. subst G. destruct Hv as [Hv | ->]; [discriminate|].
    rewrite lookup_all_assign_same, HF. simpl. f_equal.
    rewrite HF in HG. injection HG as <-.
    rewrite to_numeric_repeat_float. unfold fillna_zero.
    apply fillna_repeat. reflexivity.
  - rewrite lookup_all_assign_other by exact E. exact HF.
Qed.

Lemma coerce_str_column_keeps (G F : string) (v : cell) (n : nat) (df df' : DataFrame) :
  coerce_str_column G df = Ok df' ->
  String.eqb F G = false \/ v = CStr "" ->
  lookup_all F df = [repeat v n] ->
  lookup_all F df' = [repeat v n].
Proof.
  intros H Hv HF. apply coerce_str_column_inv in H as (_ & ->).
  rewrite lookup_all_update_all.
  destruct (String.eqb F G) eqn:E; [|exact HF].
  destruct Hv as [Hv | ->]; [discriminate|].
  rewrite HF. simpl. rewrite astype_str_repeat_empty, fillna_repeat; reflexivity.
Qed.

Lemma coerce_int_column_default_ok (G : string) (n : nat) (df : DataFrame) :
  lookup_all G df = [repeat (CInt 0) n] ->
  exists df', coerce_int_column G df = Ok df'.
Proof.
  intros H. unfold coerce_int_column, getitem. rewrite H. simpl.
  rewrite to_numeric_repeat_int. unfold fillna_zero.
  rewrite fillna_repeat, astype_int_repeat_int by reflexivity. simpl. eauto.
Qed.

Lemma coerce_float_column_default_ok (G : string) (n : nat) (df : DataFrame) :
  lookup_all G df = [repeat (CFloat 0) n] ->
  exists df', coerce_float_column G df = Ok df'.
Proof. intros H. unfold coerce_float_column, getitem. rewrite H. simpl. eauto. Qed.

Lemma coerce_str_column_default_ok (G : string) (n : nat) (df : DataFrame) :
  lookup_all G df = [repeat (CStr "") n] ->
  exists df', coerce_str_column G df = Ok df'.
Proof. intros H. unfold coerce_str_column, getitem. rewrite H. simpl. eauto. Qed.

End NormalizeFacts.

Section SchemaDefaults.

Context {L : Library}.

Lemma nrows_rename_columns (df : DataFrame) :
  nrows (rename_columns df) = nrows df.
Proof. unfold rename_columns. cbv zeta. now rewrite !nrows_rename_found. Qed.

Lemma nrows_ensure_columns (df : DataFrame) :
  nrows (ensure_columns df) = nrows df.
Proof. unfold ensure_columns. cbv zeta. now rewrite !nrows_ensure_column. Qed.

(** A field whose needles occur in no label has no column after the
    renaming: no label is its canonical name (that name contains one of
    its own needles), and the renamings only produce the names of the
    fields that were found. *)
Lemma unresolved_absent (df : DataFrame) (name : string) (needles : list string) (d : cell) :
  In (name, needles, d) optional_fields ->
  find_col (columns df) needles = None ->
  lookup_all name (rename_columns df) = [].
Proof.
  intros Hin Hnone. apply has_column_lookup_all.
  destruct (has_column name (rename_columns df)) eqn:Hc; [|reflexivity].
  exfalso. apply has_column_In in Hc.
  unfold rename_columns in Hc. cbv zeta in Hc.
  assert (Hself : In name (columns df) -> False).
  { intros H. pose proof (proj1 (find_col_none_iff _ _) Hnone name H) as Hm.
    simpl in Hin.
    repeat (destruct Hin as [Hin | Hin];
            [injection Hin as <- <- <-; vm_compute in Hm; discriminate|]).
    exact Hin. }
  simpl in Hin.
  repeat (destruct Hin as [Hin | Hin];
          [injection Hin as <- <- <-;
           repeat (apply columns_rename_found in Hc;
                   destruct Hc as [Hc | [Heq Hne]];
                   [| first [discriminate Heq | exact (Hne Hnone)]]);
           exact (Hself Hc)|]).
  exact Hin.
Qed.

Lemma unresolved_defaulted (df : DataFrame) (name : string) (needles : list string) (d : cell) :
  In (name, needles, d) optional_fields ->
  find_col (columns df) needles = None ->
  lookup_all name (ensure_columns (rename_columns df)) = [repeat d (nrows df)].
Proof.
  intros Hin Hnone.
  pose proof (unresolved_absent df name needles d Hin Hnone) as Habs.
  rewrite <- (nrows_rename_columns df).
  generalize dependent (rename_columns df). intros df1 Habs.
  unfold ensure_columns. cbv zeta.
  simpl in Hin.
  repeat (destruct Hin as [Hin | Hin];
          [injection Hin as <- <- <-;
           repeat (rewrite lookup_all_ensure_column; cbn [String.eqb Ascii.eqb Bool.eqb]);
           rewrite Habs, ?nrows_ensure_column; reflexivity|]).
  destruct Hin.
Qed.

End SchemaDefaults.

Ltac bind_inv H :=
  match type of H with
  | bind ?m _ = Ok _ =>
      let E := fresh "E" in
      let d := fresh "d" in
      destruct m as [d|] eqn:E; simpl in H; [|discriminate H]
  end.

Ltac pick_side := first [left; reflexivity | right; reflexivity].

Section SchemaTheorems.

Context {L : Library}.

Lemma coerce_columns_keeps (name : string) (needles : list string) (d : cell)
      (n : nat) (df df' : DataFrame) :
  In (name, needles, d) optional_fields ->
  coerce_columns df = Ok df' ->
  lookup_all name df = [repeat d n] ->
  lookup_all name df' = [repeat d n].
Proof.
  intros Hin H H0. unfold coerce_columns in H.
  do 8 bind_inv H.
  simpl in Hin.
  repeat (destruct Hin as [Hin | Hin];
          [injection Hin as <- <- <-;
           apply (coerce_int_column_keeps _ _ _ _ _ _ E) in H0; [|pick_side];
           apply (coerce_int_column_keeps _ _ _ _ _ _ E0) in H0; [|pick_side];
           apply (coerce_float_column_keeps _ _ _ _ _ _ E1) in H0; [|pick_side];
           apply (coerce_float_column_keeps _ _ _ _ _ _ E2) in H0; [|pick_side];
           apply (coerce_str_column_keeps _ _ _ _ _ _ E3) in H0; [|pick_side];
           apply (coerce_str_column_keeps _ _ _ _ _ _ E4) in H0; [|pick_side];
           apply (coerce_str_column_keeps _ _ _ _ _ _ E5) in H0; [|pick_side];
           apply (coerce_str_column_keeps _ _ _ _ _ _ E6) in H0; [|pick_side];
           apply (coerce_str_column_keeps _ _ _ _ _ _ H) in H0; [|pick_side];
           exact H0|]).
  destruct Hin.
Qed.

(** One coercion step in a chain: it succeeds on a frame whose optional
    columns are all columns of defaults, and leaves such a frame. *)
Lemma defaults_step (step : string -> DataFrame -> exc DataFrame) (v : cell)
      (G : string) (k : list string) (n : nat) (df : DataFrame)
      (K : DataFrame -> exc DataFrame) :
  (forall df0, lookup_all G df0 = [repeat v n] -> exists df', step G df0 = Ok df') ->
  (forall F v' df0 df',
      step G df0 = Ok df' ->
      String.eqb F G = false \/ v' = v ->
      lookup_all F df0 = [repeat v' n] -> lookup_all F df' = [repeat v' n]) ->
  In (G, k, v) optional_fields ->
  all_defaulted n df ->
  (forall df1, all_defaulted n df1 -> exists df', K df1 = Ok df') ->
  exists df', bind (step G df) K = Ok df'.
Proof.
  intros Hok Hkeeps HG I0 HK.
  destruct (Hok df (I0 _ _ _ HG)) as [df1 E1].
  rewrite E1. simpl. apply HK. intros name needles d Hin.
  apply (Hkeeps _ _ _ _ E1); [|apply I0 with needles; exact Hin].
  simpl in Hin, HG.
  repeat (destruct HG as [HG | HG];
          [injection HG as <- <- <-;
           repeat (destruct Hin as [Hin | Hin]; [injection Hin as <- <- <-; pick_side|]);
           destruct Hin|]).
  destruct HG.
Qed.

(** With every optional column a column of defaults, the coercions all
    succeed. *)
Lemma coerce_columns_defaults_ok (n : nat) (df : DataFrame) :
  all_defaulted n df -> exists df', coerce_columns df = Ok df'.
Proof.
  intros I0. unfold coerce_columns.
  pose proof (fun G => defaults_step coerce_int_column (CInt 0) G) as Hint.
  pose proof (fun G => defaults_step coerce_float_column (CFloat 0) G) as Hflt.
  pose proof (fun G => defaults_step coerce_str_column (CStr "") G) as Hstr.
  eapply Hint;
    [apply coerce_int_column_default_ok | intros; eapply coerce_int_column_keeps; eauto
     | simpl; auto 10 | exact I0 |]. intros d1 I1.
  eapply Hint;
    [apply coerce_int_column_default_ok | intros; eapply coerce_int_column_keeps; eauto
     | simpl; auto 10 | exact I1 |]. intros d2 I2.
  eapply Hflt;
    [apply coerce_float_column_default_ok | intros; eapply coerce_float_column_keeps; eauto
     | simpl; auto 10 | exact I2 |]. intros d3 I3.
  eapply Hflt;
    [apply coerce_float_column_default_ok | intros; eapply coerce_float_column_keeps; eauto
     | simpl; auto 10 | exact I3 |]. intros d4 I4.
  eapply Hstr;
    [apply coerce_str_column_default_ok | intros; eapply coerce_str_column_keeps; eauto
     | simpl; auto 10 | exact I4 |]. intros d5 I5.
  eapply Hstr;
    [apply coerce_str_column_default_ok | intros; eapply coerce_str_column_keeps; eauto
     | simpl; auto 10 | exact I5 |]. intros d6 I6.
  eapply Hstr;
    [apply coerce_str_column_default_ok | intros; eapply coerce_str_column_keeps; eauto
     | simpl; auto 10 | exact I6 |]. intros d7 I7.
  eapply Hstr;
    [apply coerce_str_column_default_ok | intros; eapply coerce_str_column_keeps; eauto
     | simpl; auto 10 | exact I7 |]. intros d8 I8.
  apply (coerce_str_column_default_ok "Actual Details" n).
  apply I8 with actual_det_needles. simpl. auto 10.
Qed.

Lemma found_date_col (cols : list string) (c : string) :
  find_col cols date_needles = Some c -> found (Some c) = true.
Proof.
  intros H. apply find_col_some_iff in H as (_ & _ & _ & Hm & _).
  destruct c; [vm_compute in Hm; discriminate | reflexivity].
Qed.

End SchemaTheorems.

Section SchemaClaims.

Context {L : Library}.

Lemma fillna_astype_str (s : Series) :
  fillna (CStr "") (astype_str s) = astype_str s.
Proof.
  unfold fillna, astype_str. rewrite map_map. apply map_ext. intros c.
  unfold astype_str_cell. destruct (isna c); [reflexivity|]. destruct c; reflexivity.
Qed.

Lemma coerce_int_column_default_eq (G : string) (n : nat) (df : DataFrame) :
  lookup_all G df = [repeat (CInt 0) n] ->
  coerce_int_column G df = Ok (assign G (repeat (CInt 0) n) df).
Proof.
  intros H. unfold coerce_int_column, getitem. rewrite H. simpl.
  rewrite to_numeric_repeat_int. unfold fillna_zero.
  rewrite fillna_repeat, astype_int_repeat_int by reflexivity. reflexivity.
Qed.

Lemma coerce_float_column_default_eq (G : string) (n : nat) (df : DataFrame) :
  lookup_all G df = [repeat (CFloat 0) n] ->
  coerce_float_column G df = Ok (assign G (repeat (CFloat 0) n) df).
Proof.
  intros H. unfold coerce_float_column, getitem. rewrite H. simpl.
  rewrite to_numeric_repeat_float. unfold fillna_zero.
  rewrite fillna_repeat by reflexivity. reflexivity.
Qed.

Lemma coerce_str_column_eq (G : string) (s : Series) (df : DataFrame) :
  lookup_all G df = [s] ->
  coerce_str_column G df = Ok (update_all G astype_str df).
Proof.
  intros H. unfold coerce_str_column, getitem. rewrite H. simpl. f_equal.
  unfold update_all. f_equal. apply map_ext. intros [l c].
  simpl. destruct (String.eqb l G); [|reflexivity]. now rewrite fillna_astype_str.
Qed.

(** The text columns after the coercions: [astype(str)] of what was
    there, whatever the numeric coercions did to the other labels. *)
Lemma coerce_columns_text (name : string) (needles : list string) (df df' : DataFrame) :
  In (name, needles, CStr "") optional_fields ->
  coerce_columns df = Ok df' ->
  lookup_all name df' = map astype_str (lookup_all name df).
Proof.
  intros Hin H. unfold coerce_columns in H. do 8 bind_inv H.
  apply coerce_int_column_inv in E as (? & ? & _ & _ & ->).
  apply coerce_int_column_inv in E0 as (? & ? & _ & _ & ->).
  apply coerce_float_column_inv in E1 as (? & _ & ->).
  apply coerce_float_column_inv in E2 as (? & _ & ->).
  apply coerce_str_column_inv in E3 as (_ & ->).
  apply coerce_str_column_inv in E4 as (_ & ->).
  apply coerce_str_column_inv in E5 as (_ & ->).
  apply coerce_str_column_inv in E6 as (_ & ->).
  apply coerce_str_column_inv in H as (_ & ->).
  simpl in Hin.
  repeat (destruct Hin as [Hin | Hin];
          [first
             [ discriminate Hin
             | injection Hin as <- <-;
               repeat (rewrite lookup_all_update_all; cbn [String.eqb Ascii.eqb Bool.eqb]);
               rewrite !lookup_all_assign_other by reflexivity;
               apply map_ext; intros s; apply fillna_astype_str ]|]).
  destruct Hin.
Qed.

End SchemaClaims.

(** C7.  Without a column whose label contains "date", [normalize_schema]
    raises its schema error, and the handler answers with that error
    without sending anything.  Every other canonical field is optional: if
    none of its needles occurs in a label, the field has a single column
    holding its default in every row, and that is what a successful
    normalisation returns for it; with a date column and no optional field
    resolved, the normalisation does succeed. *)
Theorem schema_error_and_optional_defaults `{L : Library} (df : DataFrame) :
  (find_col (columns df) date_needles = None ->
   normalize_schema df = Raise no_date_column
   /\ forall w receiver email name outbox,
       receiver <> "" ->
       Str.endswith ".xlsx" (Str.lower name) = true ->
       upload_timesheet w (mkRequest (Some receiver) email (Some (mkUpload name (Ok df))))
                        outbox
       = (Failure 500 (str_of_exn no_date_column), outbox))
  /\ (forall name needles d,
         In (name, needles, d) optional_fields ->
         find_col (columns df) needles = None ->
         lookup_all name (ensure_columns (rename_columns df)) = [repeat d (nrows df)]
         /\ forall df', normalize_schema df = Ok df' ->
                        lookup_all name df' = [repeat d (nrows df)])
  /\ (find_col (columns df) date_needles <> None ->
      (forall name needles d,
          In (name, needles, d) optional_fields -> find_col (columns df) needles = None) ->
      exists df', normalize_schema df = Ok df').
Proof.
  split; [|split].
  - intros Hnone.
    assert (Hn : normalize_schema df = Raise no_date_column)
      by (unfold normalize_schema; rewrite Hnone; reflexivity).
    split; [exact Hn|].
    intros w receiver email name outbox Hr Hx.
    unfold upload_timesheet, form_or. simpl.
    apply String.eqb_neq in Hr. rewrite Hr. simpl.
    assert (Hname : String.eqb name "" = false)
      by (destruct name; [discriminate Hx | reflexivity]).
    rewrite Hname. unfold process, load_xlsx. simpl.
    rewrite Hx. simpl. rewrite Hn, ?Hr. reflexivity.
  - intros name needles d Hin Hnone.
    pose proof (unresolved_defaulted df name needles d Hin Hnone) as Hd.
    split; [exact Hd|].
    intros df' H. unfold normalize_schema in H.
    destruct (negb (found (find_col (columns df) date_needles))); [discriminate|].
    exact (coerce_columns_keeps name needles d _ _ _ Hin H Hd).
  - intros Hdate Hall. unfold normalize_schema.
    destruct (find_col (columns df) date_needles) as [c|] eqn:E; [|congruence].
    rewrite (found_date_col _ _ E). simpl.
    apply (coerce_columns_defaults_ok (nrows df)).
    intros name needles d Hin.
    apply unresolved_defaulted with needles; [exact Hin | apply (Hall _ _ _ Hin)].
Qed.

(** C7 at a sheet that has only a "Task" column. *)
Lemma schema_error_and_optional_defaults_witness :
  normalize_schema (L := Ref.library) (mkDF 1 [("Task", [CStr "Build"])])
  = Raise no_date_column.
Proof.
  exact (proj1 (proj1 (schema_error_and_optional_defaults
                         (L := Ref.library) (mkDF 1 [("Task", [CStr "Build"])]))
                      eq_refl)).
Defined.

Section ActivitySheet.

Context {L : Library}.

Variable n : nat.
Variables date cat task plan_count done_count plan_mins done_mins : Series.

Let df : DataFrame :=
  mkDF n [("Activity Date", date); ("Cat", cat); ("Task", task);
          ("Plan Count", plan_count); ("Done Count", done_count);
          ("Plan Mins", plan_mins); ("Done Mins", done_mins)].

(** The whole frame that [normalize_schema] returns for the sheet. *)
Lemma normalize_activity_sheet_frame :
  normalize_schema df
  = Ok (mkDF n [("Date", date); ("Category", astype_str cat); ("Task", task);
                ("Plan Count", plan_count); ("Done Count", done_count);
                ("Plan Mins", plan_mins); ("Done Mins", done_mins);
                ("Subcategory", repeat (CStr "") n);
                ("Line Item", repeat (CStr "") n);
                ("Planned LI", repeat (CInt 0) n);
                ("Actual LI", repeat (CInt 0) n);
                ("Planned Efforts (mins)", repeat (CFloat 0) n);
                ("Actual Efforts (mins)", repeat (CFloat 0) n);
                ("Planned Details", repeat (CStr "") n);
                ("Actual Details", repeat (CStr "") n)]).
Proof.
  unfold normalize_schema.
  change (find_col (columns df) date_needles) with (Some "Activity Date").
  cbn [found negb String.eqb Ascii.eqb Bool.eqb].
  change (ensure_columns (rename_columns df)) with
    (mkDF n [("Date", date); ("Category", cat); ("Task", task);
             ("Plan Count", plan_count); ("Done Count", done_count);
             ("Plan Mins", plan_mins); ("Done Mins", done_mins);
             ("Subcategory", repeat (CStr "") n);
             ("Line Item", repeat (CStr "") n);
             ("Planned LI", repeat (CInt 0) n);
             ("Actual LI", repeat (CInt 0) n);
             ("Planned Efforts (mins)", repeat (CFloat 0) n);
             ("Actual Efforts (mins)", repeat (CFloat 0) n);
             ("Planned Details", repeat (CStr "") n);
             ("Actual Details", repeat (CStr "") n)]).
  unfold coerce_columns.
  rewrite (coerce_int_column_default_eq "Planned LI" n) by reflexivity. cbn [bind].
  rewrite (coerce_int_column_default_eq "Actual LI" n) by reflexivity. cbn [bind].
  rewrite (coerce_float_column_default_eq "Planned Efforts (mins)" n) by reflexivity.
  cbn [bind].
  rewrite (coerce_float_column_default_eq "Actual Efforts (mins)" n) by reflexivity.
  cbn [bind].
  rewrite (coerce_str_column_eq "Category" cat) by reflexivity. cbn [bind].
  rewrite (coerce_str_column_eq "Subcategory" (repeat (CStr "") n)) by reflexivity.
  cbn [bind].
  rewrite (coerce_str_column_eq "Line Item" (repeat (CStr "") n)) by reflexivity.
  cbn [bind].
  rewrite (coerce_str_column_eq "Planned Details" (repeat (CStr "") n)) by reflexivity.
  cbn [bind].
  rewrite (coerce_str_column_eq "Actual Details" (repeat (CStr "") n)) by reflexivity.
  f_equal.
  cbv [update_all assign has_column columns existsb map fst snd df_cols nrows
       String.eqb Ascii.eqb Bool.eqb orb].
  rewrite !astype_str_repeat_empty. reflexivity.
Qed.


(** C2 (amended).  Whatever the rows hold, normalising a sheet with the
    labels "Activity Date", "Cat", "Task", "Plan Count", "Done Count",
    "Plan Mins", "Done Mins" succeeds; "Activity Date" becomes Date and
    "Cat" becomes Category (as text).  The four count and minute columns
    contain no needle and stay under their own labels, so Planned LI and
    Actual LI are columns of 0, the two Efforts columns are columns of
    0.0, and Subcategory and both Details columns are columns of "". *)
Theorem normalize_activity_sheet :
  exists df',
    normalize_schema df = Ok df'
    /\ lookup_all "Date" df' = [date]
    /\ lookup_all "Category" df' = [astype_str cat]
    /\ lookup_all "Planned LI" df' = [repeat (CInt 0) n]
    /\ lookup_all "Actual LI" df' = [repeat (CInt 0) n]
    /\ lookup_all "Planned Efforts (mins)" df' = [repeat (CFloat 0) n]
    /\ lookup_all "Actual Efforts (mins)" df' = [repeat (CFloat 0) n]
    /\ lookup_all "Subcategory" df' = [repeat (CStr "") n]
    /\ lookup_all "Planned Details" df' = [repeat (CStr "") n]
    /\ lookup_all "Actual Details" df' = [repeat (CStr "") n]
    /\ lookup_all "Plan Count" df' = [plan_count]
    /\ lookup_all "Done Count" df' = [done_count]
    /\ lookup_all "Plan Mins" df' = [plan_mins]
    /\ lookup_all "Done Mins" df' = [done_mins].
Proof.
  eexists. split; [apply normalize_activity_sheet_frame|].
  repeat split; reflexivity.
Qed.

(** The Line Item field of the same sheet.  Its needle "activity" occurs
    in "Activity Date", the first label, which is the label [find_col]
    returns; that column has become Date by then, the renaming finds
    nothing to rename, and "Task" keeps its label. *)
Lemma normalize_activity_sheet_line_item :
  find_col (columns df) line_item_needles = Some "Activity Date"
  /\ exists df',
      normalize_schema df = Ok df'
      /\ lookup_all "Line Item" df' = [repeat (CStr "") n]
      /\ lookup_all "Task" df' = [task].
Proof.
  split; [reflexivity|].
  eexists. split; [apply normalize_activity_sheet_frame|].
  split; reflexivity.
Qed.

End ActivitySheet.

(** C2 (as stated).  On the three-row sheet of the scenario the Planned LI
    column of the result is not the "Plan Count" column. *)
Lemma activity_sheet_plan_count_not_planned_li :
  ~ exists df',
      normalize_schema (L := Ref.library) Examples.activity_sheet = Ok df'
      /\ lookup_all "Planned LI" df' = [[CInt 3; CInt 2; CInt 1]].
Proof.
  intros (df' & H & Hp).
  pose proof (normalize_activity_sheet_frame (L := Ref.library) 3
                [CStr "2024-03-04"; CStr "2024-03-06"; CStr "2024-03-12"]
                [CStr "Dev"; CStr "Dev"; CStr "Ops"]
                [CStr "Build"; CStr "Test"; CStr "Plan"]
                [CInt 3; CInt 2; CInt 1] [CInt 3; CInt 1; CInt 0]
                [CFloat 60; CFloat 30; CFloat 45] [CFloat 50; CFloat 35; CFloat 0])
    as H2.
  match type of H2 with
  | _ = ?r => change (normalize_schema (L := Ref.library) Examples.activity_sheet = r) in H2
  end.
  rewrite H in H2. injection H2 as ->. discriminate Hp.
Qed.

(** C10.  For a text field, a successful normalisation returns
    [astype(str)] of the columns that carry the field's label once the
    renaming is done, and [astype(str)] turns a missing cell into the text
    "nan"; the column of "" appears exactly when no column carries the
    label, which is the case whenever no label contains a needle of the
    field. *)
Theorem text_cells_nan_or_default `{L : Library}
        (df df' : DataFrame) (name : string) (needles : list string) :
  In (name, needles, CStr "") optional_fields ->
  normalize_schema df = Ok df' ->
  (forall c, isna c = true -> astype_str_cell c = CStr "nan")
  /\ (has_column name (rename_columns df) = true ->
      lookup_all name df' = map astype_str (lookup_all name (rename_columns df)))
  /\ (has_column name (rename_columns df) = false ->
      lookup_all name df' = [repeat (CStr "") (nrows df)])
  /\ (find_col (columns df) needles = None ->
      has_column name (rename_columns df) = false).
Proof.
  intros Hin H. split; [|split; [|split]].
  - intros c Hc. unfold astype_str_cell. rewrite Hc. reflexivity.
  - intros Hp. unfold normalize_schema in H.
    destruct (negb (found (find_col (columns df) date_needles))); [discriminate|].
    rewrite (coerce_columns_text name needles _ _ Hin H). f_equal.
    unfold ensure_columns. cbv zeta.
    assert (Hne : lookup_all name (rename_columns df) <> []).
    { intros E. apply has_column_lookup_all in E. congruence. }
    generalize dependent (rename_columns df). intros df1 _ _ Hne.
    simpl in Hin.
    repeat (destruct Hin as [Hin | Hin];
            [first
               [ discriminate Hin
               | injection Hin as <- <-;
                 repeat (rewrite lookup_all_ensure_column;
                         cbn [String.eqb Ascii.eqb Bool.eqb]);
                 destruct (lookup_all _ df1); [congruence | reflexivity] ]|]).
    destruct Hin.
  - intros Ha. unfold normalize_schema in H.
    destruct (negb (found (find_col (columns df) date_needles))); [discriminate|].
    rewrite (coerce_columns_text name needles _ _ Hin H).
    apply has_column_lookup_all in Ha.
    rewrite <- (nrows_rename_columns df).
    generalize dependent (rename_columns df). intros df1 _ Ha.
    unfold ensure_columns. cbv zeta.
    simpl in Hin.
    repeat (destruct Hin as [Hin | Hin];
            [first
               [ discriminate Hin
               | injection Hin as <- <-;
                 repeat (rewrite lookup_all_ensure_column;
                         cbn [String.eqb Ascii.eqb Bool.eqb]);
                 rewrite Ha, ?nrows_ensure_column; simpl;
                 rewrite astype_str_repeat_empty; reflexivity ]|]).
    destruct Hin.
  - intros Hnone. apply has_column_lookup_all.
    apply unresolved_absent with needles (CStr ""); assumption.
Qed.

(** C10 at a sheet whose "Category" column has a missing second cell: the
    normalised cell is the text "nan". *)
Lemma text_cells_nan_or_default_witness :
  lookup_all "Category" Examples.gap_sheet_normalized = [[CStr "Dev"; CStr "nan"]].
Proof.
  exact (proj1 (proj2 (text_cells_nan_or_default
                         (L := Ref.library)
                         Examples.gap_sheet Examples.gap_sheet_normalized
                         "Category" category_needles
                         (or_introl eq_refl) eq_refl))
               eq_refl).
Defined.

(** ** Date parsing *)

Section DateFacts.

Context {L : Library}.

Local Open Scope Z_scope.





(** Only the native-datetime branch lets an exception out, and it does so
    exactly when [pd.to_datetime] coerces the value to NaT. *)
Lemma parse_any_date_raises_iff (val : cell) :
  (exists e, parse_any_date val = Raise e) <->
  (exists day ns, val = CDatetime day ns /\ Cal.timestamp_of day ns = None).
Proof.
  assert (Htext : forall c e, parse_text c <> Raise e).
  { intros c e. unfold parse_text.
    destruct (String.eqb _ _); [discriminate|].
    destruct (datetime_of_text false _); [discriminate|].
    destruct (datetime_of_text true _); discriminate. }
  split.
  - intros [e H]. unfold parse_any_date in H.
    destruct (isna val); [discriminate|].
    destruct val; try (exfalso; exact (Htext _ _ H)).
    + destruct (normalize_or_raise _); [discriminate | exfalso; exact (Htext _ _ H)].
    + destruct (normalize_or_raise _); [discriminate | exfalso; exact (Htext _ _ H)].
    + exists day, ns. split; [reflexivity|].
      destruct (Cal.timestamp_of day ns); [discriminate | reflexivity].
  - intros (day & ns & -> & H). unfold parse_any_date. cbn [isna].
    rewrite H. cbn [normalize_or_raise bind]. eauto.
Qed.

End DateFacts.

(** C4 (the code against the claim).  A native datetime of the year 2300
    lies beyond what a nanosecond [Timestamp] holds; [pd.to_datetime]
    coerces it to NaT, and the unguarded [.normalize()] of the first branch
    raises.  This is the only way an exception leaves [parse_any_date]:
    the numeric branch catches it and the text branch tests for NaT
    first. *)
Theorem parse_any_date_raises_on_far_datetime `{L : Library} :
  parse_any_date (CDatetime (Cal.ymd2ord 2300 1 1) 0)
  = Raise (AttributeError "'NaTType' object has no attribute 'normalize'")
  /\ forall val,
      (exists e, parse_any_date val = Raise e) <->
      (exists day ns, val = CDatetime day ns /\ Cal.timestamp_of day ns = None).
Proof. split; [vm_compute; reflexivity | apply parse_any_date_raises_iff]. Qed.



(** ** Week ranges *)

Section WeekFacts.

Local Open Scope Z_scope.

Lemma weekday_bounds (d : Z) : 0 <= Cal.weekday d <= 6.
Proof. unfold Cal.weekday. pose proof (Z.mod_pos_bound (d + 6) 7). lia. Qed.

Lemma monday_of (d : Z) : Cal.weekday (d - Cal.weekday d) = 0.
Proof. unfold Cal.weekday. Z.div_mod_to_equations. lia. Qed.

Lemma monday_not_before_min (d : Z) :
  Cal.min_ordinal <= d -> Cal.min_ordinal <= d - Cal.weekday d.
Proof. unfold Cal.weekday, Cal.min_ordinal. intros H. Z.div_mod_to_equations. lia. Qed.

Lemma add_days_ok (d n : Z) :
  Cal.min_ordinal <= d + n <= Cal.max_ordinal -> Cal.add_days d n = Ok (d + n).
Proof.
  intros [H1 H2]. unfold Cal.add_days.
  apply Z.leb_le in H1, H2. rewrite H1, H2. reflexivity.
Qed.

Lemma add_days_overflow (d n : Z) :
  Cal.max_ordinal < d + n ->
  Cal.add_days d n = Raise (OverflowError "date value out of range").
Proof.
  intros H. unfold Cal.add_days.
  apply Z.leb_gt in H. rewrite H, andb_false_r. reflexivity.
Qed.

Lemma windows_disjoint (m d : Z) :
  in_window (m, m + 6) d && in_window (m + 6 + 1, m + 6 + 1 + 6) d = false.
Proof.
  unfold in_window. cbn [fst snd].
  destruct (Z.leb_spec m d), (Z.leb_spec d (m + 6)), (Z.leb_spec (m + 6 + 1) d);
    cbn [andb]; try reflexivity. lia.
Qed.

End WeekFacts.

(** C5 (amended).  For a reference date whose next week still ends on or
    before 9999-12-31, [get_week_ranges] returns the Monday on or before
    the date, that Monday + 6, the day after, and that day + 6; the date
    lies in the first window and no day lies in both.  For the later
    reference dates the date arithmetic overflows and nothing is
    returned. *)
Theorem get_week_ranges_windows (today : Z) :
  (Cal.min_ordinal <= today <= Cal.max_ordinal)%Z ->
  let monday := (today - Cal.weekday today)%Z in
  ((monday + 13 <= Cal.max_ordinal)%Z ->
   get_week_ranges today
   = Ok ((monday, monday + 6), (monday + 6 + 1, monday + 6 + 1 + 6))%Z
   /\ Cal.weekday monday = 0%Z
   /\ in_window (monday, monday + 6)%Z today = true
   /\ forall d,
       in_window (monday, monday + 6)%Z d
       && in_window (monday + 6 + 1, monday + 6 + 1 + 6)%Z d = false)
  /\ ((Cal.max_ordinal < monday + 13)%Z ->
      exists e, get_week_ranges today = Raise e).
Proof.
  intros [Hmin Hmax] monday.
  pose proof (weekday_bounds today) as Hw.
  pose proof (monday_not_before_min today Hmin) as Hm.
  fold monday in Hm.
  assert (Hstart : Cal.add_days today (- Cal.weekday today) = Ok monday).
  { replace monday with (today + - Cal.weekday today)%Z by (unfold monday; lia).
    apply add_days_ok. unfold monday in Hm. lia. }
  split.
  - intros Hend. split; [|split; [|split]].
    + unfold get_week_ranges. rewrite Hstart. cbn [bind].
      rewrite (add_days_ok monday 6) by lia. cbn [bind].
      rewrite (add_days_ok (monday + 6) 1) by lia. cbn [bind].
      rewrite (add_days_ok (monday + 6 + 1) 6) by lia. reflexivity.
    + apply monday_of.
    + unfold in_window. cbn [fst snd]. apply andb_true_iff.
      split; apply Z.leb_le; unfold monday; lia.
    + apply windows_disjoint.
  - intros Hover. unfold get_week_ranges. rewrite Hstart. cbn [bind].
    unfold Cal.add_days at 1.
    destruct ((Cal.min_ordinal <=? monday + 6)%Z && (monday + 6 <=? Cal.max_ordinal)%Z);
      cbn [bind]; [|eexists; reflexivity].
    unfold Cal.add_days at 1.
    destruct ((Cal.min_ordinal <=? monday + 6 + 1)%Z
              && (monday + 6 + 1 <=? Cal.max_ordinal)%Z); cbn [bind]; [|eexists; reflexivity].
    rewrite add_days_overflow by lia. cbn [bind]. eexists; reflexivity.
Qed.

(** C5 at Wednesday 2024-03-06: the current week starts on Monday
    2024-03-04 and the next one ends on Sunday 2024-03-17. *)
Lemma get_week_ranges_windows_witness :
  get_week_ranges (Cal.ymd2ord 2024 3 6)
  = Ok ((Cal.ymd2ord 2024 3 4, Cal.ymd2ord 2024 3 10),
        (Cal.ymd2ord 2024 3 11, Cal.ymd2ord 2024 3 17)).
Proof.
  exact (proj1 (proj1 (get_week_ranges_windows (Cal.ymd2ord 2024 3 6)
                         ltac:(vm_compute; split; intro H; discriminate H))
                      ltac:(vm_compute; intro H; discriminate H))).
Defined.

(** C5 (as stated).  On 9999-12-31, a Friday, the current week would end
    on a day Python's [date] cannot represent. *)
Lemma get_week_ranges_overflows_at_max :
  get_week_ranges (Cal.ymd2ord 9999 12 31)
  = Raise (OverflowError "date value out of range").
Proof. vm_compute. reflexivity. Qed.

(** ** Deviation summary *)

Section DeviationFacts.

Context {L : Library}.

Lemma mapM_total {A B : Type} (f : A -> exc B) (P : A -> B -> Prop) (l : list A) :
  (forall a, In a l -> exists b, f a = Ok b /\ P a b) ->
  exists bs, mapM f l = Ok bs /\ Forall2 P l bs.
Proof.
  induction l as [|a l IH]; intros H; simpl.
  - exists []. split; [reflexivity | constructor].
  - destruct (H a (or_introl eq_refl)) as (b & Hb & Pb).
    destruct IH as (bs & Hbs & Pbs); [intros x Hx; apply H; right; exact Hx|].
    rewrite Hb. simpl. rewrite Hbs. simpl.
    exists (b :: bs). split; [reflexivity | constructor; assumption].
Qed.

(** A group sum is a number, whatever the cells were. *)
Lemma agg_sum_number (cs : list cell) :
  (exists z, agg_sum cs = CInt z) \/ (exists f, agg_sum cs = CFloat f).
Proof. unfold agg_sum. destruct (forallb is_int_cell cs); eauto. Qed.

Lemma cell_sub_numbers (a b : cell) :
  ((exists z, a = CInt z) \/ (exists f, a = CFloat f)) ->
  ((exists z, b = CInt z) \/ (exists f, b = CFloat f)) ->
  exists c, cell_sub a b = Ok c.
Proof.
  intros [[x ->] | [x ->]] [[y ->] | [y ->]]; unfold cell_sub; cbn [num_of_cell]; eauto.
Qed.

Lemma summarize_total (rows : list dev_input) (k : string * string * string) :
  exists r, summarize k rows = Ok r /\ summarized rows k r.
Proof.
  unfold summarize.
  set (mine := filter (fun r => key_eqb (in_key r) k) rows).
  destruct (cell_sub_numbers _ _ (agg_sum_number (map in_actual_li mine))
                             (agg_sum_number (map in_planned_li mine))) as [d_li Hli].
  destruct (cell_sub_numbers _ _ (agg_sum_number (map in_actual_eff mine))
                             (agg_sum_number (map in_planned_eff mine))) as [d_eff Heff].
  rewrite Hli, Heff. cbn [bind]. eexists. split; [reflexivity|].
  unfold summarized. cbn [category subcategory line_item planned_efforts actual_efforts
                          effort_delta effort_delta_pct].
  fold mine. split; [destruct k as [[a b] c]; reflexivity|].
  split; [reflexivity|]. split; [reflexivity|].
  exists d_eff. split; [exact Heff|]. split; [reflexivity|].
  unfold pct_delta. split; [reflexivity|].
  intros H. rewrite H. vm_compute. reflexivity.
Qed.

Lemma dev_rows_total (rows : list dev_input) :
  exists rs, dev_rows rows = Ok rs /\ Forall2 (summarized rows) (group_keys rows) rs.
Proof.
  unfold dev_rows. apply mapM_total. intros k _. apply summarize_total.
Qed.

End DeviationFacts.



(** The group of the scenario, planned for 0 minutes and done in 5: the
    minute delta is 5 and the percentage is 0. *)
Lemma zero_planned_minutes_report_zero :
  deviation_summary (L := Ref.library) Examples.zero_plan_frame
  = Ok (mkDF 1
          [("Category", [CStr "Dev"]); ("Subcategory", [CStr ""]);
           ("Line Item", [CStr "Build"]);
           ("Planned LI", [CInt 2]); ("Actual LI", [CInt 1]); ("LI Δ", [CInt (-1)]);
           ("Planned Efforts (mins)", [CFloat 0]); ("Actual Efforts (mins)", [CFloat 5]);
           ("Effort Δ (mins)", [CFloat 5]); ("Effort Δ %", [CFloat 0])]).
Proof. vm_compute. reflexivity. Qed.

(** ** Empty views *)

Section EmptyViews.

Context {L : Library}.

Lemma has_column_ensure_column (F G : string) (v : cell) (df : DataFrame) :
  has_column F (ensure_column G v df) = has_column F df || String.eqb F G.
Proof.
  unfold ensure_column. destruct (has_column G df) eqn:HG.
  - destruct (String.eqb F G) eqn:E; [|now rewrite orb_false_r].
    apply String.eqb_eq in E. subst. rewrite HG. reflexivity.
  - unfold assign_scalar, assign. rewrite HG.
    unfold has_column, columns. cbn [df_cols].
    rewrite map_app, existsb_app. cbn [map fst existsb]. now rewrite orb_false_r.
Qed.

Lemma has_column_assign (F G : string) (s : Series) (df : DataFrame) :
  has_column F (assign G s df) = has_column F df || String.eqb F G.
Proof.
  unfold assign. destruct (has_column G df) eqn:HG.
  - assert (E : columns (mkDF (nrows df)
                  (map (fun lc => if String.eqb (fst lc) G then (fst lc, s) else lc)
                       (df_cols df))) = columns df).
    { unfold columns. cbn [df_cols]. rewrite map_map. apply map_ext.
      intros [l c]. cbn [fst]. destruct (String.eqb l G); reflexivity. }
    unfold has_column at 1. rewrite E. fold (has_column F df).
    destruct (String.eqb F G) eqn:EF; [|now rewrite orb_false_r].
    apply String.eqb_eq in EF. subst. rewrite HG. reflexivity.
  - unfold has_column, columns. cbn [df_cols].
    rewrite map_app, existsb_app. cbn [map fst existsb]. now rewrite orb_false_r.
Qed.

Lemma fill_missing_spec (names : list string) (df : DataFrame) :
  nrows (fill_missing names df) = nrows df
  /\ forall c, has_column c (fill_missing names df)
               = has_column c df || existsb (String.eqb c) names.
Proof.
  unfold fill_missing. revert df.
  induction names as [|n names IH]; intros df; cbn [fold_left existsb].
  - split; [reflexivity | intros c; now rewrite orb_false_r].
  - destruct (IH (ensure_column n (view_default n) df)) as [Hn Hc]. split.
    + rewrite Hn. apply nrows_ensure_column.
    + intros c. rewrite Hc, has_column_ensure_column, orb_assoc. reflexivity.
Qed.

Lemma existsb_eqb_In (c : string) (names : list string) :
  existsb (String.eqb c) names = true <-> In c names.
Proof.
  rewrite existsb_exists. split.
  - intros (x & Hx & E). apply String.eqb_eq in E. now subst.
  - intros H. exists c. split; [exact H | apply String.eqb_refl].
Qed.

(** [out[cols]] succeeds when every listed label is there, and then the
    result carries the listed labels and no other. *)
Lemma select_present (names : list string) (df : DataFrame) :
  (forall c, In c names -> has_column c df = true) ->
  exists out,
    select names df = Ok out
    /\ nrows out = nrows df
    /\ forall c, In c (columns out) <-> In c names.
Proof.
  intros Hall. unfold select.
  destruct (mapM_total
              (fun c => match filter (fun lc => String.eqb (fst lc) c) (df_cols df) with
                        | [] => Raise (KeyError c)
                        | l => Ok l
                        end)
              (fun c l => l <> [] /\ forall lc, In lc l -> fst lc = c) names)
    as (picked & Hp & Hall2).
  { intros c Hc. specialize (Hall c Hc).
    destruct (filter (fun lc => String.eqb (fst lc) c) (df_cols df)) as [|x l] eqn:E.
    - exfalso. fold (lookup_all c df) in *.
      assert (Hl : lookup_all c df = []) by (unfold lookup_all; rewrite E; reflexivity).
      apply has_column_lookup_all in Hl. congruence.
    - eexists. split; [reflexivity|]. split; [discriminate|].
      intros lc Hlc. rewrite <- E in Hlc. apply filter_In in Hlc as [_ Hlc].
      apply String.eqb_eq, Hlc. }
  rewrite Hp. cbn [bind]. eexists. split; [reflexivity|]. split; [reflexivity|].
  unfold columns. cbn [df_cols]. clear Hp Hall.
  induction Hall2 as [|c l names picked [Hne Hl] _ IH]; cbn [List.concat].
  - intros c. reflexivity.
  - intros c'. rewrite map_app, in_app_iff, IH. cbn [In]. split.
    + intros [H | H]; [|right; exact H].
      apply in_map_iff in H as (lc & <- & Hin). left. symmetry. apply Hl, Hin.
    + intros [<- | H]; [|right; exact H].
      left. destruct l as [|lc l]; [congruence|].
      apply in_map_iff. exists lc. split; [apply Hl|]; left; reflexivity.
Qed.

Lemma get_series_single (name : string) (s : Series) (df : DataFrame) :
  lookup_all name df = [s] -> get_series name df = Ok s.
Proof. intros H. unfold get_series, getitem. rewrite H. reflexivity. Qed.


End EmptyViews.



(** ** The request handler and the date column *)

Section HandlerFacts.

Context {L : Library}.

Lemma filter_by_map {A B : Type} (f : A -> B) (mask : list bool) (l : list A) :
  filter_by mask (map f l) = map f (filter_by mask l).
Proof.
  revert l. induction mask as [|b mask IH]; intros [|a l]; cbn [filter_by map];
    try reflexivity.
  destruct b; cbn [map]; now rewrite IH.
Qed.

Lemma filter_by_self {A : Type} (p : A -> bool) (l : list A) :
  filter_by (map p l) l = filter p l.
Proof.
  induction l as [|a l IH]; cbn [filter_by map filter]; [reflexivity|].
  destruct (p a); now rewrite IH.
Qed.


Lemma mapM_length {A B : Type} (f : A -> exc B) (l : list A) (bs : list B) :
  mapM f l = Ok bs -> List.length bs = List.length l.
Proof.
  revert bs. induction l as [|a l IH]; cbn [mapM]; intros bs H.
  - injection H as <-. reflexivity.
  - destruct (f a); cbn [bind] in H; [|discriminate].
    destruct (mapM f l); cbn [bind] in H; [|discriminate].
    injection H as <-. cbn [List.length]. now rewrite (IH _ eq_refl).
Qed.

Lemma lookup_all_filter_rows (F : string) (mask : list bool) (df : DataFrame) :
  lookup_all F (filter_rows mask df) = map (filter_by mask) (lookup_all F df).
Proof.
  unfold lookup_all, filter_rows. cbn [df_cols].
  induction (df_cols df) as [|[l s] cs IH]; cbn [map filter fst snd]; [reflexivity|].
  destruct (String.eqb l F); cbn [map snd]; now rewrite IH.
Qed.





End HandlerFacts.



(** The same upload, run to the end: the malformed row is gone, three rows
    fall in the current week and two in the next, and the mail is sent. *)
Lemma one_malformed_date_among_five :
  exists html,
    upload_timesheet (L := Ref.library) Examples.wednesday
      (mkRequest (Some "lead@example.org") None (Some Examples.mixed_upload)) []
    = (Sent "2024-03-04 to 2024-03-10" "2024-03-11 to 2024-03-17" 3 2,
       [mkMail "Weekly Summary: 2024-03-04 to 2024-03-10"
               "reports@example.org" "lead@example.org" html]).
Proof. eexists. vm_compute. reflexivity. Qed.

(** A sheet none of whose dates parses: the date error, and no mail. *)
Lemma all_dates_malformed :
  upload_timesheet (L := Ref.library) Examples.wednesday
    (mkRequest (Some "lead@example.org") None
       (Some (mkUpload "week.xlsx"
                (Ok (mkDF 2 [("Date", [CStr "not-a-date"; CStr "soon"])])))))
    []
  = (Failure 400 no_parsable_dates, []).
Proof. vm_compute. reflexivity. Qed.

(** * Further properties *)

(** ** Labels and substrings *)

Section Substrings.

Lemma lower_ascii_idempotent (c : ascii) :
  Str.lower_ascii (Str.lower_ascii c) = Str.lower_ascii c.
Proof. destruct c as [[] [] [] [] [] [] [] []]; reflexivity. Qed.

Lemma lower_idempotent (s : string) : Str.lower (Str.lower s) = Str.lower s.
Proof.
  induction s as [|c s IH]; cbn [Str.lower]; [reflexivity|].
  now rewrite lower_ascii_idempotent, IH.
Qed.

Lemma startswith_iff (p s : string) :
  Str.startswith p s = true <-> exists post, s = (p ++ post)%string.
Proof.
  revert s. induction p as [|a p IH]; intros s; cbn [Str.startswith].
  - split; [intros _; exists s; reflexivity | reflexivity].
  - destruct s as [|b s].
    + split; [discriminate | intros [post H]; discriminate H].
    + rewrite andb_true_iff, IH. split.
      * intros [E [post ->]]. apply Ascii.eqb_eq in E. subst. exists post. reflexivity.
      * intros [post H]. cbn [String.append] in H. injection H as <- ->.
        split; [apply Ascii.eqb_refl | eauto].
Qed.

(** [n in s] holds exactly when [s] is some text, then [n], then some
    text. *)
Lemma contains_iff (n s : string) :
  Str.contains n s = true <-> exists pre post, s = (pre ++ n ++ post)%string.
Proof.
  induction s as [|b s IH]; cbn [Str.contains].
  - rewrite orb_false_r, startswith_iff. split.
    + intros [post H]. exists "", post. exact H.
    + intros (pre & post & H). destruct pre; [eauto|discriminate H].
  - rewrite orb_true_iff, startswith_iff, IH. split.
    + intros [[post H] | (pre & post & ->)].
      * exists "", post. exact H.
      * exists (String b pre), post. reflexivity.
    + intros (pre & post & H). destruct pre as [|a pre].
      * left. exists post. exact H.
      * right. cbn [String.append] in H. injection H as _ ->. eauto.
Qed.

Lemma find_col_In (cols needles : list string) (c : string) :
  find_col cols needles = Some c -> In c cols.
Proof.
  intros H. apply find_col_some_iff in H as (pre & post & -> & _).
  apply in_or_app. right. left. reflexivity.
Qed.

End Substrings.

(** X1.  Column detection ignores the case of the labels: lowercasing
    every label beforehand selects the same column, lowercased. *)
Theorem find_col_case_insensitive (cols needles : list string) :
  find_col (map Str.lower cols) needles = option_map Str.lower (find_col cols needles).
Proof.
  induction cols as [|c cs IH]; cbn [map find_col option_map]; [reflexivity|].
  rewrite lower_idempotent.
  destruct (match_needles (Str.lower c) needles); [reflexivity | exact IH].
Qed.

(** X2.  [find_col] finds a column exactly when some label, lowercased,
    reads as some text, a needle, some text; and the column it returns is
    one of the given labels. *)
Theorem find_col_finds_substrings (cols needles : list string) :
  (find_col cols needles <> None <->
   exists c n pre post,
     In c cols /\ In n needles /\ Str.lower c = (pre ++ n ++ post)%string)
  /\ forall c, find_col cols needles = Some c -> In c cols.
Proof.
  split; [|intros c; apply find_col_In].
  split.
  - intros H. destruct (find_col cols needles) as [c|] eqn:E; [|congruence].
    pose proof (find_col_In _ _ _ E) as Hin.
    apply find_col_some_iff in E as (_ & _ & _ & Hm & _).
    apply match_needles_true_iff in Hm as (n & Hn & Hc).
    apply contains_iff in Hc as (pre & post & Hc). eauto 10.
  - intros (c & n & pre & post & Hc & Hn & E) Hnone.
    pose proof (proj1 (find_col_none_iff _ _) Hnone c Hc) as Hm.
    rewrite match_needles_false_iff in Hm. specialize (Hm n Hn).
    assert (Str.contains n (Str.lower c) = true) by (apply contains_iff; eauto).
    congruence.
Qed.

(** ** What a normalised frame looks like *)

Section NormalizedFrames.

Context {L : Library}.

Lemma has_column_update_all (F G : string) (f : Series -> Series) (df : DataFrame) :
  has_column F (update_all G f df) = has_column F df.
Proof.
  unfold has_column, columns, update_all. cbn [df_cols]. f_equal.
  rewrite map_map. apply map_ext. intros [l s]. cbn [fst].
  destruct (String.eqb l G); reflexivity.
Qed.

Lemma lookup_all_In (F : string) (s : Series) (df : DataFrame) :
  In s (lookup_all F df) <-> In (F, s) (df_cols df).
Proof.
  unfold lookup_all. rewrite in_map_iff. split.
  - intros ([l x] & <- & H). apply filter_In in H as [H E].
    cbn [fst] in E. apply String.eqb_eq in E. subst. exact H.
  - intros H. exists (F, s). split; [reflexivity|].
    apply filter_In. split; [exact H | apply String.eqb_refl].
Qed.

(** *** Well-formedness through the steps *)

Lemma well_formed_rename_found (col : option string) (N : string) (df : DataFrame) :
  well_formed df -> well_formed (rename_found col N df).
Proof.
  unfold rename_found. destruct col as [old|]; [|auto].
  destruct (String.eqb old ""); [auto|].
  unfold well_formed, rename. cbn [df_cols nrows]. intros H.
  apply Forall_map. cbn [snd]. exact H.
Qed.

Lemma well_formed_assign (G : string) (s : Series) (df : DataFrame) :
  List.length s = nrows df -> well_formed df -> well_formed (assign G s df).
Proof.
  intros Hs H. unfold well_formed, assign in *.
  destruct (has_column G df); cbn [df_cols nrows].
  - apply Forall_map. eapply Forall_impl; [|exact H].
    intros [l c] Hc. cbn [fst snd] in *. destruct (String.eqb l G); cbn [snd]; auto.
  - apply Forall_app. split; [exact H|]. constructor; [exact Hs | constructor].
Qed.

Lemma well_formed_ensure_column (G : string) (v : cell) (df : DataFrame) :
  well_formed df -> well_formed (ensure_column G v df).
Proof.
  intros H. unfold ensure_column, assign_scalar.
  destruct (has_column G df); [exact H|].
  apply well_formed_assign; [apply repeat_length | exact H].
Qed.

Lemma well_formed_update_all (G : string) (f : Series -> Series) (df : DataFrame) :
  (forall s, List.length (f s) = List.length s) ->
  well_formed df -> well_formed (update_all G f df).
Proof.
  intros Hf H. unfold well_formed, update_all in *. cbn [df_cols nrows].
  apply Forall_map. eapply Forall_impl; [|exact H].
  intros [l c] Hc. cbn [fst snd] in *. destruct (String.eqb l G); cbn [snd]; [|auto].
  now rewrite Hf.
Qed.

Lemma well_formed_lookup (F : string) (s : Series) (df : DataFrame) :
  well_formed df -> In s (lookup_all F df) -> List.length s = nrows df.
Proof.
  intros H Hin. apply lookup_all_In in Hin.
  unfold well_formed in H. rewrite Forall_forall in H. exact (H _ Hin).
Qed.

Lemma to_numeric_length (s : Series) : List.length (to_numeric s) = List.length s.
Proof.
  unfold to_numeric. destruct (forallb _ _); now rewrite !length_map.
Qed.

Lemma fillna_length (v : cell) (s : Series) : List.length (fillna v s) = List.length s.
Proof. unfold fillna. apply length_map. Qed.

Lemma astype_str_length (s : Series) : List.length (astype_str s) = List.length s.
Proof. unfold astype_str. apply length_map. Qed.

(** *** The cells the coercions leave *)

Lemma to_numeric_cells (s : Series) :
  Forall (fun c => exists n, c = cell_of_num n) (to_numeric s).
Proof.
  unfold to_numeric. destruct (forallb _ _); apply Forall_forall; intros c Hc;
    apply in_map_iff in Hc as (n & <- & _).
  - eauto.
  - exists (NFloat (num_to_float n)). reflexivity.
Qed.

Lemma fillna_zero_numbers (s : Series) :
  Forall (fun c => is_number_cell c = true) (fillna_zero (to_numeric s)).
Proof.
  unfold fillna_zero, fillna. apply Forall_map.
  eapply Forall_impl; [|apply to_numeric_cells].
  intros c [[z|f] ->]; cbn [cell_of_num isna is_number_cell]; [reflexivity|].
  destruct (is_nan f) eqn:E; cbn [is_number_cell]; [reflexivity | now rewrite E].
Qed.

Lemma astype_int_cells (s s' : Series) :
  Forall (fun c => is_number_cell c = true) s ->
  astype_int s = Ok s' ->
  Forall (fun c => is_int_cell c = true) s' /\ List.length s' = List.length s.
Proof.
  unfold astype_int. revert s'. induction s as [|c s IH]; intros s' Hs H; cbn [mapM] in H.
  - injection H as <-. split; [constructor | reflexivity].
  - inversion Hs as [|? ? Hc Hs']; subst.
    destruct (astype_int_cell c) as [c'|] eqn:Ec; cbn [bind] in H; [|discriminate].
    destruct (mapM astype_int_cell s) as [t|] eqn:Et; cbn [bind] in H; [|discriminate].
    injection H as <-. destruct (IH t Hs' eq_refl) as [IH1 IH2].
    split; [|cbn [List.length]; now rewrite IH2].
    constructor; [|exact IH1].
    destruct c; try discriminate Hc; cbn [astype_int_cell] in Ec.
    + injection Ec as <-. reflexivity.
    + destruct (is_finite f); [|discriminate]. injection Ec as <-. reflexivity.
Qed.

Lemma astype_str_cells (s : Series) :
  Forall (fun c => is_str_cell c = true) (fillna (CStr "") (astype_str s)).
Proof.
  rewrite fillna_astype_str. unfold astype_str. apply Forall_map, Forall_forall.
  intros c _. unfold astype_str_cell. destruct (isna c); [reflexivity|].
  destruct c; reflexivity.
Qed.

(** *** One step, seen from every label *)

Lemma coerce_int_column_post (G : string) (df df' : DataFrame) :
  coerce_int_column G df = Ok df' ->
  untouched G df df'
  /\ exists s', lookup_all G df' = [s'] /\ Forall (fun c => is_int_cell c = true) s'.
Proof.
  intros H. apply coerce_int_column_inv in H as (s & s' & Hl & Hs & ->).
  destruct (astype_int_cells _ _ (fillna_zero_numbers s) Hs) as [Hint Hlen].
  assert (Hhas : has_column G df = true).
  { destruct (has_column G df) eqn:E; [reflexivity|].
    apply has_column_lookup_all in E. congruence. }
  split; [split; [|split; [|split]]|].
  - apply nrows_assign.
  - intros F. rewrite has_column_assign.
    destruct (String.eqb F G) eqn:E; [|apply orb_false_r].
    apply String.eqb_eq in E. subst. now rewrite Hhas.
  - intros F E. apply lookup_all_assign_other, E.
  - intros Hwf. apply well_formed_assign; [|exact Hwf].
    rewrite Hlen. unfold fillna_zero. rewrite fillna_length, to_numeric_length.
    apply (well_formed_lookup G); [exact Hwf|]. rewrite Hl. left. reflexivity.
  - exists s'. split; [|exact Hint]. rewrite lookup_all_assign_same, Hl. reflexivity.
Qed.

Lemma coerce_float_column_post (G : string) (df df' : DataFrame) :
  coerce_float_column G df = Ok df' ->
  untouched G df df'
  /\ exists s', lookup_all G df' = [s'] /\ Forall (fun c => is_number_cell c = true) s'.
Proof.
  intros H. apply coerce_float_column_inv in H as (s & Hl & ->).
  assert (Hhas : has_column G df = true).
  { destruct (has_column G df) eqn:E; [reflexivity|].
    apply has_column_lookup_all in E. congruence. }
  split; [split; [|split; [|split]]|].
  - apply nrows_assign.
  - intros F. rewrite has_column_assign.
    destruct (String.eqb F G) eqn:E; [|apply orb_false_r].
    apply String.eqb_eq in E. subst. now rewrite Hhas.
  - intros F E. apply lookup_all_assign_other, E.
  - intros Hwf. apply well_formed_assign; [|exact Hwf].
    unfold fillna_zero. rewrite fillna_length, to_numeric_length.
    apply (well_formed_lookup G); [exact Hwf|]. rewrite Hl. left. reflexivity.
  - eexists. split; [|apply fillna_zero_numbers].
    rewrite lookup_all_assign_same, Hl. reflexivity.
Qed.

Lemma coerce_str_column_post (G : string) (df df' : DataFrame) :
  coerce_str_column G df = Ok df' ->
  untouched G df df'
  /\ lookup_all G df' <> []
  /\ Forall (Forall (fun c => is_str_cell c = true)) (lookup_all G df').
Proof.
  intros H. apply coerce_str_column_inv in H as (Hne & ->).
  split; [split; [|split; [|split]]|split].
  - reflexivity.
  - intros F. apply has_column_update_all.
  - intros F E. rewrite lookup_all_update_all, E. reflexivity.
  - apply well_formed_update_all. intros s. now rewrite fillna_length, astype_str_length.
  - rewrite lookup_all_update_all, String.eqb_refl.
    destruct (lookup_all G df); [congruence | discriminate].
  - rewrite lookup_all_update_all, String.eqb_refl.
    apply Forall_map, Forall_forall. intros s _. apply astype_str_cells.
Qed.

End NormalizedFrames.

Section NormalizedFrameTheorems.

Context {L : Library}.

Lemma columns_rename_found_keep (F N : string) (col : option string) (df : DataFrame) :
  In F (columns df) -> col <> Some F -> In F (columns (rename_found col N df)).
Proof.
  intros Hin Hne. unfold rename_found. destruct col as [old|]; [|exact Hin].
  destruct (String.eqb old ""); [exact Hin|].
  unfold columns, rename in *. cbn [df_cols]. rewrite map_map. cbn [fst].
  apply in_map_iff in Hin as ([l s] & <- & Hin). apply in_map_iff.
  exists (l, s). split; [|exact Hin]. cbn [fst].
  destruct (String.eqb l old) eqn:E; [|reflexivity].
  apply String.eqb_eq in E. cbn [fst] in Hne. subst. exfalso. apply Hne. reflexivity.
Qed.

Lemma columns_rename_found_new (old N : string) (df : DataFrame) :
  In old (columns df) -> old <> "" -> In N (columns (rename_found (Some old) N df)).
Proof.
  intros Hin Hne. unfold rename_found. apply String.eqb_neq in Hne. rewrite Hne.
  unfold columns, rename in *. cbn [df_cols]. rewrite map_map. cbn [fst].
  apply in_map_iff in Hin as ([l s] & <- & Hin). apply in_map_iff.
  exists (l, s). split; [|exact Hin]. cbn [fst]. now rewrite String.eqb_refl.
Qed.

(** No field other than Date claims a column labelled "Date". *)
Lemma find_col_not_Date (cols needles : list string) :
  match_needles "date" needles = false -> find_col cols needles <> Some "Date".
Proof.
  intros Hm H. apply find_col_some_iff in H as (_ & _ & _ & H & _).
  change (Str.lower "Date") with "date" in H. congruence.
Qed.

Lemma rename_columns_has_date (df : DataFrame) :
  found (find_col (columns df) date_needles) = true ->
  has_column "Date" (rename_columns df) = true.
Proof.
  intros Hf. apply has_column_In. unfold rename_columns. cbv zeta.
  destruct (find_col (columns df) date_needles) as [c|] eqn:E; [|discriminate].
  assert (Hc : c <> "").
  { intros ->. discriminate Hf. }
  pose proof (columns_rename_found_new c "Date" df (find_col_In _ _ _ E) Hc) as H0.
  repeat (apply columns_rename_found_keep;
          [|apply find_col_not_Date; reflexivity]).
  exact H0.
Qed.

Lemma ensure_columns_has (df : DataFrame) (name : string) (needles : list string) (d : cell) :
  In (name, needles, d) optional_fields ->
  has_column name (ensure_columns df) = true.
Proof.
  intros Hin. unfold ensure_columns. cbv zeta. cbn [optional_fields In] in Hin.
  repeat (destruct Hin as [Hin | Hin];
          [injection Hin as <- <- <-;
           repeat (rewrite has_column_ensure_column; cbn [String.eqb Ascii.eqb Bool.eqb]);
           rewrite ?orb_true_r; reflexivity|]).
  destruct Hin.
Qed.

Lemma ensure_columns_other (df : DataFrame) :
  has_column "Date" (ensure_columns df) = has_column "Date" df
  /\ lookup_all "Date" (ensure_columns df) = lookup_all "Date" df
  /\ (well_formed df -> well_formed (ensure_columns df)).
Proof.
  unfold ensure_columns. cbv zeta. split; [|split].
  - repeat (rewrite has_column_ensure_column; cbn [String.eqb Ascii.eqb Bool.eqb]).
    now rewrite !orb_false_r.
  - repeat (rewrite lookup_all_ensure_column; cbn [String.eqb Ascii.eqb Bool.eqb]).
    reflexivity.
  - intros H. repeat apply well_formed_ensure_column. exact H.
Qed.

Lemma well_formed_rename_columns (df : DataFrame) :
  well_formed df -> well_formed (rename_columns df).
Proof.
  intros H. unfold rename_columns. cbv zeta.
  repeat apply well_formed_rename_found. exact H.
Qed.

(** A label that ends up on two columns is kept on two columns by the
    step that ensures the label exists. *)
Lemma lookup_all_ensure_columns_present (df : DataFrame) (name : string)
      (needles : list string) (d : cell) :
  In (name, needles, d) optional_fields ->
  lookup_all name df <> [] ->
  lookup_all name (ensure_columns df) = lookup_all name df.
Proof.
  intros Hin Hne. unfold ensure_columns. cbv zeta. cbn [optional_fields In] in Hin.
  repeat (destruct Hin as [Hin | Hin];
          [injection Hin as <- <- <-;
           repeat (rewrite lookup_all_ensure_column; cbn [String.eqb Ascii.eqb Bool.eqb]);
           destruct (lookup_all _ df); [congruence | reflexivity]|]).
  destruct Hin.
Qed.

(** The nine steps of [coerce_columns], each seen from every label. *)
Lemma coerce_columns_steps (df df' : DataFrame) :
  coerce_columns df = Ok df' ->
  exists d1 d2 d3 d4 d5 d6 d7 d8,
    coerce_int_column "Planned LI" df = Ok d1
    /\ coerce_int_column "Actual LI" d1 = Ok d2
    /\ coerce_float_column "Planned Efforts (mins)" d2 = Ok d3
    /\ coerce_float_column "Actual Efforts (mins)" d3 = Ok d4
    /\ coerce_str_column "Category" d4 = Ok d5
    /\ coerce_str_column "Subcategory" d5 = Ok d6
    /\ coerce_str_column "Line Item" d6 = Ok d7
    /\ coerce_str_column "Planned Details" d7 = Ok d8
    /\ coerce_str_column "Actual Details" d8 = Ok df'.
Proof.
  intros H. unfold coerce_columns in H. do 8 bind_inv H.
  exists d, d0, d1, d2, d3, d4, d5, d6. repeat split; assumption.
Qed.

End NormalizedFrameTheorems.

Ltac coerce_steps H :=
  apply coerce_columns_steps in H
    as (d1 & d2 & d3 & d4 & d5 & d6 & d7 & d8
        & S1 & S2 & S3 & S4 & S5 & S6 & S7 & S8 & S9);
  apply coerce_int_column_post in S1 as [U1 P1];
  apply coerce_int_column_post in S2 as [U2 P2];
  apply coerce_float_column_post in S3 as [U3 P3];
  apply coerce_float_column_post in S4 as [U4 P4];
  apply coerce_str_column_post in S5 as [U5 P5];
  apply coerce_str_column_post in S6 as [U6 P6];
  apply coerce_str_column_post in S7 as [U7 P7];
  apply coerce_str_column_post in S8 as [U8 P8];
  apply coerce_str_column_post in S9 as [U9 P9].

(** [keep_label F U]: the columns under [F] are the same before and after
    the step [U], which works on another label. *)
Ltac keep_label F U := rewrite (proj1 (proj2 (proj2 U)) F eq_refl).

(** X3.  A successful normalisation keeps the number of rows, keeps every
    column one cell per row if the sheet was so, returns a frame that has
    a column for each of the ten canonical labels, and leaves the cells of
    the date column as they were. *)
Theorem normalize_schema_keeps_shape `{L : Library} (df df' : DataFrame) :
  normalize_schema df = Ok df' ->
  nrows df' = nrows df
  /\ (well_formed df -> well_formed df')
  /\ (forall name, In name canonical_labels -> has_column name df' = true)
  /\ lookup_all "Date" df' = lookup_all "Date" (rename_columns df).
Proof.
  unfold normalize_schema. intros H.
  destruct (found (find_col (columns df) date_needles)) eqn:Hf; [|discriminate].
  cbn [negb] in H.
  pose proof (rename_columns_has_date df Hf) as Hdate.
  destruct (ensure_columns_other (rename_columns df)) as (Hd1 & Hd2 & Hd3).
  assert (Hopt : forall name needles d,
             In (name, needles, d) optional_fields ->
             has_column name (ensure_columns (rename_columns df)) = true)
    by (intros; eapply ensure_columns_has; eauto).
  coerce_steps H.
  assert (Hhas : forall F, has_column F df'
                           = has_column F (ensure_columns (rename_columns df))).
  { intros F.
    rewrite (proj1 (proj2 U9)), (proj1 (proj2 U8)), (proj1 (proj2 U7)),
      (proj1 (proj2 U6)), (proj1 (proj2 U5)), (proj1 (proj2 U4)),
      (proj1 (proj2 U3)), (proj1 (proj2 U2)), (proj1 (proj2 U1)). reflexivity. }
  split; [|split; [|split]].
  - rewrite (proj1 U9), (proj1 U8), (proj1 U7), (proj1 U6), (proj1 U5), (proj1 U4),
      (proj1 U3), (proj1 U2), (proj1 U1), nrows_ensure_columns, nrows_rename_columns.
    reflexivity.
  - intros Hwf.
    apply (proj2 (proj2 (proj2 U9))), (proj2 (proj2 (proj2 U8))),
      (proj2 (proj2 (proj2 U7))), (proj2 (proj2 (proj2 U6))),
      (proj2 (proj2 (proj2 U5))), (proj2 (proj2 (proj2 U4))),
      (proj2 (proj2 (proj2 U3))), (proj2 (proj2 (proj2 U2))),
      (proj2 (proj2 (proj2 U1))), Hd3, well_formed_rename_columns, Hwf.
  - intros name Hin. rewrite Hhas. destruct Hin as [<- | Hin].
    + now rewrite Hd1.
    + apply in_map_iff in Hin as ([[n k] d] & <- & Hin). eapply Hopt, Hin.
  - keep_label "Date" U9. keep_label "Date" U8. keep_label "Date" U7.
    keep_label "Date" U6. keep_label "Date" U5. keep_label "Date" U4.
    keep_label "Date" U3. keep_label "Date" U2. keep_label "Date" U1.
    exact Hd2.
Qed.

(** X3 at a sheet with a missing category cell. *)
Lemma normalize_schema_keeps_shape_witness :
  nrows Examples.gap_sheet_normalized = nrows Examples.gap_sheet.
Proof.
  exact (proj1 (normalize_schema_keeps_shape (L := Ref.library)
                  Examples.gap_sheet Examples.gap_sheet_normalized eq_refl)).
Defined.

(** X4.  In a normalised frame the two line-item counts are one column of
    integers each, the two effort columns are one column each of numbers
    with no missing value, and every cell of the five text fields is a
    string. *)
Theorem normalize_schema_cell_types `{L : Library} (df df' : DataFrame) :
  normalize_schema df = Ok df' ->
  (forall name, In name ["Planned LI"; "Actual LI"] ->
     exists s, lookup_all name df' = [s] /\ Forall (fun c => is_int_cell c = true) s)
  /\ (forall name, In name ["Planned Efforts (mins)"; "Actual Efforts (mins)"] ->
        exists s, lookup_all name df' = [s]
                  /\ Forall (fun c => is_number_cell c = true) s)
  /\ (forall name,
         In name ["Category"; "Subcategory"; "Line Item";
                  "Planned Details"; "Actual Details"] ->
         lookup_all name df' <> []
         /\ Forall (Forall (fun c => is_str_cell c = true)) (lookup_all name df')).
Proof.
  unfold normalize_schema. intros H.
  destruct (negb (found (find_col (columns df) date_needles))); [discriminate|].
  coerce_steps H.
  split; [|split].
  - intros name [<- | [<- | []]].
    + keep_label "Planned LI" U9. keep_label "Planned LI" U8. keep_label "Planned LI" U7.
      keep_label "Planned LI" U6. keep_label "Planned LI" U5. keep_label "Planned LI" U4.
      keep_label "Planned LI" U3. keep_label "Planned LI" U2. exact P1.
    + keep_label "Actual LI" U9. keep_label "Actual LI" U8. keep_label "Actual LI" U7.
      keep_label "Actual LI" U6. keep_label "Actual LI" U5. keep_label "Actual LI" U4.
      keep_label "Actual LI" U3. exact P2.
  - intros name [<- | [<- | []]].
    + keep_label "Planned Efforts (mins)" U9. keep_label "Planned Efforts (mins)" U8.
      keep_label "Planned Efforts (mins)" U7. keep_label "Planned Efforts (mins)" U6.
      keep_label "Planned Efforts (mins)" U5. keep_label "Planned Efforts (mins)" U4.
      exact P3.
    + keep_label "Actual Efforts (mins)" U9. keep_label "Actual Efforts (mins)" U8.
      keep_label "Actual Efforts (mins)" U7. keep_label "Actual Efforts (mins)" U6.
      keep_label "Actual Efforts (mins)" U5. exact P4.
  - intros name [<- | [<- | [<- | [<- | [<- | []]]]]].
    + keep_label "Category" U9. keep_label "Category" U8. keep_label "Category" U7.
      keep_label "Category" U6. exact P5.
    + keep_label "Subcategory" U9. keep_label "Subcategory" U8.
      keep_label "Subcategory" U7. exact P6.
    + keep_label "Line Item" U9. keep_label "Line Item" U8. exact P7.
    + keep_label "Planned Details" U9. exact P8.
    + exact P9.
Qed.

(** X4 at the same sheet: its category cells are strings. *)
Lemma normalize_schema_cell_types_witness :
  lookup_all "Category" Examples.gap_sheet_normalized <> []
  /\ Forall (Forall (fun c => is_str_cell c = true))
            (lookup_all "Category" Examples.gap_sheet_normalized).
Proof.
  exact (proj2 (proj2 (normalize_schema_cell_types (L := Ref.library)
                         Examples.gap_sheet Examples.gap_sheet_normalized eq_refl))
               "Category" (or_introl eq_refl)).
Defined.

(** X5.  When the renaming leaves one of the four numeric labels on two or
    more columns, the normalisation never succeeds; for "Planned LI", the
    first label coerced, the failure is the TypeError of [pd.to_numeric]
    on a frame. *)
Theorem normalize_schema_rejects_repeated_numeric_label `{L : Library}
        (df : DataFrame) (name : string) (s1 s2 : Series) (rest : list Series) :
  In name ["Planned LI"; "Actual LI"; "Planned Efforts (mins)"; "Actual Efforts (mins)"] ->
  lookup_all name (rename_columns df) = s1 :: s2 :: rest ->
  (forall df', normalize_schema df <> Ok df')
  /\ (name = "Planned LI" ->
      found (find_col (columns df) date_needles) = true ->
      normalize_schema df
      = Raise (TypeError "arg must be a list, tuple, 1-d array, or Series")).
Proof.
  intros Hin Hdup.
  assert (Hens : lookup_all name (ensure_columns (rename_columns df)) = s1 :: s2 :: rest).
  { rewrite <- Hdup.
    cbn [In] in Hin.
    destruct Hin as [<- | [<- | [<- | [<- | []]]]];
      [ apply (lookup_all_ensure_columns_present _ _ planned_li_needles (CInt 0))
      | apply (lookup_all_ensure_columns_present _ _ actual_li_needles (CInt 0))
      | apply (lookup_all_ensure_columns_present _ _ planned_eff_needles (CFloat 0))
      | apply (lookup_all_ensure_columns_present _ _ actual_eff_needles (CFloat 0)) ];
      first [ solve [cbn [optional_fields In]; auto 10] | rewrite Hdup; discriminate ]. }
  split.
  - intros df' H. unfold normalize_schema in H.
    destruct (negb (found (find_col (columns df) date_needles))); [discriminate|].
    apply coerce_columns_steps in H
      as (d1 & d2 & d3 & d4 & d5 & d6 & d7 & d8
          & S1 & S2 & S3 & S4 & S5 & S6 & S7 & S8 & S9).
    pose proof (coerce_int_column_post _ _ _ S1) as [U1 _].
    pose proof (coerce_int_column_post _ _ _ S2) as [U2 _].
    pose proof (coerce_float_column_post _ _ _ S3) as [U3 _].
    apply coerce_int_column_inv in S1 as (? & ? & L1 & _).
    apply coerce_int_column_inv in S2 as (? & ? & L2 & _).
    apply coerce_float_column_inv in S3 as (? & L3 & _).
    apply coerce_float_column_inv in S4 as (? & L4 & _).
    cbn [In] in Hin.
    destruct Hin as [<- | [<- | [<- | [<- | []]]]].
    + congruence.
    + rewrite (proj1 (proj2 (proj2 U1)) "Actual LI" eq_refl) in L2. congruence.
    + rewrite (proj1 (proj2 (proj2 U2)) "Planned Efforts (mins)" eq_refl),
        (proj1 (proj2 (proj2 U1)) "Planned Efforts (mins)" eq_refl) in L3. congruence.
    + rewrite (proj1 (proj2 (proj2 U3)) "Actual Efforts (mins)" eq_refl),
        (proj1 (proj2 (proj2 U2)) "Actual Efforts (mins)" eq_refl),
        (proj1 (proj2 (proj2 U1)) "Actual Efforts (mins)" eq_refl) in L4. congruence.
  - intros -> Hf. unfold normalize_schema. rewrite Hf. cbn [negb].
    unfold coerce_columns, coerce_int_column at 1, getitem. rewrite Hens. reflexivity.
Qed.

(** X5 at a sheet with the columns "Planned" and "Planned LI". *)
Lemma normalize_schema_rejects_repeated_numeric_label_witness :
  normalize_schema (L := Ref.library) Sheets.twice_planned
  = Raise (TypeError "arg must be a list, tuple, 1-d array, or Series").
Proof.
  exact (proj2 (normalize_schema_rejects_repeated_numeric_label
                  (L := Ref.library) Sheets.twice_planned "Planned LI"
                  [CInt 1] [CInt 2] [] (or_introl eq_refl) eq_refl)
               eq_refl eq_refl).
Defined.

(** ** Parsed dates *)

Section ParsedDates.

Context {L : Library}.

Local Open Scope Z_scope.







End ParsedDates.





(** ** Weeks *)

Section Weeks.

Local Open Scope Z_scope.

Lemma add_days_inv (d n r : Z) :
  Cal.add_days d n = Ok r ->
  r = d + n /\ Cal.min_ordinal <= r <= Cal.max_ordinal.
Proof.
  unfold Cal.add_days.
  destruct (Z.leb_spec Cal.min_ordinal (d + n)), (Z.leb_spec (d + n) Cal.max_ordinal);
    cbn [andb]; try discriminate.
  intros [= <-]. lia.
Qed.

(** What a returned pair of windows is made of. *)
Lemma get_week_ranges_inv (today : Z) (r : (Z * Z) * (Z * Z)) :
  get_week_ranges today = Ok r ->
  let m := today - Cal.weekday today in
  r = ((m, m + 6), (m + 7, m + 13))
  /\ Cal.min_ordinal <= m /\ m + 13 <= Cal.max_ordinal.
Proof.
  intros H m. unfold get_week_ranges in H.
  destruct (Cal.add_days today (- Cal.weekday today)) as [a|] eqn:Ea;
    cbn [bind] in H; [|discriminate H].
  destruct (Cal.add_days a 6) as [b|] eqn:Eb; cbn [bind] in H; [|discriminate H].
  destruct (Cal.add_days b 1) as [c|] eqn:Ec; cbn [bind] in H; [|discriminate H].
  destruct (Cal.add_days c 6) as [e|] eqn:Ee; cbn [bind] in H; [|discriminate H].
  apply add_days_inv in Ea as [-> Ha], Eb as [-> Hb], Ec as [-> Hc], Ee as [-> He].
  injection H as <-. subst m. split; [|lia].
  apply f_equal2; apply f_equal2; lia.
Qed.

Lemma get_week_ranges_of_monday (today m : Z) :
  today - Cal.weekday today = m ->
  Cal.min_ordinal <= m -> m + 13 <= Cal.max_ordinal ->
  get_week_ranges today = Ok ((m, m + 6), (m + 7, m + 13)).
Proof.
  intros Hm Hmin Hmax. subst m. unfold get_week_ranges.
  set (w := Cal.weekday today) in *.
  rewrite (add_days_ok today (- w)) by lia. cbn [bind].
  rewrite (add_days_ok (today + - w) 6) by lia. cbn [bind].
  rewrite (add_days_ok (today + - w + 6) 1) by lia. cbn [bind].
  rewrite (add_days_ok (today + - w + 6 + 1) 6) by lia. cbn [bind].
  apply f_equal. apply f_equal2; apply f_equal2; lia.
Qed.

Lemma same_monday (m d : Z) :
  Cal.weekday m = 0 -> m <= d <= m + 6 -> d - Cal.weekday d = m.
Proof. unfold Cal.weekday. intros H Hd. Z.div_mod_to_equations. lia. Qed.

End Weeks.

(** X8.  The windows do not depend on the day of the week: every day of
    the current window gives the same two windows, and every day of the
    next window has that window as its current one (with the window after
    it as its next, unless the dates run out). *)
Theorem get_week_ranges_same_all_week (today d : Z) (cur nxt : Z * Z) :
  get_week_ranges today = Ok (cur, nxt) ->
  (in_window cur d = true -> get_week_ranges d = Ok (cur, nxt))
  /\ (in_window nxt d = true ->
      forall r, get_week_ranges d = Ok r -> fst r = nxt).
Proof.
  intros H. apply get_week_ranges_inv in H as (E & Hmin & Hmax).
  injection E as -> ->.
  pose proof (monday_of today) as Hmon.
  set (m := (today - Cal.weekday today)%Z) in *.
  split.
  - unfold in_window. cbn [fst snd]. intros Hd.
    apply andb_true_iff in Hd as [H1 H2]. apply Z.leb_le in H1, H2.
    apply get_week_ranges_of_monday; [|exact Hmin | exact Hmax].
    apply same_monday; [exact Hmon | lia].
  - unfold in_window. cbn [fst snd]. intros Hd r Hr.
    apply andb_true_iff in Hd as [H1 H2]. apply Z.leb_le in H1, H2.
    apply get_week_ranges_inv in Hr as (-> & _ & _). cbn [fst].
    assert (Hm7 : Cal.weekday (m + 7) = 0%Z).
    { unfold Cal.weekday in *. Z.div_mod_to_equations. lia. }
    rewrite (same_monday (m + 7) d Hm7) by lia.
    apply f_equal2; lia.
Qed.

(** X8 at Wednesday 2024-03-06 and the Sunday of the same week. *)
Lemma get_week_ranges_same_all_week_witness :
  get_week_ranges (Cal.ymd2ord 2024 3 10)
  = Ok ((Cal.ymd2ord 2024 3 4, Cal.ymd2ord 2024 3 10),
        (Cal.ymd2ord 2024 3 11, Cal.ymd2ord 2024 3 17)).
Proof.
  exact (proj1 (get_week_ranges_same_all_week
                  (Cal.ymd2ord 2024 3 6) (Cal.ymd2ord 2024 3 10)
                  (Cal.ymd2ord 2024 3 4, Cal.ymd2ord 2024 3 10)
                  (Cal.ymd2ord 2024 3 11, Cal.ymd2ord 2024 3 17)
                  ltac:(vm_compute; reflexivity))
               ltac:(vm_compute; reflexivity)).
Defined.

(** ** Dated frames and windows *)

Section DatedFrames.

Lemma length_filter_by_same {A B : Type} (mask : list bool) (l : list A) (l' : list B) :
  List.length l = List.length l' ->
  List.length (filter_by mask l) = List.length (filter_by mask l').
Proof.
  revert l l'. induction mask as [|b mask IH]; intros [|a l] [|a' l'] H;
    cbn [filter_by]; try reflexivity; try discriminate H.
  injection H as H. destruct b; cbn [List.length]; now rewrite (IH l l' H).
Qed.

Lemma well_formed_filter_rows (mask : list bool) (df : DataFrame) :
  well_formed df -> well_formed (filter_rows mask df).
Proof.
  unfold well_formed, filter_rows. cbn [df_cols nrows]. intros H.
  apply Forall_map. eapply Forall_impl; [|exact H].
  intros [l s] Hs. cbn [snd] in *. apply length_filter_by_same.
  now rewrite length_seq.
Qed.

Lemma nrows_filter_rows {A : Type} (p : A -> bool) (l : list A) (df : DataFrame) :
  List.length l = nrows df ->
  nrows (filter_rows (map p l) df) = List.length (filter p l).
Proof.
  intros H. unfold filter_rows. cbn [nrows].
  rewrite <- (filter_by_self p l). apply length_filter_by_same.
  now rewrite length_seq.
Qed.

(** The kept dates, under every column labelled "Date_only". *)
Lemma dated_frame_date_only (df : DataFrame) (parsed : list (option Z)) :
  lookup_all "Date_only" (dated_frame df parsed) <> []
  /\ forall s,
      In s (lookup_all "Date_only" (dated_frame df parsed)) ->
      s = map date_cell (filter (fun x => negb (is_nat x)) parsed).
Proof.
  unfold dated_frame. rewrite lookup_all_filter_rows, lookup_all_assign_same.
  assert (E : filter_by (map (fun x => negb (is_nat x)) parsed) (map date_cell parsed)
              = map date_cell (filter (fun x => negb (is_nat x)) parsed))
    by (rewrite filter_by_map, filter_by_self; reflexivity).
  destruct (lookup_all "Date_only" _) as [|x l]; cbn [map In].
  - split; [discriminate|]. intros s [<- | []]. exact E.
  - split; [discriminate|]. rewrite E. intros s [<- | H]; [reflexivity|].
    apply in_map_iff in H as (y & <- & Hy).
    apply in_map_iff in Hy as (z & <- & _). exact E.
Qed.

Lemma date_cells_are_dates (parsed : list (option Z)) :
  Forall (fun c => exists d, c = CDate d)
         (map date_cell (filter (fun x => negb (is_nat x)) parsed)).
Proof.
  apply Forall_map, Forall_forall. intros x Hx. apply filter_In in Hx as [_ Hx].
  destruct x as [v|]; [|discriminate Hx]. cbn [date_cell]. eauto.
Qed.

End DatedFrames.

(** X9.  After the rows without a date are dropped, no cell under
    "Date_only" is missing: each one is a calendar date.  If the frame had
    one cell per row in every column and one parsed value per row, the
    same holds afterwards, and the rows left are as many as the values
    that parsed. *)
Theorem dated_frame_has_only_dates (df : DataFrame) (parsed : list (option Z)) :
  lookup_all "Date_only" (dated_frame df parsed) <> []
  /\ Forall (Forall (fun c => exists d, c = CDate d))
            (lookup_all "Date_only" (dated_frame df parsed))
  /\ (well_formed df ->
      List.length parsed = nrows df ->
      well_formed (dated_frame df parsed)
      /\ nrows (dated_frame df parsed)
         = List.length (filter (fun x => negb (is_nat x)) parsed)).
Proof.
  destruct (dated_frame_date_only df parsed) as [Hne Hall].
  split; [exact Hne|]. split.
  - apply Forall_forall. intros s Hs. rewrite (Hall s Hs). apply date_cells_are_dates.
  - intros Hwf Hlen. unfold dated_frame. split.
    + apply well_formed_filter_rows.
      apply well_formed_assign; [now rewrite length_map, nrows_assign|].
      apply well_formed_assign; [now rewrite length_map | exact Hwf].
    + apply nrows_filter_rows. now rewrite !nrows_assign.
Qed.

(** X10.  The window filter keeps exactly the rows whose date lies in the
    window: the dates left are the dates of the window in their order,
    each a calendar date between the two ends, every column is cut down
    by the same mask, and the number of rows is the number of those
    dates. *)
Theorem window_rows_keeps_the_window (w : Z * Z) (df : DataFrame) (dates : Series) :
  well_formed df ->
  lookup_all "Date_only" df = [dates] ->
  let mask := map (cell_in_window w) dates in
  window_rows w df = Ok (filter_rows mask df)
  /\ well_formed (filter_rows mask df)
  /\ nrows (filter_rows mask df) = List.length (filter (cell_in_window w) dates)
  /\ lookup_all "Date_only" (filter_rows mask df) = [filter (cell_in_window w) dates]
  /\ Forall (fun c => exists d, c = CDate d /\ in_window w d = true)
            (filter (cell_in_window w) dates)
  /\ forall F, lookup_all F (filter_rows mask df) = map (filter_by mask) (lookup_all F df).
Proof.
  intros Hwf Hd mask.
  assert (Hlen : List.length dates = nrows df).
  { apply (well_formed_lookup "Date_only"); [exact Hwf|]. rewrite Hd. left. reflexivity. }
  split; [|split; [|split; [|split; [|split]]]].
  - unfold window_rows. rewrite (get_series_single _ _ _ Hd). reflexivity.
  - apply well_formed_filter_rows, Hwf.
  - apply nrows_filter_rows, Hlen.
  - rewrite lookup_all_filter_rows, Hd. cbn [map]. unfold mask.
    now rewrite filter_by_self.
  - apply Forall_forall. intros c Hc. apply filter_In in Hc as [_ Hc].
    destruct c; try discriminate Hc. eauto.
  - intros F. apply lookup_all_filter_rows.
Qed.

(** X10 at three dated rows and the week of Monday 2024-03-04. *)
Lemma window_rows_keeps_the_window_witness :
  window_rows (738949, 738955)%Z Sheets.dated_week
  = Ok (filter_rows [true; true; false] Sheets.dated_week).
Proof.
  exact (proj1 (window_rows_keeps_the_window (738949, 738955)%Z Sheets.dated_week
                  [CDate 738949; CDate 738951; CDate 738957]
                  ltac:(repeat constructor) eq_refl)).
Defined.

(** ** The two row views *)

Section RowViews.

Lemma mapM_inv {A B : Type} (f : A -> exc B) (l : list A) (bs : list B) :
  mapM f l = Ok bs -> Forall2 (fun a b => f a = Ok b) l bs.
Proof.
  revert bs. induction l as [|a l IH]; cbn [mapM]; intros bs H.
  - injection H as <-. constructor.
  - destruct (f a) as [b|] eqn:E; cbn [bind] in H; [|discriminate H].
    destruct (mapM f l) as [t|]; cbn [bind] in H; [|discriminate H].
    injection H as <-. constructor; [exact E | apply IH; reflexivity].
Qed.

(** The fill-in loop: a listed label without a column gets a column of
    its default, every other label keeps what it had. *)
Lemma fill_missing_lookup (names : list string) (df : DataFrame) (F : string) :
  lookup_all F (fill_missing names df)
  = match lookup_all F df with
    | [] => if existsb (String.eqb F) names
            then [repeat (view_default F) (nrows df)] else []
    | l => l
    end.
Proof.
  unfold fill_missing. revert df.
  induction names as [|n names IH]; intros df; cbn [fold_left existsb].
  - destruct (lookup_all F df); reflexivity.
  - rewrite IH, lookup_all_ensure_column, nrows_ensure_column.
    destruct (String.eqb F n) eqn:E; cbn [orb].
    + apply String.eqb_eq in E. subst n.
      destruct (lookup_all F df); reflexivity.
    + reflexivity.
Qed.

Lemma well_formed_fill_missing (names : list string) (df : DataFrame) :
  well_formed df -> well_formed (fill_missing names df).
Proof.
  unfold fill_missing. revert df.
  induction names as [|n names IH]; intros df H; cbn [fold_left]; [exact H|].
  apply IH, well_formed_ensure_column, H.
Qed.

(** [out[cols]]: the columns under a label are those of the frame if the
    label is listed, once for each time it is listed. *)
Lemma select_inv (names : list string) (df out : DataFrame) :
  select names df = Ok out ->
  nrows out = nrows df
  /\ (forall lc, In lc (df_cols out) -> In lc (df_cols df))
  /\ forall F,
      lookup_all F out
      = flat_map (fun c => if String.eqb c F then lookup_all F df else []) names.
Proof.
  unfold select. intros H.
  destruct (mapM _ names) as [picked|] eqn:E; cbn [bind] in H; [|discriminate H].
  injection H as <-. cbn [nrows df_cols]. apply mapM_inv in E.
  split; [reflexivity|].
  induction E as [|c l names picked Hc _ IH]; cbn [List.concat flat_map].
  - unfold lookup_all. cbn [df_cols filter map]. split; [intros ? []|reflexivity].
  - destruct IH as [IH1 IH2].
    assert (Hl : l = filter (fun lc => String.eqb (fst lc) c) (df_cols df)).
    { destruct (filter _ (df_cols df)); [discriminate Hc | now injection Hc]. }
    split.
    + intros lc Hin. apply in_app_or in Hin as [Hin | Hin]; [|apply IH1, Hin].
      rewrite Hl in Hin. apply filter_In in Hin. tauto.
    + intros F. unfold lookup_all in *. cbn [df_cols] in *.
      rewrite filter_app, map_app, IH2. f_equal.
      rewrite Hl. clear.
      induction (df_cols df) as [|[l0 s0] cs IHc]; cbn [filter fst].
      * destruct (String.eqb c F); reflexivity.
      * destruct (String.eqb l0 c) eqn:E1; cbn [filter fst].
        -- apply String.eqb_eq in E1. subst l0.
           destruct (String.eqb c F); cbn [map snd]; [now rewrite IHc | exact IHc].
        -- destruct (String.eqb l0 F) eqn:E2; cbn [map snd]; [|exact IHc].
           apply String.eqb_eq in E2. subst l0.
           rewrite String.eqb_sym in E1. rewrite E1 in IHc |- *.
           exact IHc.
Qed.

Lemma select_well_formed (names : list string) (df out : DataFrame) :
  select names df = Ok out -> well_formed df -> well_formed out.
Proof.
  intros H Hwf. destruct (select_inv _ _ _ H) as (Hn & Hin & _).
  unfold well_formed in *. rewrite Forall_forall in *. intros lc Hlc.
  rewrite Hn. apply Hwf, Hin, Hlc.
Qed.

Lemma cell_sub_numbers_ok (a b : cell) :
  is_number_cell a = true -> is_number_cell b = true -> exists c, cell_sub a b = Ok c.
Proof.
  intros Ha Hb. unfold cell_sub.
  destruct a; try discriminate Ha; destruct b; try discriminate Hb;
    cbn [num_of_cell]; eauto.
Qed.

End RowViews.

(** X11.  [next_week_rows] never fails.  Its table has the rows of the
    frame and exactly the seven labels of the plan; a label the frame has
    keeps its columns, a label it lacks gets a column of the default,
    which is the empty string for "Category" and "Planned Details" and the
    integer 0 for the others, "Subcategory" and "Line Item" included. *)
Theorem next_week_rows_total (df : DataFrame) :
  exists out,
    next_week_rows df = Ok out
    /\ nrows out = nrows df
    /\ (forall c, In c (columns out) <-> In c next_week_cols)
    /\ (forall F, In F next_week_cols ->
          lookup_all F out
          = match lookup_all F df with
            | [] => [repeat (view_default F) (nrows df)]
            | l => l
            end)
    /\ (well_formed df -> well_formed out)
    /\ map view_default next_week_cols
       = [CInt 0; CStr ""; CInt 0; CInt 0; CInt 0; CInt 0; CStr ""].
Proof.
  unfold next_week_rows.
  destruct (fill_missing_spec next_week_cols df) as [Hrows Hhas].
  destruct (select_present next_week_cols (fill_missing next_week_cols df))
    as (out & Hout & Hn & Hcols).
  { intros c Hin. rewrite Hhas. apply orb_true_iff. right. apply existsb_eqb_In, Hin. }
  exists out. split; [exact Hout|]. split; [now rewrite Hn|].
  split; [exact Hcols|]. split; [|split; [|reflexivity]].
  - intros F HF. destruct (select_inv _ _ _ Hout) as (_ & _ & Hl).
    rewrite Hl, fill_missing_lookup. cbn [next_week_cols In] in HF.
    repeat (destruct HF as [<- | HF];
            [cbn [next_week_cols flat_map existsb String.eqb Ascii.eqb Bool.eqb orb app];
             rewrite ?app_nil_r;
             match goal with
             | |- context [lookup_all ?f df] => now destruct (lookup_all f df)
             end|]).
    destruct HF.
  - intros Hwf. apply (select_well_formed _ _ _ Hout), well_formed_fill_missing, Hwf.
Qed.

(** ** The current-week view *)

Section CurrentWeek.

Lemma get_series_inv (name : string) (df : DataFrame) (s : Series) :
  get_series name df = Ok s -> lookup_all name df = [s].
Proof.
  unfold get_series, getitem.
  destruct (lookup_all name df) as [|x [|y l]]; cbn [bind]; intros H;
    try discriminate H.
  now injection H as <-.
Qed.

Lemma get_series_missing (name : string) (df : DataFrame) :
  has_column name df = false -> get_series name df = Raise (KeyError name).
Proof.
  intros H. apply has_column_lookup_all in H.
  unfold get_series, getitem. rewrite H. reflexivity.
Qed.

Lemma get_series_assign_other (F G : string) (s : Series) (df : DataFrame) :
  String.eqb F G = false -> get_series F (assign G s df) = get_series F df.
Proof.
  intros E. unfold get_series, getitem. now rewrite lookup_all_assign_other.
Qed.

Lemma zip_with_length {A B C : Type} (f : A -> B -> C) (l : list A) (l' : list B) :
  List.length (zip_with f l l') = Nat.min (List.length l) (List.length l').
Proof.
  revert l'. induction l as [|x l IH]; intros [|y l']; cbn [zip_with List.length];
    try reflexivity.
  now rewrite IH.
Qed.

(** A column written by [df[G] = s] holds [s] under every column labelled
    [G], and there is one. *)
Lemma lookup_all_assigned (G : string) (s : Series) (df : DataFrame) :
  lookup_all G (assign G s df) <> []
  /\ Forall (eq s) (lookup_all G (assign G s df)).
Proof.
  rewrite lookup_all_assign_same. destruct (lookup_all G df) as [|x l].
  - split; [discriminate | repeat constructor].
  - split; [discriminate|]. apply Forall_map, Forall_forall. reflexivity.
Qed.

End CurrentWeek.

(** X12.  The fill-in loop of [current_week_rows] comes too late for the
    four numeric columns: on a frame that lacks "Planned LI", "Actual LI",
    "Actual Efforts (mins)" or "Planned Efforts (mins)" the function
    raises, and when it is "Planned LI" that is missing the exception is
    the KeyError of that label. *)
Theorem current_week_rows_needs_numeric_columns (df : DataFrame) (F : string) :
  In F ["Planned LI"; "Actual LI"; "Actual Efforts (mins)"; "Planned Efforts (mins)"] ->
  has_column F df = false ->
  (exists e, current_week_rows df = Raise e)
  /\ (F = "Planned LI" -> current_week_rows df = Raise (KeyError "Planned LI")).
Proof.
  intros HF Hmiss. pose proof (get_series_missing F df Hmiss) as Hget. split.
  - unfold current_week_rows.
    destruct (get_series "Planned LI" df) as [p|e1] eqn:E1; cbn [bind]; [|eauto].
    destruct (get_series "Actual LI" df) as [a|e2] eqn:E2; cbn [bind]; [|eauto].
    rewrite !get_series_assign_other by reflexivity.
    destruct (get_series "Actual Efforts (mins)" df) as [ae|e3] eqn:E3; cbn [bind]; [|eauto].
    destruct (get_series "Planned Efforts (mins)" df) as [pe|e4] eqn:E4; cbn [bind]; [|eauto].
    exfalso. cbn [In] in HF.
    destruct HF as [<- | [<- | [<- | [<- | []]]]]; congruence.
  - intros ->. unfold current_week_rows. rewrite Hget. reflexivity.
Qed.

(** X12 at a sheet without an "Actual LI" column. *)
Lemma current_week_rows_needs_numeric_columns_witness :
  exists e, current_week_rows Sheets.twice_planned = Raise e.
Proof.
  exact (proj1 (current_week_rows_needs_numeric_columns Sheets.twice_planned "Actual LI"
                  (or_intror (or_introl eq_refl)) eq_refl)).
Defined.

(** X13.  On a frame with one column under each of the four numeric labels
    and numbers in the two effort columns, [current_week_rows] returns a
    table with the rows of the frame and the twelve labels of the view.
    "LI Match" reads "Match" where the planned and the actual count are
    equal and "Mismatch" elsewhere, "Effort Δ (mins)" is the actual
    minutes minus the planned minutes row by row, and every other label
    keeps the columns of the frame, or gets a column of the default when
    the frame has none. *)
Theorem current_week_rows_table (df : DataFrame) (p a pe ae : Series) :
  lookup_all "Planned LI" df = [p] ->
  lookup_all "Actual LI" df = [a] ->
  lookup_all "Planned Efforts (mins)" df = [pe] ->
  lookup_all "Actual Efforts (mins)" df = [ae] ->
  Forall (fun c => is_number_cell c = true) pe ->
  Forall (fun c => is_number_cell c = true) ae ->
  exists out delta,
    current_week_rows df = Ok out
    /\ nrows out = nrows df
    /\ (forall c, In c (columns out) <-> In c current_week_cols)
    /\ Forall2 (fun ap d => cell_sub (fst ap) (snd ap) = Ok d) (combine ae pe) delta
    /\ lookup_all "LI Match" out <> []
    /\ Forall (eq (zip_with (fun x y => if cell_eqb x y then CStr "Match" else CStr "Mismatch")
                            p a))
              (lookup_all "LI Match" out)
    /\ lookup_all "Effort Δ (mins)" out <> []
    /\ Forall (eq delta) (lookup_all "Effort Δ (mins)" out)
    /\ (forall F, In F current_week_cols ->
          F <> "LI Match" -> F <> "Effort Δ (mins)" ->
          lookup_all F out
          = match lookup_all F df with
            | [] => [repeat (view_default F) (nrows df)]
            | l => l
            end)
    /\ (well_formed df -> well_formed out).
Proof.
  intros Hp Ha Hpe Hae Npe Nae.
  destruct (mapM_total (fun ap => cell_sub (fst ap) (snd ap))
                       (fun ap d => cell_sub (fst ap) (snd ap) = Ok d) (combine ae pe))
    as (delta & Hdelta & Hrel).
  { intros [x y] Hin. cbn [fst snd].
    destruct (cell_sub_numbers_ok x y) as (c & Hc).
    - rewrite Forall_forall in Nae. apply Nae. eapply in_combine_l, Hin.
    - rewrite Forall_forall in Npe. apply Npe. eapply in_combine_r, Hin.
    - exists c. split; exact Hc. }
  set (m := zip_with (fun x y => if cell_eqb x y then CStr "Match" else CStr "Mismatch") p a).
  set (df1 := assign "LI Match" m df).
  set (df2 := assign "Effort Δ (mins)" delta df1).
  set (df3 := fill_missing current_week_cols df2).
  destruct (fill_missing_spec current_week_cols df2) as [Hrows Hhas].
  destruct (select_present current_week_cols df3) as (out & Hout & Hn & Hcols).
  { intros c Hin. unfold df3. rewrite Hhas. apply orb_true_iff. right.
    apply existsb_eqb_In, Hin. }
  assert (Hrun : current_week_rows df = Ok out).
  { unfold current_week_rows.
    rewrite (get_series_single _ _ _ Hp), (get_series_single _ _ _ Ha). cbn [bind].
    rewrite !get_series_assign_other by reflexivity.
    rewrite (get_series_single _ _ _ Hae), (get_series_single _ _ _ Hpe). cbn [bind].
    rewrite Hdelta. cbn [bind]. exact Hout. }
  destruct (select_inv _ _ _ Hout) as (_ & _ & Hl).
  assert (Hsel : forall F, In F current_week_cols -> lookup_all F out = lookup_all F df3).
  { intros F HF. rewrite Hl. cbn [current_week_cols In] in HF.
    repeat (destruct HF as [<- | HF];
            [cbn [current_week_cols flat_map String.eqb Ascii.eqb Bool.eqb app];
             now rewrite ?app_nil_r|]).
    destruct HF. }
  assert (Hfill : forall F, lookup_all F df2 <> [] -> lookup_all F df3 = lookup_all F df2).
  { intros F HF. unfold df3. rewrite fill_missing_lookup.
    destruct (lookup_all F df2); [now elim HF | reflexivity]. }
  exists out, delta.
  split; [exact Hrun|]. split; [unfold df3 in Hn; rewrite Hn, Hrows; unfold df2, df1;
                                 now rewrite !nrows_assign|].
  split; [exact Hcols|]. split; [exact Hrel|].
  assert (Hm : lookup_all "LI Match" df2 <> [] /\ Forall (eq m) (lookup_all "LI Match" df2)).
  { unfold df2. rewrite lookup_all_assign_other by reflexivity.
    apply lookup_all_assigned. }
  assert (Hd : lookup_all "Effort Δ (mins)" df2 <> []
               /\ Forall (eq delta) (lookup_all "Effort Δ (mins)" df2))
    by apply lookup_all_assigned.
  rewrite (Hsel "LI Match") by (cbn; tauto).
  rewrite (Hsel "Effort Δ (mins)") by (cbn; tauto).
  rewrite (Hfill "LI Match") by apply Hm.
  rewrite (Hfill "Effort Δ (mins)") by apply Hd.
  split; [apply Hm|]. split; [apply Hm|]. split; [apply Hd|]. split; [apply Hd|].
  split.
  - intros F HF N1 N2. rewrite (Hsel F HF). unfold df3. rewrite fill_missing_lookup.
    assert (E1 : String.eqb F "LI Match" = false) by now apply String.eqb_neq.
    assert (E2 : String.eqb F "Effort Δ (mins)" = false) by now apply String.eqb_neq.
    unfold df2, df1. rewrite !lookup_all_assign_other by assumption.
    rewrite !nrows_assign.
    apply existsb_eqb_In in HF. rewrite HF. reflexivity.
  - intros Hwf.
    assert (Hlen : forall F s, lookup_all F df = [s] -> List.length s = nrows df).
    { intros F s Hs. apply (well_formed_lookup F); [exact Hwf|]. rewrite Hs. now left. }
    apply (select_well_formed _ _ _ Hout). unfold df3.
    apply well_formed_fill_missing. unfold df2.
    apply well_formed_assign.
    + rewrite (mapM_length _ _ _ Hdelta), length_combine,
        (Hlen _ _ Hae), (Hlen _ _ Hpe). unfold df1. rewrite nrows_assign. apply Nat.min_id.
    + unfold df1. apply well_formed_assign; [|exact Hwf].
      unfold m. rewrite zip_with_length, (Hlen _ _ Hp), (Hlen _ _ Ha). apply Nat.min_id.
Qed.

(** X13 at three rows with counts and minutes. *)
Lemma current_week_rows_table_witness :
  exists out, current_week_rows Sheets.dated_week = Ok out /\ nrows out = 3%nat.
Proof.
  destruct (current_week_rows_table Sheets.dated_week
              [CInt 3; CInt 2; CInt 1]%Z [CInt 3; CInt 1; CInt 0]%Z
              [CFloat 60; CFloat 30; CFloat 45]%float
              [CFloat 50; CFloat 35; CFloat 0]%float
              eq_refl eq_refl eq_refl eq_refl
              ltac:(repeat constructor) ltac:(repeat constructor))
    as (out & delta & H1 & H2 & _).
  exists out. split; [exact H1 | exact H2].
Defined.

(** ** The groups of the deviation table *)

From Stdlib Require Import Sorted.
From Stdlib Require OrderedTypeEx.

Section GroupKeys.

Context {L : Library}.

Lemma compare_lt_trans (a b c : string) :
  String.compare a b = Lt -> String.compare b c = Lt -> String.compare a c = Lt.
Proof.
  intros H1 H2.
  apply (proj1 (OrderedTypeEx.String_as_OT.cmp_lt a b)) in H1.
  apply (proj1 (OrderedTypeEx.String_as_OT.cmp_lt b c)) in H2.
  apply (proj2 (OrderedTypeEx.String_as_OT.cmp_lt a c)).
  exact (OrderedTypeEx.String_as_OT.lt_trans _ _ _ H1 H2).
Qed.

Lemma compare_eq (a b : string) : String.compare a b = Eq <-> a = b.
Proof. exact (OrderedTypeEx.String_as_OT.cmp_eq a b). Qed.

Lemma compare_refl (a : string) : String.compare a a = Eq.
Proof. now apply compare_eq. Qed.

Lemma compare_gt_lt (a b : string) :
  String.compare a b = Gt -> String.compare b a = Lt.
Proof.
  intros H. pose proof (OrderedTypeEx.String_as_OT.cmp_antisym b a) as E.
  unfold OrderedTypeEx.String_as_OT.cmp in E. rewrite H in E. exact E.
Qed.

Lemma key_eqb_eq (k k' : string * string * string) :
  key_eqb k k' = true <-> k = k'.
Proof.
  destruct k as [[a b] c], k' as [[a' b'] c']. unfold key_eqb.
  rewrite !andb_true_iff, !String.eqb_eq. split.
  - intros [[-> ->] ->]. reflexivity.
  - intros H. injection H as -> -> ->. auto.
Qed.

Lemma key_ltb_irrefl (k : string * string * string) : key_ltb k k = false.
Proof.
  destruct k as [[a b] c]. unfold key_ltb. now rewrite !compare_refl.
Qed.

Lemma key_ltb_trans (k1 k2 k3 : string * string * string) :
  key_ltb k1 k2 = true -> key_ltb k2 k3 = true -> key_ltb k1 k3 = true.
Proof.
  destruct k1 as [[a1 b1] c1], k2 as [[a2 b2] c2], k3 as [[a3 b3] c3].
  unfold key_ltb. intros H1 H2.
  destruct (String.compare a1 a2) eqn:A12; [|clear H1|discriminate H1].
  2:{ destruct (String.compare a2 a3) eqn:A23; [| |discriminate H2].
      - apply compare_eq in A23. subst a3. now rewrite A12.
      - now rewrite (compare_lt_trans _ _ _ A12 A23). }
  apply compare_eq in A12. subst a2.
  destruct (String.compare a1 a3); [|reflexivity|discriminate H2].
  destruct (String.compare b1 b2) eqn:B12; [|clear H1|discriminate H1].
  2:{ destruct (String.compare b2 b3) eqn:B23; [| |discriminate H2].
      - apply compare_eq in B23. subst b3. now rewrite B12.
      - now rewrite (compare_lt_trans _ _ _ B12 B23). }
  apply compare_eq in B12. subst b2.
  destruct (String.compare b1 b3); [|reflexivity|discriminate H2].
  destruct (String.compare c1 c2) eqn:C12; try discriminate H1.
  destruct (String.compare c2 c3) eqn:C23; try discriminate H2.
  now rewrite (compare_lt_trans _ _ _ C12 C23).
Qed.

Lemma key_ltb_total (k k' : string * string * string) :
  key_eqb k k' = false -> key_ltb k k' = false -> key_ltb k' k = true.
Proof.
  destruct k as [[a b] c], k' as [[a' b'] c']. unfold key_eqb, key_ltb. intros He Hl.
  destruct (String.compare a a') eqn:A; [|discriminate Hl|].
  2:{ now rewrite (compare_gt_lt _ _ A). }
  apply compare_eq in A. subst a'. rewrite compare_refl.
  destruct (String.compare b b') eqn:B; [|discriminate Hl|].
  2:{ now rewrite (compare_gt_lt _ _ B). }
  apply compare_eq in B. subst b'. rewrite compare_refl.
  destruct (String.compare c c') eqn:C; [|discriminate Hl|].
  2:{ now rewrite (compare_gt_lt _ _ C). }
  apply compare_eq in C. subst c'.
  rewrite !String.eqb_refl in He. discriminate He.
Qed.

Lemma insert_key_In (k x : string * string * string) (ks : list (string * string * string)) :
  In x (insert_key k ks) <-> x = k \/ In x ks.
Proof.
  induction ks as [|k' rest IH]; cbn [insert_key In].
  - intuition congruence.
  - destruct (key_eqb k k') eqn:E.
    + apply key_eqb_eq in E. subst k'. cbn [In]. intuition congruence.
    + destruct (key_ltb k k'); cbn [In]; [intuition congruence|].
      rewrite IH. intuition congruence.
Qed.

Lemma insert_key_sorted (k : string * string * string) (ks : list (string * string * string)) :
  StronglySorted (fun a b => key_ltb a b = true) ks ->
  StronglySorted (fun a b => key_ltb a b = true) (insert_key k ks).
Proof.
  induction ks as [|k' rest IH]; cbn [insert_key]; intros H.
  - repeat constructor.
  - inversion H as [|? ? Hrest Hall]; subst.
    destruct (key_eqb k k') eqn:E; [exact H|].
    destruct (key_ltb k k') eqn:E'.
    + constructor; [exact H|]. constructor; [exact E'|].
      eapply Forall_impl; [|exact Hall]. intros x Hx.
      exact (key_ltb_trans _ _ _ E' Hx).
    + constructor; [apply IH, Hrest|].
      apply Forall_forall. intros x Hx. apply insert_key_In in Hx as [-> | Hx].
      * apply key_ltb_total; assumption.
      * rewrite Forall_forall in Hall. apply Hall, Hx.
Qed.

Lemma insert_key_length (k : string * string * string) (ks : list (string * string * string)) :
  (List.length (insert_key k ks) <= S (List.length ks))%nat.
Proof.
  induction ks as [|k' rest IH]; cbn [insert_key List.length]; [lia|].
  destruct (key_eqb k k'); [cbn [List.length]; lia|].
  destruct (key_ltb k k'); cbn [List.length]; lia.
Qed.

Lemma fold_insert_keys (rows : list dev_input) (acc : list (string * string * string)) :
  let ks := fold_left (fun ks r => insert_key (in_key r) ks) rows acc in
  (forall k, In k ks <-> In k acc \/ exists r, In r rows /\ in_key r = k)
  /\ (StronglySorted (fun a b => key_ltb a b = true) acc ->
      StronglySorted (fun a b => key_ltb a b = true) ks)
  /\ (List.length ks <= List.length acc + List.length rows)%nat.
Proof.
  revert acc. induction rows as [|r rows IH]; intros acc; cbn [fold_left List.length].
  - split; [|split; [auto | lia]].
    intros k. split; [auto|]. intros [H | (r & [] & _)]. exact H.
  - destruct (IH (insert_key (in_key r) acc)) as (HIn & Hsorted & Hlen).
    split; [|split].
    + intros k. rewrite HIn, insert_key_In. cbn [In]. split.
      * intros [[-> | H] | (r' & Hr' & E)]; eauto.
      * intros [H | (r' & [<- | Hr'] & E)]; eauto.
    + intros H. apply Hsorted, insert_key_sorted, H.
    + pose proof (insert_key_length (in_key r) acc). lia.
Qed.

Lemma sorted_NoDup (ks : list (string * string * string)) :
  StronglySorted (fun a b => key_ltb a b = true) ks -> NoDup ks.
Proof.
  induction 1 as [|k ks _ IH Hall]; constructor; [|exact IH].
  intros Hin. rewrite Forall_forall in Hall. specialize (Hall k Hin).
  rewrite key_ltb_irrefl in Hall. discriminate Hall.
Qed.

Lemma summarized_keys (rows : list dev_input) (ks : list (string * string * string))
      (rs : list dev_row) :
  Forall2 (summarized rows) ks rs ->
  map (fun r => (category r, subcategory r, line_item r)) rs = ks.
Proof.
  induction 1 as [|k r ks rs Hk _ IH]; cbn [map]; [reflexivity|].
  destruct Hk as [Hk _]. now rewrite Hk, IH.
Qed.

End GroupKeys.

(** X14.  The deviation table has one row for each distinct (Category,
    Subcategory, Line Item) triple of the rows it is given, and no other:
    the triples of its rows are pairwise different, come in ascending
    tuple order, and a triple is there exactly when some input row has it.
    So the table never has more rows than the input. *)
Theorem deviation_groups_sorted_distinct `{L : Library} (rows : list dev_input) :
  exists rs,
    dev_rows rows = Ok rs
    /\ map (fun r => (category r, subcategory r, line_item r)) rs = group_keys rows
    /\ (forall k, In k (group_keys rows) <-> exists r, In r rows /\ in_key r = k)
    /\ StronglySorted (fun a b => key_ltb a b = true) (group_keys rows)
    /\ NoDup (group_keys rows)
    /\ (List.length rs <= List.length rows)%nat.
Proof.
  destruct (dev_rows_total rows) as (rs & Hrs & Hall).
  destruct (fold_insert_keys rows []) as (HIn & Hsorted & Hlen).
  fold (group_keys rows) in HIn, Hsorted, Hlen.
  exists rs. split; [exact Hrs|].
  split; [exact (summarized_keys _ _ _ Hall)|].
  split; [|split; [|split]].
  - intros k. rewrite HIn. cbn [In]. tauto.
  - apply Hsorted. constructor.
  - apply sorted_NoDup, Hsorted. constructor.
  - rewrite <- (Forall2_length Hall). exact Hlen.
Qed.

(** ** The handler *)

Section HandlerOutcomes.

Context {L : Library}.

Local Open Scope string_scope.

Lemma endswith_iff (p s : string) :
  Str.endswith p s = true <-> exists pre, s = pre ++ p.
Proof.
  induction s as [|b s IH]; cbn [Str.endswith].
  - rewrite orb_false_r, String.eqb_eq. split.
    + intros ->. exists "". reflexivity.
    + intros [pre H]. destruct pre; cbn [String.append] in H; [now subst | discriminate H].
  - rewrite orb_true_iff, String.eqb_eq, IH. split.
    + intros [-> | [pre ->]]; [exists ""; reflexivity | exists (String b pre); reflexivity].
    + intros [pre H]. destruct pre as [|a pre]; cbn [String.append] in H.
      * left. now subst.
      * right. injection H as _ ->. eauto.
Qed.

(** What a returning [finish] has done. *)
Lemma finish_inv (w : World) (receiver : string) (df : DataFrame)
      (outbox : list mail) (resp : response) (ob : list mail) :
  finish w receiver df outbox = Ok (resp, ob) ->
  exists sc ec sn en cur nxt cur_stats nxt_plan dev_sum,
    get_week_ranges (today w) = Ok ((sc, ec), (sn, en))
    /\ window_rows (sc, ec) df = Ok cur
    /\ window_rows (sn, en) df = Ok nxt
    /\ current_week_rows cur = Ok cur_stats
    /\ next_week_rows nxt = Ok nxt_plan
    /\ deviation_summary cur = Ok dev_sum
    /\ let current_range := str_of_date sc ++ " to " ++ str_of_date ec in
       let msg := mkMail ("Weekly Summary: " ++ current_range) (email_from w) receiver
                         (build_email_html cur_stats nxt_plan dev_sum sc ec sn en (now_text w)) in
       smtp_session w msg = Ok tt
       /\ resp = Sent current_range (str_of_date sn ++ " to " ++ str_of_date en)
                      (nrows cur_stats) (nrows nxt_plan)
       /\ ob = (outbox ++ [msg])%list.
Proof.
  unfold finish. intros H.
  destruct (get_week_ranges (today w)) as [[[sc ec] [sn en]]|]; cbn [bind] in H;
    [|discriminate H].
  destruct (window_rows (sc, ec) df) as [cur|] eqn:Ec; cbn [bind] in H; [|discriminate H].
  destruct (window_rows (sn, en) df) as [nxt|] eqn:En; cbn [bind] in H; [|discriminate H].
  destruct (current_week_rows cur) as [cs|] eqn:Ecs; cbn [bind] in H; [|discriminate H].
  destruct (next_week_rows nxt) as [np|] eqn:Enp; cbn [bind] in H; [|discriminate H].
  destruct (deviation_summary cur) as [ds|] eqn:Eds; cbn [bind] in H; [|discriminate H].
  destruct (smtp_session w _) as [[]|] eqn:Es; cbn [bind] in H; [|discriminate H].
  injection H as <- <-.
  exists sc, ec, sn, en, cur, nxt, cs, np, ds. cbn zeta. auto 10.
Qed.


End HandlerOutcomes.


(** X16.  A request with a receiver and a named file whose lower-cased
    name does not end in ".xlsx" is answered 500 with the message of
    [load_xlsx], whatever the file holds, and nothing is sent.  When the
    lower-cased name does end in ".xlsx", [load_xlsx] returns what reading
    the workbook gives, its failure included. *)
Theorem upload_rejected_unless_xlsx `{L : Library}
        (w : World) (req : request) (outbox : list mail) (r : string) (f : upload) :
  form_or (form_receiver_email req) (form_email req) = Some r ->
  r <> "" ->
  files_file req = Some f ->
  filename f <> "" ->
  ((~ exists pre, Str.lower (filename f) = (pre ++ ".xlsx")%string) ->
   upload_timesheet w req outbox = (Failure 500 "Only .xlsx files accepted.", outbox))
  /\ ((exists pre, Str.lower (filename f) = (pre ++ ".xlsx")%string) ->
      load_xlsx f = sheet f).
Proof.
  intros Hr Hne Hf Hname. apply String.eqb_neq in Hne, Hname. split.
  - intros Hno. unfold upload_timesheet. rewrite Hr, Hf, Hne, Hname. cbn [orb].
    assert (E : Str.endswith ".xlsx" (Str.lower (filename f)) = false).
    { destruct (Str.endswith ".xlsx" (Str.lower (filename f))) eqn:E; [|reflexivity].
      elim Hno. apply endswith_iff, E. }
    unfold process, load_xlsx. rewrite E. reflexivity.
  - intros Hyes. apply endswith_iff in Hyes. unfold load_xlsx. now rewrite Hyes.
Qed.

(** X16 at an upload named "Week.XLSX", which is accepted. *)
Lemma upload_rejected_unless_xlsx_witness :
  load_xlsx (mkUpload "Week.XLSX" (Ok Examples.mixed_sheet)) = Ok Examples.mixed_sheet.
Proof.
  exact (proj2 (upload_rejected_unless_xlsx (L := Ref.library) Examples.wednesday
                  (mkRequest (Some "lead@example.org") None
                             (Some (mkUpload "Week.XLSX" (Ok Examples.mixed_sheet))))
                  [] "lead@example.org" (mkUpload "Week.XLSX" (Ok Examples.mixed_sheet))
                  eq_refl ltac:(discriminate) eq_refl ltac:(discriminate))
               (ex_intro _ "week" eq_refl)).
Defined.

(** ** The counts of the acknowledgment *)

Section Counts.

Context {L : Library}.

Local Open Scope string_scope.

Lemma bind_ok {A B : Type} (m : exc A) (k : A -> exc B) (b : B) :
  bind m k = Ok b -> exists a, m = Ok a /\ k a = Ok b.
Proof.
  destruct m as [a|e]; cbn [bind]; intros H; [eauto | discriminate H].
Qed.

Lemma current_week_rows_nrows (df out : DataFrame) :
  current_week_rows df = Ok out -> nrows out = nrows df.
Proof.
  unfold current_week_rows. intros H.
  apply bind_ok in H as (p & _ & H).
  apply bind_ok in H as (a & _ & H).
  apply bind_ok in H as (ae & _ & H).
  apply bind_ok in H as (pe & _ & H).
  apply bind_ok in H as (delta & _ & H).
  apply select_inv in H as (Hn & _). rewrite Hn.
  rewrite (proj1 (fill_missing_spec _ _)). now rewrite !nrows_assign.
Qed.

Lemma next_week_rows_nrows (df out : DataFrame) :
  next_week_rows df = Ok out -> nrows out = nrows df.
Proof.
  unfold next_week_rows. intros H.
  apply select_inv in H as (Hn & _). rewrite Hn.
  apply (proj1 (fill_missing_spec _ _)).
Qed.

Lemma window_rows_inv (w : Z * Z) (df out : DataFrame) :
  window_rows w df = Ok out ->
  exists dates,
    lookup_all "Date_only" df = [dates]
    /\ out = filter_rows (map (cell_in_window w) dates) df.
Proof.
  unfold window_rows. intros H.
  destruct (get_series "Date_only" df) as [dates|] eqn:E; cbn [bind] in H; [|discriminate H].
  injection H as <-. exists dates. split; [apply get_series_inv, E | reflexivity].
Qed.

Lemma filter_disjoint_length {A : Type} (p q : A -> bool) (l : list A) :
  (forall x, p x && q x = false) ->
  (List.length (filter p l) + List.length (filter q l) <= List.length l)%nat.
Proof.
  intros H. induction l as [|x l IH]; cbn [filter List.length]; [lia|].
  specialize (H x). destruct (p x), (q x); cbn [List.length]; try discriminate H; lia.
Qed.

Lemma cell_windows_disjoint (m : Z) (c : cell) :
  cell_in_window (m, m + 6)%Z c && cell_in_window (m + 7, m + 13)%Z c = false.
Proof.
  destruct c; try reflexivity. cbn [cell_in_window].
  replace (m + 7)%Z with (m + 6 + 1)%Z by lia.
  replace (m + 13)%Z with (m + 6 + 1 + 6)%Z by lia.
  apply windows_disjoint.
Qed.

End Counts.

(** X17.  When the handler's last stage acknowledges a frame with one
    cell per row in every column, "current_rows" is the number of rows
    dated from the Monday of today's week to the Sunday after it,
    "next_rows" the number of rows dated in the seven days after that, no
    row is counted twice, so the two counts add up to at most the rows of
    the frame, and the two ranges of the answer are those two weeks. *)
Theorem acknowledged_counts_are_week_rows `{L : Library}
        (w : World) (receiver : string) (df : DataFrame) (outbox : list mail)
        (cr nr : string) (c n : nat) (ob : list mail) :
  well_formed df ->
  finish w receiver df outbox = Ok (Sent cr nr c n, ob) ->
  let m := (today w - Cal.weekday (today w))%Z in
  exists dates,
    lookup_all "Date_only" df = [dates]
    /\ c = List.length (filter (cell_in_window (m, m + 6)%Z) dates)
    /\ n = List.length (filter (cell_in_window (m + 7, m + 13)%Z) dates)
    /\ (c + n <= nrows df)%nat
    /\ cr = (str_of_date m ++ " to " ++ str_of_date (m + 6))%string
    /\ nr = (str_of_date (m + 7) ++ " to " ++ str_of_date (m + 13))%string.
Proof.
  intros Hwf H m.
  apply finish_inv in H
    as (sc & ec & sn & en & cur & nxt & cs & np & ds
        & Hr & Hc & Hn & Hcs & Hnp & _ & _ & Hresp & _).
  apply get_week_ranges_inv in Hr as (Hr & _). fold m in Hr.
  injection Hr as -> -> -> ->.
  injection Hresp as -> -> -> ->.
  apply window_rows_inv in Hc as (dates & Hd & ->).
  apply window_rows_inv in Hn as (dates' & Hd' & ->).
  rewrite Hd in Hd'. injection Hd' as <-.
  assert (Hlen : List.length dates = nrows df).
  { apply (well_formed_lookup "Date_only"); [exact Hwf|]. rewrite Hd. now left. }
  rewrite (current_week_rows_nrows _ _ Hcs), (next_week_rows_nrows _ _ Hnp).
  rewrite !(nrows_filter_rows _ _ _ Hlen).
  exists dates. split; [exact Hd|]. split; [reflexivity|]. split; [reflexivity|].
  split; [|split; reflexivity].
  rewrite <- Hlen. apply filter_disjoint_length. intros x. apply cell_windows_disjoint.
Qed.

(** The last stage run on five dated rows on Wednesday 2024-03-06. *)
Lemma finish_five_dated_rows :
  exists html,
    finish (L := Ref.library) Examples.wednesday "lead@example.org"
           (dated_frame Examples.mixed_sheet_normalized Examples.mixed_parsed) []
    = Ok (Sent "2024-03-04 to 2024-03-10" "2024-03-11 to 2024-03-17" 3 2,
          [mkMail "Weekly Summary: 2024-03-04 to 2024-03-10"
                  "reports@example.org" "lead@example.org" html]).
Proof. eexists. vm_compute. reflexivity. Qed.

(** X17 at that run: three rows this week, two the next, five in all. *)
Lemma acknowledged_counts_are_week_rows_witness :
  exists dates,
    lookup_all "Date_only" (dated_frame Examples.mixed_sheet_normalized Examples.mixed_parsed)
    = [dates]
    /\ 3%nat = List.length (filter (cell_in_window (738949, 738949 + 6)%Z) dates)
    /\ 2%nat = List.length (filter (cell_in_window (738949 + 7, 738949 + 13)%Z) dates).
Proof.
  destruct finish_five_dated_rows as [html E].
  destruct (acknowledged_counts_are_week_rows (L := Ref.library)
              Examples.wednesday "lead@example.org"
              (dated_frame Examples.mixed_sheet_normalized Examples.mixed_parsed) []
              _ _ _ _ _ ltac:(vm_compute; repeat constructor) E)
    as (dates & H1 & H2 & H3 & _).
  exists dates. split; [exact H1|]. split; [exact H2 | exact H3].
Defined.

(** ** The rendered tables *)

Section Rendering.

Context {L : Library}.

Local Open Scope string_scope.

Lemma append_assoc (a b c : string) : (a ++ b) ++ c = a ++ b ++ c.
Proof. induction a as [|x a IH]; cbn [String.append]; [reflexivity | now rewrite IH]. Qed.

Lemma append_empty_r (a : string) : a ++ "" = a.
Proof. induction a as [|x a IH]; cbn [String.append]; [reflexivity | now rewrite IH]. Qed.

Lemma occurs_in_refl (x : string) : occurs_in x x.
Proof. exists "", "". cbn [String.append]. now rewrite append_empty_r. Qed.

Lemma occurs_in_app_l (x a y : string) : occurs_in x y -> occurs_in x (a ++ y).
Proof. intros (pre & post & ->). exists (a ++ pre), post. now rewrite append_assoc. Qed.

Lemma occurs_in_app_r (x y b : string) : occurs_in x y -> occurs_in x (y ++ b).
Proof.
  intros (pre & post & ->). exists pre, (post ++ b). now rewrite !append_assoc.
Qed.

Lemma occurs_in_trans (x y z : string) : occurs_in x y -> occurs_in y z -> occurs_in x z.
Proof.
  intros Hxy (pre & post & ->). apply occurs_in_app_l, occurs_in_app_r, Hxy.
Qed.

Lemma occurs_in_concat (x : string) (l : list string) :
  In x l -> occurs_in x (String.concat "" l).
Proof.
  induction l as [|y l IH]; [intros []|].
  intros Hin. cbn [String.concat]. destruct l as [|z l].
  - destruct Hin as [<- | []]. apply occurs_in_refl.
  - destruct Hin as [<- | Hin].
    + apply occurs_in_app_r, occurs_in_refl.
    + apply occurs_in_app_l, occurs_in_app_l, IH, Hin.
Qed.

Lemma occurs_in_html_row (df : DataFrame) (i : nat) (label : string) (col : Series) :
  In (label, col) (df_cols df) ->
  occurs_in ("<td style='padding:8px;border-bottom:1px solid #f1f5f9'>"
             ++ str_of_cell (nth i col CNaN) ++ "</td>")
            (html_row df i).
Proof.
  intros Hin. unfold html_row. cbv zeta.
  do 3 apply occurs_in_app_l. apply occurs_in_app_r, occurs_in_concat.
  apply in_map_iff. exists (nth i col CNaN). split; [reflexivity|].
  unfold row_cells. apply in_map_iff. exists (label, col). split; [reflexivity | exact Hin].
Qed.

End Rendering.

(** X18.  [html_table] writes labels and cells into the markup as they
    are, with no escaping: in the table of a frame that is not empty, the
    label of every column stands between the tags of a header cell, and
    under a label that names one column the text of the cell of every row
    stands between the tags of a data cell, whatever characters it has. *)
Theorem html_table_writes_text_unescaped `{L : Library}
        (df : DataFrame) (msg label : string) (col : Series) (i : nat) (s : string) :
  empty df = false ->
  lookup_all label df = [col] ->
  (i < nrows df)%nat ->
  nth i col CNaN = CStr s ->
  occurs_in ("<th style='padding:8px;text-align:left;border-bottom:1px solid #e6eefb'>"
             ++ label ++ "</th>")%string
            (html_table df msg)
  /\ occurs_in ("<td style='padding:8px;border-bottom:1px solid #f1f5f9'>" ++ s ++ "</td>")%string
               (html_table df msg).
Proof.
  intros He Hl Hi Hs.
  assert (Hin : In (label, col) (df_cols df)).
  { apply lookup_all_In. rewrite Hl. now left. }
  unfold html_table. rewrite He. cbv zeta. split.
  - do 2 apply occurs_in_app_l. apply occurs_in_app_r, occurs_in_concat.
    apply in_map_iff. exists label. split; [reflexivity|].
    unfold columns. apply in_map_iff. exists (label, col). split; [reflexivity | exact Hin].
  - do 5 apply occurs_in_app_l. apply occurs_in_app_r.
    apply (occurs_in_trans _ (html_row df i)).
    + pose proof (occurs_in_html_row df i label col Hin) as H.
      rewrite Hs in H. exact H.
    + apply occurs_in_concat, in_map, in_seq. lia.
Qed.

(** X18 at a task written with markup. *)
Lemma html_table_writes_text_unescaped_witness :
  occurs_in "<td style='padding:8px;border-bottom:1px solid #f1f5f9'><b>Build</b> & ship</td>"
            (html_table (L := Ref.library) Sheets.markup_row "No current-week records").
Proof.
  exact (proj2 (html_table_writes_text_unescaped (L := Ref.library) Sheets.markup_row
                  "No current-week records" "Line Item" [CStr "<b>Build</b> & ship"] 0
                  "<b>Build</b> & ship" eq_refl eq_refl Nat.lt_0_1 eq_refl)).
Defined.
